(** * Help tickets: claim queue, closing statistics, escalation timer, reload,
      opening, deleting and banning

    A shallow embedding of [server/chat-plugins/helptickets.ts].

    Conventions of the embedding.
    - Timestamps ([Date.now()]) are integers ([Z]); every handler takes the
      time of the call as its argument [now].
    - A JavaScript value used as a condition is modelled by its truthiness:
      a number is truthy when it is not [0], a [string | null] when it is a
      non-empty string.
    - Chat output, moderation log lines, the throttled write of the ticket
      table and the staff notification are side effects outside the ticket
      state; they are left out.  The statistics line appended by
      [writeStats] is returned by the functions that emit it.
    - [notifyStaff] and the callback of its timer are embedded on their own,
      over the ticket table: their counters, flags and the timer, not the
      messages they send. *)

From Stdlib Require Import ZArith.
From stdpp Require Import base gmap strings list fin_maps.

Open Scope string_scope.
Open Scope list_scope.
Open Scope Z_scope.

(** ** Data model *)

(** [ID] is the server's type of normalised names; it is a string. *)
Abbreviation ID := string (only parsing).

Definition TICKET_CACHE_TIME : Z := 24 * 60 * 60 * 1000.
Definition NOTIFY_ALL_TIMEOUT : Z := 5 * 60 * 1000.
Definition NOTIFY_ASSIST_TIMEOUT : Z := 60 * 1000.

(** The fields of a [User] the plugin reads.  [canLock] is the outcome of
    [user.can('lock')]. *)
Module User.
Record t := mk {
  id : ID;
  name : string;
  isStaff : bool;
  named : bool;
  canLock : bool }.
End User.

(** [interface TicketState].  The optional flags [needsDelayWarning] and
    [offline] are [false] when absent. *)
Record TicketState := mkTicketState {
  creator : string;
  userid : ID;
  open : bool;
  active : bool;
  type : string;
  created : Z;
  claimed : option string;
  ip : string;
  needsDelayWarning : bool;
  offline : bool }.

Inductive Resolution := unknown | dead | unresolved | resolved.

Inductive TicketResult :=
  approved | valid | assisted | denied | invalid | unassisted | ticketban | deleted.

(** The argument of [close] and [writeStats]: [boolean | 'ticketban' | 'deleted']. *)
Inductive CloseResult :=
| CloseBool (b : bool)
| CloseTicketban
| CloseDeleted.

(** [class HelpTicket].  [playerTable] is inherited from the base class
    [Rooms.RoomGame]; it is kept as the list of the ids that are players. *)
Record HelpTicket := mkHelpTicket {
  ticket : TicketState;
  claimQueue : list string;
  involvedStaff : list ID;
  createTime : Z;
  activationTime : Z;
  emptyRoom : bool;
  firstClaimTime : Z;
  unclaimedTime : Z;
  lastUnclaimedStart : Z;
  closeTime : Z;
  resolution : Resolution;
  result : option TicketResult;
  playerTable : list ID }.

(** One line of the statistics log, field by field:
    [type, totalTime, timeToFirstClaim, inactiveTime, resolution, result, staff]. *)
Record StatLine := mkStatLine {
  line_type : string;
  line_totalTime : Z;
  line_firstClaimWait : Z;
  line_unclaimedTime : Z;
  line_resolution : Resolution;
  line_result : option TicketResult;
  line_involvedStaff : string }.

(** *** Field updates *)

Definition set_open (b : bool) (t : TicketState) : TicketState :=
  mkTicketState (creator t) (userid t) b (active t) (type t) (created t)
    (claimed t) (ip t) (needsDelayWarning t) (offline t).

Definition set_active (b : bool) (t : TicketState) : TicketState :=
  mkTicketState (creator t) (userid t) (open t) b (type t) (created t)
    (claimed t) (ip t) (needsDelayWarning t) (offline t).

Definition set_claimed (c : option string) (t : TicketState) : TicketState :=
  mkTicketState (creator t) (userid t) (open t) (active t) (type t) (created t)
    c (ip t) (needsDelayWarning t) (offline t).

Definition set_needsDelayWarning (b : bool) (t : TicketState) : TicketState :=
  mkTicketState (creator t) (userid t) (open t) (active t) (type t) (created t)
    (claimed t) (ip t) b (offline t).

Definition set_offline (b : bool) (t : TicketState) : TicketState :=
  mkTicketState (creator t) (userid t) (open t) (active t) (type t) (created t)
    (claimed t) (ip t) (needsDelayWarning t) b.

Definition set_ticket (t : TicketState) (g : HelpTicket) : HelpTicket :=
  mkHelpTicket t (claimQueue g) (involvedStaff g) (createTime g)
    (activationTime g) (emptyRoom g) (firstClaimTime g) (unclaimedTime g)
    (lastUnclaimedStart g) (closeTime g) (resolution g) (result g) (playerTable g).

Definition set_claimQueue (q : list string) (g : HelpTicket) : HelpTicket :=
  mkHelpTicket (ticket g) q (involvedStaff g) (createTime g)
    (activationTime g) (emptyRoom g) (firstClaimTime g) (unclaimedTime g)
    (lastUnclaimedStart g) (closeTime g) (resolution g) (result g) (playerTable g).

Definition set_involvedStaff (s : list ID) (g : HelpTicket) : HelpTicket :=
  mkHelpTicket (ticket g) (claimQueue g) s (createTime g)
    (activationTime g) (emptyRoom g) (firstClaimTime g) (unclaimedTime g)
    (lastUnclaimedStart g) (closeTime g) (resolution g) (result g) (playerTable g).

Definition set_activationTime (z : Z) (g : HelpTicket) : HelpTicket :=
  mkHelpTicket (ticket g) (claimQueue g) (involvedStaff g) (createTime g)
    z (emptyRoom g) (firstClaimTime g) (unclaimedTime g)
    (lastUnclaimedStart g) (closeTime g) (resolution g) (result g) (playerTable g).

Definition set_emptyRoom (b : bool) (g : HelpTicket) : HelpTicket :=
  mkHelpTicket (ticket g) (claimQueue g) (involvedStaff g) (createTime g)
    (activationTime g) b (firstClaimTime g) (unclaimedTime g)
    (lastUnclaimedStart g) (closeTime g) (resolution g) (result g) (playerTable g).

Definition set_firstClaimTime (z : Z) (g : HelpTicket) : HelpTicket :=
  mkHelpTicket (ticket g) (claimQueue g) (involvedStaff g) (createTime g)
    (activationTime g) (emptyRoom g) z (unclaimedTime g)
    (lastUnclaimedStart g) (closeTime g) (resolution g) (result g) (playerTable g).

Definition set_unclaimedTime (z : Z) (g : HelpTicket) : HelpTicket :=
  mkHelpTicket (ticket g) (claimQueue g) (involvedStaff g) (createTime g)
    (activationTime g) (emptyRoom g) (firstClaimTime g) z
    (lastUnclaimedStart g) (closeTime g) (resolution g) (result g) (playerTable g).

Definition set_lastUnclaimedStart (z : Z) (g : HelpTicket) : HelpTicket :=
  mkHelpTicket (ticket g) (claimQueue g) (involvedStaff g) (createTime g)
    (activationTime g) (emptyRoom g) (firstClaimTime g) (unclaimedTime g)
    z (closeTime g) (resolution g) (result g) (playerTable g).

Definition set_closeTime (z : Z) (g : HelpTicket) : HelpTicket :=
  mkHelpTicket (ticket g) (claimQueue g) (involvedStaff g) (createTime g)
    (activationTime g) (emptyRoom g) (firstClaimTime g) (unclaimedTime g)
    (lastUnclaimedStart g) z (resolution g) (result g) (playerTable g).

Definition set_resolution (r : Resolution) (g : HelpTicket) : HelpTicket :=
  mkHelpTicket (ticket g) (claimQueue g) (involvedStaff g) (createTime g)
    (activationTime g) (emptyRoom g) (firstClaimTime g) (unclaimedTime g)
    (lastUnclaimedStart g) (closeTime g) r (result g) (playerTable g).

Definition set_result (r : option TicketResult) (g : HelpTicket) : HelpTicket :=
  mkHelpTicket (ticket g) (claimQueue g) (involvedStaff g) (createTime g)
    (activationTime g) (emptyRoom g) (firstClaimTime g) (unclaimedTime g)
    (lastUnclaimedStart g) (closeTime g) (resolution g) r (playerTable g).

Definition set_playerTable (p : list ID) (g : HelpTicket) : HelpTicket :=
  mkHelpTicket (ticket g) (claimQueue g) (involvedStaff g) (createTime g)
    (activationTime g) (emptyRoom g) (firstClaimTime g) (unclaimedTime g)
    (lastUnclaimedStart g) (closeTime g) (resolution g) (result g) p.

(** *** Truthiness *)

(** [!!s] for [s : string | null]: the empty string and [null] are falsy. *)
Definition truthy (s : option string) : bool :=
  match s with
  | Some x => negb (String.eqb x "")
  | None => false
  end.

(** [s || null] for a string [s]. *)
Definition orNull (s : string) : option string :=
  if String.eqb s "" then None else Some s.

(** ** The ticket game *)

Section Plugin.

(** [toID] is the server's identity normalisation (lower-case, letters and
    digits only).  It is defined outside the plugin; the handlers are
    embedded over an arbitrary [toID]. *)
Variable toID : string -> ID.

(** [toID(x)] for [x : string | null]: [toID(null)] is the empty id. *)
Definition toID_opt (x : option string) : ID :=
  match x with
  | Some s => toID s
  | None => ""
  end.

(** [new HelpTicket(room, ticket)] at time [now]. *)
Definition newHelpTicket (now : Z) (t : TicketState) : HelpTicket :=
  {| ticket := t;
     claimQueue := [];
     involvedStaff := [];
     createTime := now;
     activationTime := if active t then now else 0;
     emptyRoom := false;
     firstClaimTime := 0;
     unclaimedTime := 0;
     lastUnclaimedStart := if active t then now else 0;
     closeTime := 0;
     resolution := unknown;
     result := None;
     playerTable := [] |}.

(** Modelled from the spec: the player table of the base class
    [Rooms.RoomGame] is not part of the plugin's source.  Its players are the
    participants of the ticket (the non-staff users and the requester) that
    the game has added and not yet removed; [isPlayer] is
    [user.id in this.playerTable]. *)
Definition isPlayer (k : ID) (g : HelpTicket) : bool :=
  bool_decide (k ∈ playerTable g).

(** Modelled from the spec: [playerCount], kept by the base class, is the
    number of players in the table. *)
Definition playerCount (g : HelpTicket) : Z :=
  Z.of_nat (length (playerTable g)).

(** Modelled from the spec: [addPlayer] of the base class enters the user in
    the player table; a user who is already a player is not added again. *)
Definition addPlayer (user : User.t) (g : HelpTicket) : HelpTicket :=
  if isPlayer (User.id user) g then g
  else set_playerTable (playerTable g ++ [User.id user]) g.

(** Modelled from the spec: [removePlayer] of the base class takes the entry
    of the id out of the player table. *)
Definition removePlayer (k : ID) (g : HelpTicket) : HelpTicket :=
  set_playerTable (filter (λ p, p ≠ k) (playerTable g)) g.

(** The users counted as present at the first claim: named users who are not
    staff, and the ticket's creator even when staff. *)
Definition nonStaffPresent (t : TicketState) (roomUsers : list User.t) : list User.t :=
  filter (λ u, negb ((User.isStaff u && negb (String.eqb (User.id u) (userid t)))
                     || negb (User.named u)) = true) roomUsers.

(** [onJoin(user, connection)]; [roomUsers] is [this.room.users] at the call. *)
Definition onJoin (now : Z) (roomUsers : list User.t) (user : User.t)
    (g : HelpTicket) : HelpTicket :=
  if negb (open (ticket g)) then g
  else if negb (User.isStaff user) || String.eqb (User.id user) (userid (ticket g)) then
    let g1 := if emptyRoom g then set_emptyRoom false g else g in
    let g2 := addPlayer user g1 in
    if offline (ticket g2) then set_ticket (set_offline false (ticket g2)) g2 else g2
  else if negb (truthy (claimed (ticket g))) then
    let g1 := set_ticket (set_claimed (Some (User.name user)) (ticket g)) g in
    let g2 :=
      if firstClaimTime g1 =? 0 then
        let g' := set_firstClaimTime now g1 in
        match nonStaffPresent (ticket g') roomUsers with
        | [] => set_emptyRoom true g'
        | _ :: _ => g'
        end
      else g1 in
    if active (ticket g2) then
      set_lastUnclaimedStart 0
        (set_unclaimedTime (unclaimedTime g2 + (now - lastUnclaimedStart g2)) g2)
    else g2
  else set_claimQueue (claimQueue g ++ [User.name user]) g.

(** [this.claimQueue.map(toID).indexOf(id)] followed by [splice(index, 1)]:
    the first entry whose id is [k] leaves the queue. *)
Fixpoint spliceFirst (k : ID) (q : list string) : list string :=
  match q with
  | [] => []
  | x :: q' => if String.eqb (toID x) k then q' else x :: spliceFirst k q'
  end.

(** [onLeave(user, oldUserid)]; an absent [oldUserid] is the empty string. *)
Definition onLeave (now : Z) (user : User.t) (oldUserid : ID)
    (g : HelpTicket) : HelpTicket :=
  let key := if String.eqb oldUserid "" then User.id user else oldUserid in
  if isPlayer key g then
    let g1 := removePlayer key g in
    set_ticket (set_offline true (ticket g1)) g1
  else if negb (open (ticket g)) then g
  else if String.eqb (toID_opt (claimed (ticket g))) (User.id user) then
    match claimQueue g with
    | next :: rest =>
        set_claimQueue rest (set_ticket (set_claimed (orNull next) (ticket g)) g)
    | [] =>
        set_lastUnclaimedStart now (set_ticket (set_claimed None (ticket g)) g)
    end
  else set_claimQueue (spliceFirst (User.id user) (claimQueue g)) g.

(** The low-content greetings of [onLogMessage], as ids. *)
Definition blockedMessages : list ID :=
  ["hi"; "hello"; "hullo"; "hey"; "yo"; "ok";
   "hesrude"; "shesrude"; "hesinappropriate"; "shesinappropriate";
   "heswore"; "sheswore"; "help"; "yes"].

(** [Set.add]: a set keeps its insertion order and holds a value once. *)
Definition setAdd (k : ID) (s : list ID) : list ID :=
  if bool_decide (k ∈ s) then s else s ++ [k].

(** [onLogMessage(message, user)]. *)
Definition onLogMessage (now : Z) (message : string) (user : User.t)
    (g : HelpTicket) : HelpTicket :=
  if negb (open (ticket g)) then g
  else
    let g1 :=
      if User.isStaff user && negb (String.eqb (userid (ticket g)) (User.id user))
      then set_involvedStaff (setAdd (User.id user) (involvedStaff g)) g
      else g in
    if active (ticket g1) then g1
    else
      let asRequester :=
        negb (User.isStaff user) || String.eqb (userid (ticket g1)) (User.id user) in
      if asRequester && bool_decide (toID message ∈ blockedMessages) then g1
      else if asRequester && negb (active (ticket g1)) then
        let g2 := set_activationTime now (set_ticket (set_active true (ticket g1)) g1) in
        let g3 :=
          if negb (truthy (claimed (ticket g2)))
          then set_lastUnclaimedStart now g2 else g2 in
        set_ticket (set_needsDelayWarning true (ticket g3)) g3
      else g1.

(** The [switch (this.ticket.type)] of [writeStats] for a boolean outcome. *)
Definition resultFor (ty : string) (b : bool) : TicketResult :=
  if bool_decide (ty ∈ ["Appeal"; "IP-Appeal"; "ISP-Appeal"]) then
    (if b then approved else denied)
  else if bool_decide (ty ∈ ["PM Harassment"; "Battle Harassment";
                             "Inappropriate Username";
                             "Inappropriate Pokemon Nicknames"]) then
    (if b then valid else invalid)
  else (if b then assisted else unassisted).

Definition resultOf (ty : string) (res : CloseResult) : TicketResult :=
  match res with
  | CloseBool b => resultFor ty b
  | CloseTicketban => ticketban
  | CloseDeleted => deleted
  end.

(** [HelpTicket.writeStats(result)]: the counters are finalised on the game
    and the line handed to the log is returned. *)
Definition writeStats (now : Z) (res : CloseResult) (g : HelpTicket)
    : HelpTicket * StatLine :=
  let g1 := set_closeTime now g in
  let g2 :=
    if negb (lastUnclaimedStart g1 =? 0)
    then set_unclaimedTime
           (unclaimedTime g1 + (closeTime g1 - lastUnclaimedStart g1)) g1
    else g1 in
  let g3 :=
    set_resolution
      (if negb (active (ticket g2)) then dead
       else if (firstClaimTime g2 =? 0) || emptyRoom g2 then unresolved
       else resolved) g2 in
  let g4 := set_result (Some (resultOf (type (ticket g3)) res)) g3 in
  let firstClaimWait :=
    if negb (activationTime g4 =? 0)
    then (if negb (firstClaimTime g4 =? 0) then firstClaimTime g4 else closeTime g4)
         - activationTime g4
    else 0 in
  let staff :=
    if negb (activationTime g4 =? 0)
    then String.concat "," (involvedStaff g4)
    else "" in
  (g4, {| line_type := type (ticket g4);
          line_totalTime := closeTime g4 - createTime g4;
          line_firstClaimWait := firstClaimWait;
          line_unclaimedTime := unclaimedTime g4;
          line_resolution := resolution g4;
          line_result := result g4;
          line_involvedStaff := staff |}).

(** [staff?.isStaff && staff.id !== this.ticket.userid]. *)
Definition closerIsStaff (staff : option User.t) (t : TicketState) : bool :=
  match staff with
  | Some s => User.isStaff s && negb (String.eqb (User.id s) (userid t))
  | None => false
  end.

(** [close(result, staff?)]. *)
Definition close (now : Z) (res : CloseResult) (staff : option User.t)
    (g : HelpTicket) : HelpTicket * StatLine :=
  let g1 := set_ticket (set_open false (ticket g)) g in
  let g2 := foldr removePlayer g1 (playerTable g1) in
  let g3 :=
    match involvedStaff g2 with
    | [] =>
        match staff with
        | Some s =>
            if closerIsStaff staff (ticket g2)
            then set_involvedStaff (setAdd (User.id s) (involvedStaff g2)) g2
            else set_involvedStaff
                   (setAdd (toID_opt (claimed (ticket g2))) (involvedStaff g2)) g2
        | None =>
            set_involvedStaff
              (setAdd (toID_opt (claimed (ticket g2))) (involvedStaff g2)) g2
        end
    | _ :: _ => g2
    end in
  writeStats now res g3.

(** [forfeit(user)]; the list holds the line written when the ticket closes. *)
Definition forfeit (now : Z) (user : User.t) (g : HelpTicket)
    : HelpTicket * list StatLine :=
  if negb (isPlayer (User.id user) g) then (g, [])
  else
    let g1 := removePlayer (User.id user) g in
    if negb (open (ticket g1)) then (g1, [])
    else if 0 <? playerCount g1 - 1 then (g1, [])
    else
      let '(g2, l) :=
        close now (CloseBool (negb (firstClaimTime g1 =? 0))) (Some user) g1 in
      (g2, [l]).

(** [destroy()]; [listed] is the truthiness of [tickets[this.ticket.userid]]. *)
Definition destroy (now : Z) (listed : bool) (g : HelpTicket)
    : HelpTicket * list StatLine :=
  if listed && open (ticket g) then
    let '(g1, l) :=
      writeStats now (CloseBool false) (set_ticket (set_open false (ticket g)) g) in
    (g1, [l])
  else (g, []).

(** *** Runs of the room events *)

Inductive Event :=
| Join (user : User.t) (roomUsers : list User.t)
| Leave (user : User.t) (oldUserid : ID)
| LogMessage (message : string) (user : User.t).

Definition step (g : HelpTicket) (e : Z * Event) : HelpTicket :=
  match e with
  | (now, Join user roomUsers) => onJoin now roomUsers user g
  | (now, Leave user oldUserid) => onLeave now user oldUserid g
  | (now, LogMessage message user) => onLogMessage now message user g
  end.

Definition run (g : HelpTicket) (evs : list (Z * Event)) : HelpTicket :=
  foldl step g evs.

(** The discipline of the room that delivers the events: a user joins only
    while absent from the room and leaves only while present, a joining user
    has a non-empty name whose id is the user's id, and a leave carries no old
    id.  [present] lists the ids in the room. *)
Fixpoint wellFormed (present : list ID) (evs : list (Z * Event)) : bool :=
  match evs with
  | [] => true
  | (_, Join user _) :: rest =>
      negb (bool_decide (User.id user ∈ present))
      && String.eqb (toID (User.name user)) (User.id user)
      && negb (String.eqb (User.name user) "")
      && wellFormed (User.id user :: present) rest
  | (_, Leave user oldUserid) :: rest =>
      bool_decide (User.id user ∈ present)
      && String.eqb oldUserid ""
      && wellFormed (filter (λ p, p ≠ User.id user) present) rest
  | (_, LogMessage _ _) :: rest => wellFormed present rest
  end.

(** The reading of "unclaimed time" in the statistics: the ticket is active
    and nobody holds it. *)
Definition unclaimedNow (g : HelpTicket) : bool :=
  active (ticket g) && negb (truthy (claimed (ticket g))).

(** The unclaimed time in the words of the specification: the sum of the
    unclaimed intervals between activation and close.  For a run that starts
    at [since] in state [g] and is closed at [closeAt], every stretch between
    two consecutive events, and the last one up to the close, counts when
    the ticket is active and unclaimed during it. *)
Fixpoint specUnclaimedIntervals (g : HelpTicket) (since : Z)
    (evs : list (Z * Event)) (closeAt : Z) : Z :=
  match evs with
  | [] => if unclaimedNow g then closeAt - since else 0
  | (now, e) :: rest =>
      (if unclaimedNow g then now - since else 0)
      + specUnclaimedIntervals (step g (now, e)) now rest closeAt
  end.

(** Events as the server produces them: the time of an event is not zero,
    a joining user has a non-empty name, a leaving user a non-empty id. *)
Definition plainEvent (e : Z * Event) : bool :=
  negb (fst e =? 0)
  && match snd e with
     | Join user _ => negb (String.eqb (User.name user) "")
     | Leave user _ => negb (String.eqb (User.id user) "")
     | LogMessage _ _ => true
     end.

(** Somebody holds the ticket in [g] and after each of the events. *)
Fixpoint heldThroughout (g : HelpTicket) (evs : list (Z * Event)) : bool :=
  truthy (claimed (ticket g))
  && match evs with
     | [] => true
     | e :: rest => heldThroughout (step g e) rest
     end.

(** Somebody holds the ticket in [g] or after one of the events. *)
Fixpoint everClaimed (g : HelpTicket) (evs : list (Z * Event)) : bool :=
  truthy (claimed (ticket g))
  || match evs with
     | [] => false
     | e :: rest => everClaimed (step g e) rest
     end.

(** The invariant of the claim queue of an open ticket, for the ids
    [present] in the room: players, queued staff and the claimant are in the
    room; nobody queued is a player or queued twice; an unclaimed ticket has
    an empty queue; the claimant is neither a player nor queued. *)
Record queueInv (present : list ID) (g : HelpTicket) : Prop := mkQueueInv {
  inv_open : open (ticket g) = true;
  inv_players : forall p, p ∈ playerTable g -> p ∈ present;
  inv_queue : forall q, q ∈ claimQueue g ->
      toID q ∈ present /\ (toID q ∉ playerTable g) /\ q <> "";
  inv_nodup : NoDup (toID <$> claimQueue g);
  inv_unclaimed : truthy (claimed (ticket g)) = false ->
      claimed (ticket g) = None /\ claimQueue g = [];
  inv_claimant : forall c, claimed (ticket g) = Some c ->
      toID c ∈ present /\ (toID c ∉ playerTable g)
      /\ (toID c ∉ (toID <$> claimQueue g)) }.

(** ** The ticket table, the help rooms and the statistics log *)

(** [tickets] is the plugin's table, [rooms] maps a user id to the game of
    the room [help-<userid>] when that room exists, [statsLog] holds the lines
    appended so far.  In the plugin the entry [tickets[userid]] and
    [game.ticket] are one object; the operations below write a change of that
    object to both places. *)
Record World := mkWorld {
  tickets : gmap ID TicketState;
  rooms : gmap ID HelpTicket;
  statsLog : list StatLine }.

(** [commands.helpticket.close] for a non-empty target: [inputUsername] and
    [resultArg] are the parsed target ([resultArg] is false only for the
    word [false]), the boolean tells whether the command went through. *)
Definition closeCommand (now : Z) (inputUsername : string) (resultArg : bool)
    (user : User.t) (w : World) : World * bool :=
  match tickets w !! toID inputUsername with
  | None => (w, false)
  | Some t =>
      if negb (open t)
         || (negb (String.eqb (userid t) (User.id user)) && negb (User.canLock user))
      then (w, false)
      else
        match rooms w !! userid t with
        | Some g =>
            let res :=
              if String.eqb (userid t) (User.id user) && negb (User.isStaff user)
              then negb (firstClaimTime g =? 0) else resultArg in
            let '(g1, l) := close now (CloseBool res) (Some user) g in
            let t1 := set_claimed (Some (User.name user)) (ticket g1) in
            (mkWorld (<[userid t1 := t1]> (tickets w))
                     (<[userid t := set_ticket t1 g1]> (rooms w))
                     (statsLog w ++ [l]), true)
        | None =>
            let t1 := set_claimed (Some (User.name user)) (set_open false t) in
            (mkWorld (<[toID inputUsername := t1]> (tickets w))
                     (rooms w) (statsLog w), true)
        end
  end.

(** The branch of [punishmentfilter] for one user id. *)
Definition punishmentfilterId (now : Z) (userId : ID) (w : World) : World :=
  match rooms w !! userId with
  | None => w
  | Some g =>
      let '(g1, l) := close now CloseTicketban None g in
      mkWorld (<[userid (ticket g1) := ticket g1]> (tickets w))
              (<[userId := g1]> (rooms w))
              (statsLog w ++ [l])
  end.

(** [punishmentfilter(user, punishment)]: [punishmentType] is
    [punishment[0]], [ids] the user's id followed by the previous ids. *)
Definition punishmentfilter (now : Z) (punishmentType : string) (ids : list ID)
    (w : World) : World :=
  if negb (String.eqb punishmentType "BAN") then w
  else foldl (λ w' k, punishmentfilterId now k w') w ids.

(** Modelled from the spec: the teardown of a room ([destroy], [expire]) is
    outside the plugin; the room [help-<k>] runs [destroy] of its game and
    is gone afterwards. *)
Definition destroyRoom (now : Z) (k : ID) (w : World) : World :=
  match rooms w !! k with
  | None => w
  | Some g =>
      let listed := bool_decide (is_Some (tickets w !! userid (ticket g))) in
      let '(g1, ls) := destroy now listed g in
      mkWorld (if listed && open (ticket g)
               then <[userid (ticket g1) := ticket g1]> (tickets w)
               else tickets w)
              (delete k (rooms w))
              (statsLog w ++ ls)
  end.

(** ** Loading the persisted table *)

(** An entry of [config/tickets.json]: a ticket, or in the old format a ban
    ([banned] set, with [expires] and [reason]). *)
Record PersistedEntry := mkPersistedEntry {
  entry : TicketState;
  banned : bool;
  expires : option Z;
  reason : string }.

(** The argument of [Punishments.roomPunish('staff', userid, ...)]. *)
Record TicketBan := mkTicketBan {
  ban_userid : ID;
  ban_expires : option Z;
  ban_reason : string }.

(** What the load block produces: the table, rooms and log it leaves and
    the bans it has handed to the ban registry.  [previous] is the table of
    the instance of the module that ran before this load: the games of the
    rooms the load finds were made by that instance, and their methods read
    and write its [tickets], not the table being loaded. *)
Record Loaded := mkLoaded {
  live : World;
  punishments : list TicketBan;
  previous : gmap ID TicketState }.

(** [ticket.expires && ticket.expires <= Date.now()]. *)
Definition banExpired (now : Z) (e : PersistedEntry) : bool :=
  match expires e with
  | Some x => negb (x =? 0) && (x <=? now)
  | None => false
  end.

(** The body of the loop over [ticketData]; [oldPlugins] is the truthiness
    of [Chat.oldPlugins.helptickets].  [ticketRoom.expire()] tears the room
    down: [destroy] of its game runs against the table of the previous
    instance, after the [writeStats(false)] of the sweep. *)
Definition loadEntry (now : Z) (oldPlugins : bool) (st : Loaded)
    (kv : string * PersistedEntry) : Loaded :=
  let '(t, e) := kv in
  if banned e then
    if banExpired now e then st
    else mkLoaded (live st)
           (punishments st ++
            [mkTicketBan (userid (entry e)) (expires e) (reason e)])
           (previous st)
  else if created (entry e) + TICKET_CACHE_TIME <=? now then
    match rooms (live st) !! userid (entry e) with
    | Some g =>
        let '(g1, l) := writeStats now (CloseBool false) g in
        let w1 :=
          mkWorld (previous st)
                  (<[userid (entry e) := g1]> (rooms (live st)))
                  (statsLog (live st) ++ [l]) in
        let w2 := destroyRoom now (userid (entry e)) w1 in
        mkLoaded (mkWorld (tickets (live st)) (rooms w2) (statsLog w2))
                 (punishments st) (tickets w2)
    | None => st
    end
  else
    let ticket' :=
      if open (entry e) && negb oldPlugins
      then set_open false (entry e) else entry e in
    mkLoaded (mkWorld (<[t := ticket']> (tickets (live st)))
                      (rooms (live st)) (statsLog (live st)))
             (punishments st) (previous st).

(** The load block: the table starts empty, [rooms0] are the rooms of the
    running process and [oldTickets] is the table of the instance of the
    module that made their games. *)
Definition loadTickets (now : Z) (oldPlugins : bool)
    (oldTickets : gmap ID TicketState) (rooms0 : gmap ID HelpTicket)
    (ticketData : list (string * PersistedEntry)) : Loaded :=
  foldl (loadEntry now oldPlugins)
        (mkLoaded (mkWorld ∅ rooms0 []) [] oldTickets) ticketData.

End Plugin.

(** ** The timer of the unclaimed-ticket notification *)

(** The slot of the staff room: [unclaimedTicketTimer] holds the pending
    timeout, kept as the time at which it fires, and [timerEnds] the
    plugin's own note of that time. *)
Record TimerState := mkTimerState {
  unclaimedTicketTimer : option Z;
  timerEnds : Z }.

(** [setTimeout(f, delay)] at time [now]. *)
Definition setTimeout (now delay : Z) : option Z := Some (now + delay).

(** [pokeUnclaimedTicketTimer(hasUnclaimed, hasAssistRequest)]; [staffRoom]
    tells whether [Rooms.get('staff')] exists. *)
Definition pokeUnclaimedTicketTimer (now : Z) (staffRoom : bool)
    (hasUnclaimed hasAssistRequest : bool) (s : TimerState) : TimerState :=
  if negb staffRoom then s
  else if hasUnclaimed && negb (bool_decide (is_Some (unclaimedTicketTimer s))) then
    let delay :=
      if hasAssistRequest then NOTIFY_ASSIST_TIMEOUT else NOTIFY_ALL_TIMEOUT in
    mkTimerState (setTimeout now delay) (now + delay)
  else if hasAssistRequest
          && (NOTIFY_ASSIST_TIMEOUT <? timerEnds s - NOTIFY_ASSIST_TIMEOUT)
          && bool_decide (is_Some (unclaimedTicketTimer s)) then
    mkTimerState (setTimeout now NOTIFY_ASSIST_TIMEOUT) (now + NOTIFY_ASSIST_TIMEOUT)
  else if negb hasUnclaimed && bool_decide (is_Some (unclaimedTicketTimer s)) then
    mkTimerState None 0
  else s.

(** Modelled from the spec: [toID] is defined outside the plugin.  This is
    the server's normalisation of a name to a stable identity (upper-case
    letters are lowered, only letters and digits are kept); it instantiates
    [toID] in the worked cases. *)
Definition toIDchar (c : Ascii.ascii) : string :=
  let n := Ascii.nat_of_ascii c in
  if ((65 <=? n) && (n <=? 90))%nat then String (Ascii.ascii_of_nat (n + 32)) ""
  else if ((97 <=? n) && (n <=? 122) || (48 <=? n) && (n <=? 57))%nat
       then String c ""
       else "".

Fixpoint serverToID (s : string) : ID :=
  match s with
  | EmptyString => ""
  | String c rest => toIDchar c +:+ serverToID rest
  end.

(** ** The ticket types *)

(** [ticketTitles]: the form's keys and the ticket types they stand for. *)
Definition ticketTitles : list (string * string) :=
  [ ("pmharassment", "PM Harassment");
    ("battleharassment", "Battle Harassment");
    ("inapname", "Inappropriate Username");
    ("inappokemon", "Inappropriate Pokemon Nicknames");
    ("appeal", "Appeal");
    ("ipappeal", "IP-Appeal");
    ("appealsemi", "ISP-Appeal");
    ("roomhelp", "Public Room Assistance Request");
    ("other", "Other") ].

(** The keys of [delayWarnings]; the texts are chat output.  A ticket type
    is one of the titles above, so that [delayWarnings[ticket.type]] is
    truthy exactly when the type is one of these keys. *)
Definition delayWarnings : list string :=
  [ "PM Harassment"; "Battle Harassment"; "Inappropriate Username";
    "Inappropriate Pokemon Nicknames"; "Appeal"; "IP-Appeal";
    "Public Room Assistance Request"; "other" ].

(** The keys of [contexts] in [submit]. *)
Definition contexts : list string :=
  [ "PM Harassment"; "Battle Harassment"; "Inappropriate Username";
    "Inappropriate Pokemon Nicknames"; "Appeal"; "IP-Appeal";
    "Public Room Assistance Request"; "Other" ].

(** ** The notifications of the staff room *)

(** The condition of [notifyUnclaimedTicket] under which the delay message is
    posted in the room of a ticket. *)
Definition warningDue (t : TicketState) : bool :=
  open t && active t
  && (needsDelayWarning t && negb (truthy (claimed t))
      && bool_decide (type t ∈ delayWarnings)).

(** [notifyUnclaimedTicket(hasAssistRequest)], the callback of the timer.
    [hasRoom k] tells whether the room [help-<k>] exists; the call throws,
    which is [None], when a ticket that is due its delay message has no
    room.  The argument only selects the text sent to the staff.  The
    callback reads and writes the entries of the table. *)
Definition notifyUnclaimedTicket (staffRoom : bool) (hasRoom : ID -> bool)
    (table : gmap ID TicketState) (s : TimerState)
    : option (gmap ID TicketState * TimerState) :=
  if negb staffRoom then Some (table, s)
  else if bool_decide
            (map_Forall (λ _ t, warningDue t = true -> hasRoom (userid t) = true) table)
  then Some ((λ t, if warningDue t then set_needsDelayWarning false t else t) <$> table,
             mkTimerState None 0)
  else None.

(** The counters and flags of the loop of [notifyStaff]. *)
Record StaffBox := mkStaffBox {
  count : nat;
  hiddenTicketUnclaimedCount : nat;
  hiddenTicketCount : nat;
  hasUnclaimed : bool;
  hasAssistRequest : bool }.

(** The body of the loop of [notifyStaff] for the key [key]; [None] when the
    body throws (no entry under the key, or no room for a ticket that gets a
    button). *)
Definition scanTicket (hasRoom : ID -> bool) (table : gmap ID TicketState)
    (b : StaffBox) (key : ID) : option StaffBox :=
  match table !! key with
  | None => None
  | Some t =>
      if negb (open t) then Some b
      else if negb (active t) then Some b
      else
        let b1 :=
          if (3 <=? count b)%nat then
            mkStaffBox (count b)
              (if negb (truthy (claimed t))
               then S (hiddenTicketUnclaimedCount b) else hiddenTicketUnclaimedCount b)
              (S (hiddenTicketCount b)) (hasUnclaimed b) (hasAssistRequest b)
          else b in
        if (3 <=? count b)%nat && negb (hiddenTicketCount b1 =? 1)%nat then Some b1
        else if negb (hasRoom (userid t)) then None
        else
          let b2 :=
            if negb (truthy (claimed t)) then
              mkStaffBox (count b1) (hiddenTicketUnclaimedCount b1)
                (hiddenTicketCount b1) true
                (if String.eqb (type t) "Public Room Assistance Request"
                 then true else hasAssistRequest b1)
            else b1 in
          Some (mkStaffBox (S (count b2)) (hiddenTicketUnclaimedCount b2)
                  (hiddenTicketCount b2) (hasUnclaimed b2) (hasAssistRequest b2))
  end.

(** The loop over the sorted keys. *)
Fixpoint scanTickets (hasRoom : ID -> bool) (table : gmap ID TicketState)
    (b : StaffBox) (keys : list ID) : option StaffBox :=
  match keys with
  | [] => Some b
  | key :: rest =>
      match scanTicket hasRoom table b key with
      | Some b' => scanTickets hasRoom table b' rest
      | None => None
      end
  end.

(** The flags [notifyStaff] holds after its loop and the adjustment for the
    hidden tickets. *)
Definition staffFlags (b : StaffBox) : bool * bool :=
  (if (1 <? hiddenTicketCount b)%nat && (0 <? hiddenTicketUnclaimedCount b)%nat
   then true else hasUnclaimed b,
   hasAssistRequest b).

(** [notifyStaff()]: [keys] is [Object.keys(tickets)] as the sort has left
    it.  The box sent to the staff room is chat output; what remains is the
    poke of the timer. *)
Definition notifyStaff (now : Z) (staffRoom : bool) (hasRoom : ID -> bool)
    (table : gmap ID TicketState) (keys : list ID) (s : TimerState)
    : option TimerState :=
  if negb staffRoom then Some s
  else
    match scanTickets hasRoom table (mkStaffBox 0 0 0 false false) keys with
    | None => None
    | Some b =>
        Some (pokeUnclaimedTicketTimer now staffRoom
                (fst (staffFlags b)) (snd (staffFlags b)) s)
    end.

(** The comparator of the ticket list page ([pages.help.tickets]). *)
Definition ticketListOrder (a b : TicketState) : Z :=
  if negb (Bool.eqb (open a) (open b)) then (if open a then -1 else 1)
  else if open a then
    if negb (Bool.eqb (active a) (active b)) then (if active a then -1 else 1)
    else created a - created b
  else created b - created a.

(** ** Opening a ticket *)

(** An entry of the punishment tables: [[punishType, id, expireTime, reason]]. *)
Record Punishment := mkPunishment {
  punishType : string;
  punishId : ID;
  expireTime : Z;
  punishReason : string }.

(** The parts of [Punishments] the plugin reads: the punishments of the
    room [staff] by user id and by IP address, and the shared addresses. *)
Record PunishmentTables := mkPunishmentTables {
  roomUserids : gmap ID Punishment;
  roomIps : gmap string Punishment;
  sharedIps : gset string }.

(** The user who submits the form: the fields of [User] read by [submit]
    and [checkBanned]; [bypassAll] is the outcome of [user.can('bypassall')]. *)
Record Submitter := mkSubmitter {
  account : User.t;
  bypassAll : bool;
  latestIp : string;
  ips : list string }.

(** [p?.[0] === 'TICKETBAN']. *)
Definition isTicketBan (p : option Punishment) : option Punishment :=
  match p with
  | Some q => if String.eqb (punishType q) "TICKETBAN" then Some q else None
  | None => None
  end.

(** The loop of [checkBanned] over the addresses. *)
Fixpoint firstIpBan (P : PunishmentTables) (addresses : list string)
    : option Punishment :=
  match addresses with
  | [] => None
  | a :: rest =>
      match isTicketBan (roomIps P !! a) with
      | Some p => Some p
      | None => firstIpBan P rest
      end
  end.

(** [HelpTicket.checkBanned(user)] for a user object or a bare id; [None]
    stands for both falsy outcomes, [undefined] and [false]. *)
Definition checkBanned (staffRoom : bool) (P : PunishmentTables)
    (user : Submitter + ID) : option Punishment :=
  if negb staffRoom then None
  else
    let addresses :=
      match user with
      | inl u => latestIp u :: ips u
      | inr _ => []
      end in
    let k :=
      match user with
      | inl u => User.id (account u)
      | inr k => k
      end in
    match isTicketBan (roomUserids P !! k) with
    | Some p => Some p
    | None =>
        if match addresses with
           | a :: _ => bool_decide (a ∈ sharedIps P)
           | [] => false
           end
        then None
        else firstIpBan P addresses
    end.

(** [checkIp(ip)]: [keys] is the order in which [for (const t in tickets)]
    visits the table. *)
Fixpoint checkIp (P : PunishmentTables) (table : gmap ID TicketState)
    (address : string) (keys : list ID) : option TicketState :=
  match keys with
  | [] => None
  | k :: rest =>
      match table !! k with
      | Some t =>
          if String.eqb (ip t) address && open t
             && negb (bool_decide (address ∈ sharedIps P))
          then Some t
          else checkIp P table address rest
      | None => checkIp P table address rest
      end
  end.

(** What [submit] answers. *)
Inductive SubmitReply :=
| GlobalStaffCannot
| ChooseUsername
| TicketBanned (p : Punishment)
| AlreadyOpen (k : ID)
| TicketLimit
| UnknownType
| Opened.

(** The entry [submit] builds. *)
Definition newTicket (now : Z) (ticketType : string) (u : Submitter) : TicketState :=
  {| creator := User.name (account u);
     userid := User.id (account u);
     open := true;
     active := negb (bool_decide (ticketType ∈ contexts));
     type := ticketType;
     created := now;
     claimed := None;
     ip := latestIp u;
     needsDelayWarning := false;
     offline := false |}.

(** [submit], from the rate limit on.  The game of a room that is still there
    is destroyed ([destroyRoom] runs its [destroy]; the room itself stays and
    receives the new game), the user is made a player of the new game, by
    the join or by [addPlayer], and the entry is stored. *)
Definition openTicket (now : Z) (rateLimited : bool) (ticketType : string)
    (u : Submitter) (w : World) : World * SubmitReply :=
  if rateLimited then (w, TicketLimit)
  else if negb (bool_decide (ticketType ∈ ticketTitles.*2)) then (w, UnknownType)
  else
    let t := newTicket now ticketType u in
    let w1 := destroyRoom now (User.id (account u)) w in
    (mkWorld (<[User.id (account u) := t]> (tickets w1))
             (<[User.id (account u) := addPlayer (account u) (newHelpTicket now t)]>
                (rooms w1))
             (statsLog w1), Opened).

(** [commands.helpticket.submit]: [keys] is the order of the table for
    [checkIp], [rateLimited] the answer of [Monitor.countTickets], and
    [ticketType] the trimmed first part of the target.  [None] when the
    command throws: the ticket found for the user is listed under no key. *)
Definition submit (now : Z) (staffRoom : bool) (P : PunishmentTables)
    (keys : list ID) (rateLimited : bool) (ticketType : string)
    (u : Submitter) (w : World) : option (World * SubmitReply) :=
  if User.canLock (account u) && negb (bypassAll u) then Some (w, GlobalStaffCannot)
  else if negb (User.named (account u)) then Some (w, ChooseUsername)
  else
    match checkBanned staffRoom P (inl u) with
    | Some p => Some (w, TicketBanned p)
    | None =>
        let own := tickets w !! User.id (account u) in
        let ipTicket := checkIp P (tickets w) (latestIp u) keys in
        let found :=
          if match own with Some t => open t | None => false end
             || bool_decide (is_Some ipTicket)
          then match own with Some t => Some t | None => ipTicket end
          else None in
        match found with
        | None => Some (openTicket now rateLimited ticketType u w)
        | Some t0 =>
            match rooms w !! userid t0 with
            | Some _ => Some (w, AlreadyOpen (userid t0))
            | None =>
                match tickets w !! userid t0 with
                | None => None
                | Some t1 =>
                    Some (openTicket now rateLimited ticketType u
                            (mkWorld (<[userid t0 := set_open false t1]> (tickets w))
                                     (rooms w) (statsLog w)))
                end
            end
        end
    end.

(** ** Deleting a ticket and banning its user *)

(** [commands.helpticket.delete]; [canMakeRoom] is the outcome of
    [checkCan('makeroom')], the boolean tells whether the command went
    through.  With a room, [deleteTicket] closes the ticket as deleted,
    takes the entry out of the table and destroys the room. *)
Definition deleteCommand (toID : string -> ID) (now : Z) (canMakeRoom : bool)
    (target : string) (user : User.t) (w : World) : World * bool :=
  if negb canMakeRoom then (w, false)
  else if String.eqb target "" then (w, false)
  else
    match tickets w !! toID target with
    | None => (w, false)
    | Some t =>
        match rooms w !! userid t with
        | Some g =>
            let '(g1, l) := close toID now CloseDeleted (Some user) g in
            (destroyRoom now (userid t)
               (mkWorld (delete (userid (ticket g1)) (tickets w))
                        (<[userid t := g1]> (rooms w))
                        (statsLog w ++ [l])), true)
        | None =>
            (mkWorld (delete (userid t) (tickets w)) (rooms w) (statsLog w), true)
        end
    end.

(** The body of the loop of [commands.helpticket.ban] over the affected
    users.  An open entry is closed, which the game of the room sees as
    well, entry and [game.ticket] being one object. *)
Definition banTicket (now : Z) (userObjID : ID) (w : World) : World :=
  let wasOpen :=
    match tickets w !! userObjID with
    | Some t => open t
    | None => false
    end in
  let table1 :=
    if wasOpen then alter (set_open false) userObjID (tickets w) else tickets w in
  match rooms w !! userObjID with
  | None => mkWorld table1 (rooms w) (statsLog w)
  | Some g =>
      let g0 := if wasOpen then set_ticket (set_open false (ticket g)) g else g in
      let '(g1, l) := writeStats now CloseTicketban g0 in
      destroyRoom now userObjID
        (mkWorld table1 (<[userObjID := g1]> (rooms w)) (statsLog w ++ [l]))
  end.

(** The loop itself. *)
Definition banTickets (now : Z) (affected : list ID) (w : World) : World :=
  foldl (λ w' k, banTicket now k w') w affected.

(** ** Hot-patching *)


(** ** Readings used in the statements *)

(** The classification of [writeStats], as a function of the game. *)
Definition codeResolution (g : HelpTicket) : Resolution :=
  if negb (active (ticket g)) then dead
  else if (firstClaimTime g =? 0) || emptyRoom g then unresolved
  else resolved.

(** The classification in the words of the specification: [dead] if never
    activated, else [unresolved] if never claimed or the room was empty at
    the first claim, else [resolved]. *)
Definition specResolution (activated claimedOnce emptyAtFirstClaim : bool)
    : Resolution :=
  if negb activated then dead
  else if negb claimedOnce || emptyAtFirstClaim then unresolved
  else resolved.

(** The results the statistics page counts as positive. *)
Definition positiveResult (r : TicketResult) : bool :=
  match r with
  | approved | valid | assisted => true
  | _ => false
  end.

(** The clocks of an active, open ticket: [acc] is the unclaimed time up to
    [since].  While somebody holds the ticket the clock is stopped and
    [unclaimedTime] is [acc]; otherwise [lastUnclaimedStart] is the start of
    the running interval. *)
Record clockInv (acc since : Z) (g : HelpTicket) : Prop := mkClockInv {
  ci_open : open (ticket g) = true;
  ci_active : active (ticket g) = true;
  ci_names : forall q, q ∈ claimQueue g -> q <> "";
  ci_claimed : claimed (ticket g) <> Some "";
  ci_held : truthy (claimed (ticket g)) = true ->
      lastUnclaimedStart g = 0 /\ unclaimedTime g = acc;
  ci_free : truthy (claimed (ticket g)) = false ->
      lastUnclaimedStart g <> 0
      /\ unclaimedTime g + (since - lastUnclaimedStart g) = acc }.

(** As long as [firstClaimTime] is zero nobody holds the ticket or waits. *)
Definition unclaimedSoFar (g : HelpTicket) : Prop :=
  firstClaimTime g = 0 ->
  truthy (claimed (ticket g)) = false /\ claimQueue g = [].




(** The persisted table is keyed by the user id of its entries. *)
Definition keyedByUserid (ticketData : list (string * PersistedEntry)) : bool :=
  forallb (λ kv, String.eqb (userid (entry (snd kv))) (fst kv)) ticketData.


(** The ids in the room after the events, for the ids [present] before. *)
Fixpoint presentAfter (present : list ID) (evs : list (Z * Event)) : list ID :=
  match evs with
  | [] => present
  | (_, Join user _) :: rest => presentAfter (User.id user :: present) rest
  | (_, Leave user _) :: rest =>
      presentAfter (filter (λ p, p ≠ User.id user) present) rest
  | (_, LogMessage _ _) :: rest => presentAfter present rest
  end.

(** The events come in the order of their times, from [since] to [closeAt]. *)
Fixpoint chronological (since : Z) (evs : list (Z * Event)) (closeAt : Z) : bool :=
  match evs with
  | [] => since <=? closeAt
  | (now, _) :: rest => (since <=? now) && chronological now rest closeAt
  end.

(** A ticket the staff box counts as unclaimed. *)
Definition waiting (t : TicketState) : bool :=
  open t && active t && negb (truthy (claimed t)).

(** The slot and the plugin's note of the firing time agree. *)
Definition timerNoted (s : TimerState) : Prop :=
  timerEnds s = default 0 (unclaimedTicketTimer s).

(** Entries and rooms belong together: the table and the rooms are keyed by
    the user id of their tickets, an open entry has its room, whose game
    holds an open ticket, and the ticket of a game is open only when the
    entry is. *)
Record linked (w : World) : Prop := mkLinked {
  ln_keys : forall k t, tickets w !! k = Some t -> userid t = k;
  ln_rooms : forall k g, rooms w !! k = Some g -> userid (ticket g) = k;
  ln_open : forall k t, tickets w !! k = Some t -> open t = true ->
      exists g, rooms w !! k = Some g /\ open (ticket g) = true;
  ln_game : forall k g, rooms w !! k = Some g -> open (ticket g) = true ->
      exists t, tickets w !! k = Some t /\ open t = true }.

(** The open and active tickets of the table, in the order of the keys. *)
Definition liveTickets (table : gmap ID TicketState) (keys : list ID)
    : list TicketState :=
  omap (λ k, match table !! k with
             | Some t => if open t && active t then Some t else None
             | None => None
             end) keys.

(** Nobody holds the ticket; a request for assistance that nobody holds. *)
Definition unheld (t : TicketState) : bool := negb (truthy (claimed t)).

Definition unheldAssistRequest (t : TicketState) : bool :=
  unheld t && String.eqb (type t) "Public Room Assistance Request".

(** [Rooms.get('help-' + k)] is there. *)
Definition hasHelpRoom (w : World) (k : ID) : bool :=
  bool_decide (is_Some (rooms w !! k)).

(** The id [checkBanned] looks up. *)
Definition submitterId (user : Submitter + ID) : ID :=
  match user with
  | inl u => User.id (account u)
  | inr k => k
  end.

(** Two states of one ticket: the room events change neither whose ticket it
    is nor whether it is open. *)
Definition sameTicket (t t' : TicketState) : Prop :=
  open t' = open t /\ userid t' = userid t /\ creator t' = creator t
  /\ type t' = type t /\ created t' = created t /\ ip t' = ip t.


(** The state of the loop of [notifyStaff] after the open and active
    tickets [pre]. *)
Record boxInv (pre : list TicketState) (b : StaffBox) : Prop := mkBoxInv {
  bi_count : count b = Nat.min (length pre) 4;
  bi_hidden : hiddenTicketCount b = (length pre - 3)%nat;
  bi_hiddenUnclaimed :
    hiddenTicketUnclaimedCount b = length (filter (λ t, unheld t = true) (drop 3 pre));
  bi_unclaimed : hasUnclaimed b = existsb unheld (take 4 pre);
  bi_assist : hasAssistRequest b = existsb unheldAssistRequest (take 4 pre) }.

(** ** Sample data *)

Definition staffA : User.t := User.mk "alice" "Alice" true true true.
Definition staffB : User.t := User.mk "bob" "Bob" true true true.
Definition staffC : User.t := User.mk "carol" "Carol" true true true.
Definition requester : User.t := User.mk "dan" "Dan" false true false.

(** The entry [submit] stores for Dan. *)
Definition freshTicket (ty : string) (isActive : bool) (now : Z) : TicketState :=
  {| creator := "Dan"; userid := "dan"; open := true; active := isActive;
     type := ty; created := now; claimed := None; ip := "10.0.0.1";
     needsDelayWarning := false; offline := false |}.

(** An active ticket opened at 1000 and a ticket that waits for context. *)
Definition activeTicket : HelpTicket :=
  newHelpTicket 1000 (freshTicket "Other" true 1000).

Definition inactiveTicket : HelpTicket :=
  newHelpTicket 1000 (freshTicket "Other" false 1000).

(** Alice joins twice. *)
Definition doubleJoin : list (Z * Event) :=
  [ (2000, Join staffA [requester; staffA]);
    (3000, Join staffA [requester; staffA]) ].

(** Alice, Bob and Carol join one after the other. *)
Definition threeJoins : list (Z * Event) :=
  [ (2000, Join staffA [requester; staffA]);
    (3000, Join staffB [requester; staffA; staffB]);
    (4000, Join staffC [requester; staffA; staffB; staffC]) ].

(** The ticket of the FIFO example: claimed by Alice, with Bob and Carol
    waiting. *)
Definition queuedTicket : HelpTicket := run serverToID activeTicket threeJoins.

(** The active ticket claimed by Alice at 2000. *)
Definition claimedTicket : HelpTicket :=
  onJoin 2000 [requester; staffA] staffA activeTicket.

(** Dan's ticket in the table, with its room. *)
Definition world0 : World :=
  mkWorld {[ "dan" := ticket claimedTicket ]} {[ "dan" := claimedTicket ]} [].

(** Alice closes the ticket at 5000; Dan is banned at 6000. *)
Definition world1 : World :=
  fst (closeCommand serverToID 5000 "Dan" true staffA world0).

Definition world2 : World :=
  punishmentfilter serverToID 6000 "BAN" ["dan"] world1.

(** Dan's ticket, unclaimed, in the table with its room. *)
Definition unclaimedWorld : World :=
  mkWorld {[ "dan" := ticket activeTicket ]} {[ "dan" := activeTicket ]} [].

(** Dan's own copy of himself as a player of his ticket. *)
Definition requesterTicket : HelpTicket :=
  onJoin 1000 [requester] requester activeTicket.

Definition requesterWorld : World :=
  mkWorld {[ "dan" := ticket requesterTicket ]} {[ "dan" := requesterTicket ]} [].

(** The timer armed for an assistance request at 1700000000000. *)
Definition armedAssist : TimerState :=
  pokeUnclaimedTicketTimer 1700000000000 true true true (mkTimerState None 0).

(** The claimant leaves and comes back before the requester has written. *)
Definition lateActivationRun : list (Z * Event) :=
  [ (2000, Join staffA [requester; staffA]);
    (3000, Leave staffA "");
    (4000, Join staffA [requester; staffA]);
    (5000, LogMessage "My account was locked after a battle" requester) ].

(** Alice claims at 2000 and leaves at 3000; Bob claims at 4500. *)
Definition handoverRun : list (Z * Event) :=
  [ (2000, Join staffA [requester; staffA]);
    (3000, Leave staffA "");
    (4500, Join staffB [requester; staffB]) ].

(** Dan's ticket after Alice has claimed it and left: nobody holds it. *)
Definition releasedTicket : HelpTicket :=
  run serverToID activeTicket (take 2 handoverRun).

(** Bob queues behind the claimant, Dan writes, the claimant leaves. *)
Definition heldRun : list (Z * Event) :=
  [ (2000, Join staffB [requester; staffA; staffB]);
    (3000, LogMessage "I cannot log in since this morning" requester);
    (4000, Leave staffA "") ].

(** Alice claims while only staff is in the room; Dan comes back later. *)
Definition emptyRoomRun : list (Z * Event) :=
  [ (2000, Join staffA [staffA]);
    (3000, Join requester [staffA; requester]) ].

(** A persisted table: an open ticket still within the retention window, an
    open one beyond it, an old-format ban that expired and one that did not. *)
Definition recentEntry : PersistedEntry :=
  mkPersistedEntry (freshTicket "Other" true 90000000) false None "".

Definition staleEntry : PersistedEntry :=
  mkPersistedEntry
    {| creator := "Erin"; userid := "erin"; open := true; active := true;
       type := "Appeal"; created := 1000; claimed := None; ip := "10.0.0.2";
       needsDelayWarning := false; offline := false |} false None "".

Definition expiredBan : PersistedEntry :=
  mkPersistedEntry
    {| creator := "Fay"; userid := "fay"; open := false; active := false;
       type := ""; created := 0; claimed := None; ip := "";
       needsDelayWarning := false; offline := false |} true (Some 2000) "spam".

Definition runningBan : PersistedEntry :=
  mkPersistedEntry
    {| creator := "Gus"; userid := "gus"; open := false; active := false;
       type := ""; created := 0; claimed := None; ip := "";
       needsDelayWarning := false; offline := false |}
    true (Some 200000000) "abuse".

Definition sampleTable : list (string * PersistedEntry) :=
  [ ("dan", recentEntry); ("erin", staleEntry);
    ("fay", expiredBan); ("gus", runningBan) ].



(** Bob writes in Dan's ticket, then Dan and Alice do. *)
Definition chatRun : list (Z * Event) :=
  [ (2000, LogMessage "Hello, how can I help?" staffB);
    (3000, LogMessage "hi" requester);
    (4000, LogMessage "Somebody keeps insulting me in PMs" requester);
    (5000, LogMessage "Thanks, I am looking into it" staffA) ].

(** An open and active ticket of user [k]. *)
Definition ticketOf (k : ID) (ty : string) (since : Z) (holder : option string)
    : TicketState :=
  {| creator := k; userid := k; open := true; active := true; type := ty;
     created := since; claimed := holder; ip := "10.0.1.1";
     needsDelayWarning := true; offline := false |}.

(** Five open and active tickets; only the last one, a request for
    assistance, is held by nobody. *)
Definition busyTable : gmap ID TicketState :=
  list_to_map
    [ ("u1", ticketOf "u1" "Appeal" 1 (Some "Alice"));
      ("u2", ticketOf "u2" "Other" 2 (Some "Alice"));
      ("u3", ticketOf "u3" "Other" 3 (Some "Bob"));
      ("u4", ticketOf "u4" "Appeal" 4 (Some "Bob"));
      ("u5", ticketOf "u5" "Public Room Assistance Request" 5 None) ].

Definition busyKeys : list ID := ["u1"; "u2"; "u3"; "u4"; "u5"].

(** Gus is ticket banned, and so is the address 10.0.0.9; 10.0.0.7 is a
    shared address. *)
Definition gusBan : Punishment := mkPunishment "TICKETBAN" "gus" 200000000 "abuse".

Definition samplePunishments : PunishmentTables :=
  mkPunishmentTables {[ "gus" := gusBan ]} {[ "10.0.0.9" := gusBan ]}
    {[ "10.0.0.7" ]}.

Definition noPunishments : PunishmentTables := mkPunishmentTables ∅ ∅ ∅.

(** Dan and Erin as they submit the form; Hal writes from the banned
    address, Ida from the shared one with the banned address behind it. *)
Definition danSubmits : Submitter := mkSubmitter requester false "10.0.0.1" ["10.0.0.1"].

Definition erinSubmits : Submitter :=
  mkSubmitter (User.mk "erin" "Erin" false true false) false "10.0.0.2" ["10.0.0.2"].

Definition halSubmits : Submitter :=
  mkSubmitter (User.mk "hal" "Hal" false true false) false "10.0.0.9" ["10.0.0.9"].

Definition idaSubmits : Submitter :=
  mkSubmitter (User.mk "ida" "Ida" false true false) false "10.0.0.7"
    ["10.0.0.7"; "10.0.0.9"].


(** Dan's entry is open, but his room is gone. *)
Definition orphanWorld : World :=
  mkWorld {[ "dan" := ticket activeTicket ]} ∅ [].


(** * Properties *)

Section PluginProperties.

Variable toID : string -> ID.

(** ** Basic facts *)

Lemma orNull_nonempty (s : string) : s <> "" -> orNull s = Some s.
Proof. intros H. unfold orNull. apply String.eqb_neq in H. now rewrite H. Qed.

Lemma truthy_Some (s : string) : s <> "" -> truthy (Some s) = true.
Proof. intros H. simpl. apply String.eqb_neq in H. now rewrite H. Qed.

Lemma isPlayer_true k g : isPlayer k g = true <-> k ∈ playerTable g.
Proof. unfold isPlayer. apply bool_decide_eq_true. Qed.

Lemma isPlayer_false k g : isPlayer k g = false <-> k ∉ playerTable g.
Proof. unfold isPlayer. apply bool_decide_eq_false. Qed.

(** ** Frame facts of [writeStats] and [close] *)

Lemma writeStats_ticket now res g : ticket (fst (writeStats now res g)) = ticket g.
Proof. unfold writeStats. simpl. destruct (lastUnclaimedStart g =? 0); reflexivity. Qed.

Lemma foldr_removePlayer_ticket l g : ticket (foldr removePlayer g l) = ticket g.
Proof. induction l as [| k l IH]; simpl; auto. Qed.

Lemma foldr_removePlayer_involvedStaff l g :
  involvedStaff (foldr removePlayer g l) = involvedStaff g.
Proof. induction l as [| k l IH]; simpl; auto. Qed.

Lemma foldr_removePlayer_firstClaimTime l g :
  firstClaimTime (foldr removePlayer g l) = firstClaimTime g.
Proof. induction l as [| k l IH]; simpl; auto. Qed.

Lemma foldr_removePlayer_activationTime l g :
  activationTime (foldr removePlayer g l) = activationTime g.
Proof. induction l as [| k l IH]; simpl; auto. Qed.

Lemma close_ticket now res staff g :
  ticket (fst (close toID now res staff g)) = set_open false (ticket g).
Proof.
  unfold close. rewrite writeStats_ticket.
  set (g2 := foldr removePlayer _ _).
  assert (H2 : ticket g2 = set_open false (ticket g)).
  { subst g2. rewrite foldr_removePlayer_ticket. reflexivity. }
  destruct (involvedStaff g2); [| assumption].
  destruct staff as [s |]; [destruct (closerIsStaff _ _) |]; simpl; assumption.
Qed.

Lemma writeStats_result now res g :
  line_result (snd (writeStats now res g)) = Some (resultOf (type (ticket g)) res).
Proof. unfold writeStats. simpl. destruct (lastUnclaimedStart g =? 0); reflexivity. Qed.

Lemma close_result now res staff g :
  line_result (snd (close toID now res staff g)) = Some (resultOf (type (ticket g)) res).
Proof.
  unfold close. rewrite writeStats_result.
  set (g2 := foldr removePlayer _ _).
  assert (H2 : type (ticket g2) = type (ticket g)).
  { subst g2. rewrite foldr_removePlayer_ticket. reflexivity. }
  destruct (involvedStaff g2); [| now rewrite H2].
  destruct staff as [s |]; [destruct (closerIsStaff _ _) |]; simpl; now rewrite H2.
Qed.

(** ** The claim queue *)

Lemma newHelpTicket_queueInv now t present :
  open t = true -> claimed t = None -> queueInv toID present (newHelpTicket now t).
Proof.
  intros Ho Hc. split; simpl; auto.
  - intros p Hp. inversion Hp.
  - intros q Hq. inversion Hq.
  - constructor.
  - intros c. rewrite Hc. discriminate.
Qed.

(** The invariant reads four components of the game only. *)
Lemma queueInv_ext present g g' :
  open (ticket g') = open (ticket g) ->
  claimed (ticket g') = claimed (ticket g) ->
  claimQueue g' = claimQueue g ->
  playerTable g' = playerTable g ->
  queueInv toID present g -> queueInv toID present g'.
Proof.
  intros E1 E2 E3 E4 [Ho Hp Hq Hnd Hun Hcl].
  split; rewrite ?E1, ?E2, ?E3, ?E4; auto.
Qed.

Lemma queueInv_addPlayer present u g :
  queueInv toID present g -> User.id u ∉ present ->
  queueInv toID (User.id u :: present) (addPlayer u g).
Proof.
  intros [Ho Hp Hq Hnd Hun Hcl] Hfresh.
  unfold addPlayer. destruct (isPlayer (User.id u) g) eqn:Hpl.
  - apply isPlayer_true in Hpl. exfalso. auto.
  - split; simpl; auto.
    + intros p Hin. apply elem_of_app in Hin as [Hin | Hin].
      * right. auto.
      * apply list_elem_of_singleton in Hin. subst. left.
    + intros q Hin. destruct (Hq q Hin) as (H1 & H2 & H3).
      repeat split; auto.
      * right. auto.
      * intros Hin'. apply elem_of_app in Hin' as [Hin' | Hin']; [auto |].
        apply list_elem_of_singleton in Hin'. rewrite Hin' in H1. auto.
    + intros c Hc. destruct (Hcl c Hc) as (H1 & H2 & H3).
      repeat split; auto.
      * right. auto.
      * intros Hin'. apply elem_of_app in Hin' as [Hin' | Hin']; [auto |].
        apply list_elem_of_singleton in Hin'. rewrite Hin' in H1. auto.
Qed.

Lemma onJoin_queueInv now us u present g :
  queueInv toID present g ->
  User.id u ∉ present -> toID (User.name u) = User.id u -> User.name u <> "" ->
  queueInv toID (User.id u :: present) (onJoin now us u g).
Proof.
  intros Hinv Hfresh Hid Hname.
  pose proof Hinv as [Ho Hp Hq Hnd Hun Hcl].
  unfold onJoin. rewrite Ho. simpl.
  destruct (negb (User.isStaff u) || String.eqb (User.id u) (userid (ticket g))) eqn:Hplayer.
  - set (g1 := if emptyRoom g then set_emptyRoom false g else g).
    assert (Hg1 : queueInv toID present g1).
    { subst g1. destruct (emptyRoom g); [| assumption].
      eapply queueInv_ext; [.. | exact Hinv]; reflexivity. }
    pose proof (queueInv_addPlayer _ u _ Hg1 Hfresh) as Hg2.
    destruct (offline (ticket (addPlayer u g1))); [| assumption].
    eapply queueInv_ext; [.. | exact Hg2]; reflexivity.
  - destruct (truthy (claimed (ticket g))) eqn:Htruthy; simpl.
    + (* queued *)
      split; simpl; auto.
      * intros p Hin. right. auto.
      * intros q Hin. apply elem_of_app in Hin as [Hin | Hin].
        -- destruct (Hq q Hin) as (H1 & H2 & H3). repeat split; auto. right; auto.
        -- apply list_elem_of_singleton in Hin. subst q. rewrite Hid.
           repeat split; auto. left.
      * rewrite fmap_app. simpl. apply NoDup_app. repeat split; auto.
        -- intros x Hx Hx'. apply list_elem_of_singleton in Hx'. subst x.
           apply list_elem_of_fmap in Hx as (q & Heq & Hin).
           destruct (Hq q Hin) as (H1 & _). rewrite Hid in Heq. rewrite <- Heq in H1. auto.
        -- apply NoDup_singleton.
      * intros Hf. rewrite Hf in Htruthy. discriminate.
      * intros c Hc. destruct (Hcl c Hc) as (H1 & H2 & H3).
        repeat split; auto.
        -- right; auto.
        -- rewrite fmap_app. simpl. intros Hin. apply elem_of_app in Hin as [Hin | Hin]; [auto |].
           apply list_elem_of_singleton in Hin. rewrite Hid in Hin. rewrite Hin in H1. auto.
    + (* claims *)
      destruct (Hun eq_refl) as [Hnone Hempty].
      match goal with |- queueInv toID _ ?G =>
        assert (Hview : open (ticket G) = true /\ claimed (ticket G) = Some (User.name u)
                        /\ claimQueue G = [] /\ playerTable G = playerTable g) end.
      { destruct (firstClaimTime g =? 0); simpl;
          [destruct (nonStaffPresent _ us); simpl |];
          destruct (active (ticket g)); simpl; auto. }
      destruct Hview as (V1 & V2 & V3 & V4).
      split; rewrite ?V1, ?V2, ?V3, ?V4; simpl; auto.
      * intros p Hin. right. auto.
      * intros q Hin. inversion Hin.
      * constructor.
      * intros Hf. apply String.eqb_neq in Hname. rewrite Hname in Hf. discriminate.
      * intros c Hc. injection Hc as <-. rewrite Hid. repeat split.
        -- left.
        -- intros Hin. auto.
        -- intros Hin. inversion Hin.
Qed.

Lemma spliceFirst_subseteq k q x : x ∈ spliceFirst toID k q -> x ∈ q.
Proof.
  induction q as [| y q IH]; simpl; [auto |].
  destruct (String.eqb (toID y) k).
  - intros H. right. exact H.
  - intros H. apply elem_of_cons in H as [-> | H]; [left | right; auto].
Qed.

Lemma spliceFirst_NoDup k q :
  NoDup (toID <$> q) ->
  NoDup (toID <$> spliceFirst toID k q) /\ (k ∉ (toID <$> spliceFirst toID k q)).
Proof.
  induction q as [| y q IH]; simpl.
  - intros _. split; [constructor | apply not_elem_of_nil].
  - intros Hnd. apply NoDup_cons in Hnd as [Hy Hnd].
    destruct (String.eqb (toID y) k) eqn:E.
    + apply String.eqb_eq in E. subst k. auto.
    + apply String.eqb_neq in E. destruct (IH Hnd) as [IH1 IH2].
      simpl. split.
      * apply NoDup_cons. split; [| assumption].
        intros Hin. apply Hy. apply list_elem_of_fmap in Hin as (z & Hz & Hin).
        apply list_elem_of_fmap. exists z. split; [assumption |].
        eapply spliceFirst_subseteq; eassumption.
      * apply not_elem_of_cons. split; [congruence | assumption].
Qed.

Lemma onLeave_queueInv now u present g :
  queueInv toID present g -> User.id u ∈ present ->
  queueInv toID (filter (λ p, p ≠ User.id u) present) (onLeave toID now u "" g).
Proof.
  intros Hinv Hin.
  pose proof Hinv as [Ho Hp Hq Hnd Hun Hcl].
  unfold onLeave. simpl.
  destruct (isPlayer (User.id u) g) eqn:Hpl.
  - apply isPlayer_true in Hpl.
    split; simpl; auto.
    + intros p Hp'. apply list_elem_of_filter in Hp' as [Hne Hp'].
      apply list_elem_of_filter. auto.
    + intros q Hq'. destruct (Hq q Hq') as (H1 & H2 & H3). repeat split; auto.
      * apply list_elem_of_filter. split; [congruence | assumption].
      * intros Hf. apply list_elem_of_filter in Hf as [_ Hf]. auto.
    + intros c Hc. destruct (Hcl c Hc) as (H1 & H2 & H3). repeat split; auto.
      * apply list_elem_of_filter. split; [congruence | assumption].
      * intros Hf. apply list_elem_of_filter in Hf as [_ Hf]. auto.
  - apply isPlayer_false in Hpl. rewrite Ho. simpl.
    assert (Hplayers : forall p, p ∈ playerTable g ->
              p ∈ filter (λ p, p ≠ User.id u) present).
    { intros p Hp'. apply list_elem_of_filter. split; [congruence | auto]. }
    destruct (String.eqb (toID_opt toID (claimed (ticket g))) (User.id u)) eqn:Hmatch.
    + apply String.eqb_eq in Hmatch.
      destruct (claimQueue g) as [| next rest] eqn:Hqueue.
      * split; simpl; auto; try rewrite Hqueue.
        -- intros q Hq'. inversion Hq'.
        -- constructor.
        -- discriminate.
      * destruct (truthy (claimed (ticket g))) eqn:Htr.
        2:{ destruct (Hun eq_refl) as [_ Hf]. discriminate. }
        destruct (claimed (ticket g)) as [c |] eqn:Hc; [| discriminate].
        simpl in Hmatch.
        destruct (Hcl c eq_refl) as (C1 & C2 & C3).
        simpl in Hnd. apply NoDup_cons in Hnd as [Hnext Hnd].
        destruct (Hq next (list_elem_of_here _ _)) as (N1 & N2 & N3).
        assert (Hrest : forall q, q ∈ rest -> toID q <> User.id u).
        { intros q Hq' Heq. apply C3. rewrite Hmatch, <- Heq. simpl. right.
          apply list_elem_of_fmap_2. assumption. }
        assert (Hn : toID next <> User.id u).
        { intros Heq. apply C3. rewrite Hmatch, <- Heq. simpl. left. }
        unfold orNull. apply String.eqb_neq in N3 as N3'. rewrite N3'.
        split; simpl; auto.
        -- intros q Hq'. destruct (Hq q (list_elem_of_further _ _ _ Hq')) as (H1 & H2 & H3).
           repeat split; auto. apply list_elem_of_filter. split; auto.
        -- rewrite N3'. discriminate.
        -- intros c' Hc'. injection Hc' as <-. repeat split; auto.
           apply list_elem_of_filter. split; auto.
    + apply String.eqb_neq in Hmatch.
      destruct (spliceFirst_NoDup (User.id u) (claimQueue g) Hnd) as [S1 S2].
      split; simpl; auto.
      * intros q Hq'. pose proof (spliceFirst_subseteq _ _ _ Hq') as Hq''.
        destruct (Hq q Hq'') as (H1 & H2 & H3). repeat split; auto.
        apply list_elem_of_filter. split; [| assumption].
        intros Heq. apply S2. apply list_elem_of_fmap. exists q. split; [congruence | assumption].
      * intros Hf. destruct (Hun Hf) as [H1 H2]. rewrite H2. auto.
      * intros c Hc. destruct (Hcl c Hc) as (H1 & H2 & H3). rewrite Hc in Hmatch.
        simpl in Hmatch. repeat split; auto.
        -- apply list_elem_of_filter. split; assumption.
        -- intros Hf. apply H3. apply list_elem_of_fmap in Hf as (z & Hz & Hf).
           apply list_elem_of_fmap. exists z. split; [assumption |].
           eapply spliceFirst_subseteq; eassumption.
Qed.

Lemma onLogMessage_queueInv now m u present g :
  queueInv toID present g -> queueInv toID present (onLogMessage toID now m u g).
Proof.
  intros Hinv. eapply queueInv_ext; [.. | exact Hinv];
    unfold onLogMessage;
    repeat match goal with
    | |- context [if ?b then _ else _] => destruct b; simpl
    end; reflexivity.
Qed.



(** ** Leaving the ticket as its claimant *)

(** C2.  When the staff member whose id is that of [claimed] leaves an open
    ticket (and is not a player of the room game): with a non-empty queue
    the head of the queue becomes the claimant and the rest stays queued in
    order, the unclaimed clock being left alone; with an empty queue
    [claimed] is cleared and [lastUnclaimedStart] is the time of the leave. *)
Theorem onLeave_claimant_fifo (now : Z) (user : User.t) (oldUserid : ID)
    (g : HelpTicket) (c : string) :
  open (ticket g) = true ->
  isPlayer (if String.eqb oldUserid "" then User.id user else oldUserid) g = false ->
  claimed (ticket g) = Some c ->
  toID c = User.id user ->
  (forall next rest,
      claimQueue g = next :: rest -> next <> "" ->
      claimed (ticket (onLeave toID now user oldUserid g)) = Some next
      /\ claimQueue (onLeave toID now user oldUserid g) = rest
      /\ lastUnclaimedStart (onLeave toID now user oldUserid g)
         = lastUnclaimedStart g)
  /\ (claimQueue g = [] ->
      claimed (ticket (onLeave toID now user oldUserid g)) = None
      /\ claimQueue (onLeave toID now user oldUserid g) = []
      /\ lastUnclaimedStart (onLeave toID now user oldUserid g) = now).
Proof.
  intros Hopen Hplayer Hclaimed Hid.
  assert (Hmatch : String.eqb (toID_opt toID (claimed (ticket g))) (User.id user) = true).
  { rewrite Hclaimed. simpl. now apply String.eqb_eq. }
  split.
  - intros next rest Hq Hne.
    unfold onLeave. cbv zeta. rewrite Hplayer, Hopen. simpl. rewrite Hmatch, Hq.
    simpl. rewrite (orNull_nonempty _ Hne). auto.
  - intros Hq.
    unfold onLeave. cbv zeta. rewrite Hplayer, Hopen. simpl. rewrite Hmatch, Hq.
    simpl. auto.
Qed.

(** ** Closing twice *)

Lemma closeCommand_rejects_closed now input res user w t :
  tickets w !! toID input = Some t -> open t = false ->
  closeCommand toID now input res user w = (w, false).
Proof. intros Ht Ho. unfold closeCommand. rewrite Ht, Ho. reflexivity. Qed.

Lemma destroyRoom_closed_silent now k w g :
  rooms w !! k = Some g -> open (ticket g) = false ->
  statsLog (destroyRoom now k w) = statsLog w.
Proof.
  intros Hr Ho. unfold destroyRoom, destroy. rewrite Hr, Ho.
  rewrite andb_false_r. simpl. apply app_nil_r.
Qed.

Lemma punishmentfilter_writes_again now k w g :
  rooms w !! k = Some g ->
  statsLog (punishmentfilter toID now "BAN" [k] w)
  = statsLog w ++ [snd (close toID now CloseTicketban None g)].
Proof.
  intros Hr. destruct (close toID now CloseTicketban None g) as [g1 l] eqn:E.
  unfold punishmentfilter. change (negb (String.eqb "BAN" "BAN")) with false.
  cbv iota. unfold foldl, punishmentfilterId. rewrite Hr, E. reflexivity.
Qed.


(** ** [claimed] on a closed ticket *)

Lemma foldr_removePlayer_claimQueue l g :
  claimQueue (foldr removePlayer g l) = claimQueue g.
Proof. induction l as [| k l IH]; simpl; auto. Qed.







(** ** Resolution *)

Lemma writeStats_resolution now res g :
  resolution (fst (writeStats now res g)) = codeResolution g
  /\ line_resolution (snd (writeStats now res g)) = codeResolution g.
Proof.
  unfold writeStats, codeResolution. simpl.
  destruct (lastUnclaimedStart g =? 0); simpl; auto.
Qed.

Lemma foldr_removePlayer_emptyRoom l g :
  emptyRoom (foldr removePlayer g l) = emptyRoom g.
Proof. induction l as [| k l IH]; simpl; auto. Qed.

Lemma close_resolution now res staff g :
  resolution (fst (close toID now res staff g)) = codeResolution g
  /\ line_resolution (snd (close toID now res staff g)) = codeResolution g.
Proof.
  unfold close.
  set (g2 := foldr removePlayer _ _).
  assert (H2 : codeResolution g2 = codeResolution g).
  { subst g2. unfold codeResolution.
    rewrite foldr_removePlayer_ticket, foldr_removePlayer_firstClaimTime,
      foldr_removePlayer_emptyRoom. reflexivity. }
  destruct (involvedStaff g2);
    [destruct staff as [s |]; [destruct (closerIsStaff _ _) |] |];
    rewrite <- H2;
    match goal with
    | |- context [writeStats now res ?G] => exact (writeStats_resolution now res G)
    end.
Qed.

Lemma onJoin_first_claim_emptyRoom now us u g :
  open (ticket g) = true ->
  User.isStaff u = true -> User.id u <> userid (ticket g) ->
  truthy (claimed (ticket g)) = false ->
  firstClaimTime g = 0 ->
  firstClaimTime (onJoin now us u g) = now
  /\ emptyRoom (onJoin now us u g)
     = match nonStaffPresent (ticket g) us with
       | [] => true
       | _ :: _ => emptyRoom g
       end.
Proof.
  intros Ho Hs Hid Hc Hf. unfold onJoin. rewrite Ho, Hs, Hc. simpl.
  apply String.eqb_neq in Hid. rewrite Hid, Hf. simpl.
  unfold nonStaffPresent. simpl.
  destruct (filter _ us); simpl; destruct (active (ticket g)); simpl; auto.
Qed.

Lemma onJoin_player_emptyRoom now us u g :
  open (ticket g) = true ->
  negb (User.isStaff u) || String.eqb (User.id u) (userid (ticket g)) = true ->
  emptyRoom (onJoin now us u g) = false.
Proof.
  intros Ho Hp. unfold onJoin. rewrite Ho, Hp. simpl.
  unfold addPlayer.
  destruct (emptyRoom g) eqn:He; destruct (isPlayer _ _); simpl;
    repeat match goal with
    | |- context [if ?b then _ else _] => destruct b; simpl
    end; auto.
Qed.

Lemma onJoin_later_emptyRoom now us u g :
  open (ticket g) = true ->
  negb (User.isStaff u) || String.eqb (User.id u) (userid (ticket g)) = false ->
  firstClaimTime g <> 0 ->
  emptyRoom (onJoin now us u g) = emptyRoom g.
Proof.
  intros Ho Hp Hf. unfold onJoin. rewrite Ho, Hp. simpl.
  apply Z.eqb_neq in Hf.
  destruct (truthy _); simpl; [reflexivity |]. rewrite Hf. simpl.
  destruct (active (ticket g)); reflexivity.
Qed.

(** C6, amended.  At close the resolution is [dead] when the ticket is not
    active, else [unresolved] when [firstClaimTime] is zero or [emptyRoom] is
    set, else [resolved].  [emptyRoom] is set by the first claim when no
    named non-staff user (nor the creator) is in the room, and it is cleared
    again by every later join of a non-staff user or of the creator; joins of
    other staff leave it alone. *)
Theorem resolution_at_close :
  (forall now res staff g,
      line_resolution (snd (close toID now res staff g))
      = (if negb (active (ticket g)) then dead
         else if (firstClaimTime g =? 0) || emptyRoom g then unresolved
         else resolved)
      /\ resolution (fst (close toID now res staff g))
         = line_resolution (snd (close toID now res staff g)))
  /\ (forall now us u g,
      open (ticket g) = true ->
      User.isStaff u = true -> User.id u <> userid (ticket g) ->
      truthy (claimed (ticket g)) = false ->
      firstClaimTime g = 0 ->
      firstClaimTime (onJoin now us u g) = now
      /\ emptyRoom (onJoin now us u g)
         = match nonStaffPresent (ticket g) us with
           | [] => true
           | _ :: _ => emptyRoom g
           end)
  /\ (forall now us u g,
      open (ticket g) = true ->
      negb (User.isStaff u) || String.eqb (User.id u) (userid (ticket g)) = true ->
      emptyRoom (onJoin now us u g) = false)
  /\ (forall now us u g,
      open (ticket g) = true ->
      negb (User.isStaff u) || String.eqb (User.id u) (userid (ticket g)) = false ->
      firstClaimTime g <> 0 ->
      emptyRoom (onJoin now us u g) = emptyRoom g).
Proof.
  split.
  { intros now res staff g.
    destruct (close_resolution now res staff g) as [H1 H2].
    rewrite H1, H2. split; reflexivity. }
  split; [apply onJoin_first_claim_emptyRoom |].
  split; [apply onJoin_player_emptyRoom | apply onJoin_later_emptyRoom].
Qed.

(** ** Involved staff at close *)

Lemma setAdd_nil k : setAdd k [] = [k].
Proof. reflexivity. Qed.

Lemma writeStats_involvedStaff now res g :
  involvedStaff (fst (writeStats now res g)) = involvedStaff g
  /\ line_involvedStaff (snd (writeStats now res g))
     = if activationTime g =? 0 then "" else String.concat "," (involvedStaff g).
Proof.
  unfold writeStats. simpl.
  destruct (lastUnclaimedStart g =? 0); simpl;
    destruct (activationTime g =? 0); auto.
Qed.

(** C9, amended.  At [close], an empty [involvedStaff] receives one id: the
    closing user's when that user is staff and not the ticket's creator,
    otherwise the id of the value [claimed] has at the close, which is the
    id of the user holding the ticket then and the empty id when nobody
    holds it then, whoever held it before; a non-empty [involvedStaff] is
    kept.  The last field of the
    line is the comma-joined [involvedStaff] only when the ticket was
    activated ([activationTime] not zero); for a ticket that was never
    activated the field is empty. *)
Theorem involvedStaff_at_close now res staff g :
  (involvedStaff g = [] ->
     (forall s, staff = Some s -> User.isStaff s = true ->
                User.id s <> userid (ticket g) ->
                involvedStaff (fst (close toID now res staff g)) = [User.id s])
     /\ (closerIsStaff staff (ticket g) = false ->
         involvedStaff (fst (close toID now res staff g))
         = [toID_opt toID (claimed (ticket g))]))
  /\ (involvedStaff g <> [] ->
      involvedStaff (fst (close toID now res staff g)) = involvedStaff g)
  /\ line_involvedStaff (snd (close toID now res staff g))
     = if activationTime g =? 0 then ""
       else String.concat "," (involvedStaff (fst (close toID now res staff g))).
Proof.
  unfold close.
  set (g2 := foldr removePlayer _ _).
  assert (H2 : involvedStaff g2 = involvedStaff g)
    by (subst g2; rewrite foldr_removePlayer_involvedStaff; reflexivity).
  assert (T2 : ticket g2 = set_open false (ticket g))
    by (subst g2; rewrite foldr_removePlayer_ticket; reflexivity).
  assert (A2 : activationTime g2 = activationTime g)
    by (subst g2; rewrite foldr_removePlayer_activationTime; reflexivity).
  match goal with
  | |- context [writeStats now res ?G] =>
      destruct (writeStats_involvedStaff now res G) as [W1 W2];
      rewrite W1, W2; clear W1 W2; set (g3 := G)
  end.
  assert (A3 : activationTime g3 = activationTime g).
  { subst g3. destruct (involvedStaff g2);
      [destruct staff as [s |]; [destruct (closerIsStaff _ _) |] |]; simpl; auto. }
  rewrite A3. split; [| split; [| reflexivity]].
  - intros Hempty. rewrite Hempty in H2. subst g3. rewrite H2. split.
    + intros s -> Hs Hid. unfold closerIsStaff. rewrite T2. simpl.
      apply String.eqb_neq in Hid. rewrite Hs, Hid. reflexivity.
    + intros Hcl. rewrite T2.
      change (closerIsStaff staff (set_open false (ticket g)))
        with (closerIsStaff staff (ticket g)).
      destruct staff as [s |]; [rewrite Hcl |]; reflexivity.
  - intros Hne. subst g3. rewrite H2.
    destruct (involvedStaff g) eqn:E; [congruence |]. exact H2.
Qed.

(** ** The outcome of a close by the requester *)

Lemma removePlayer_frame k g :
  ticket (removePlayer k g) = ticket g
  /\ firstClaimTime (removePlayer k g) = firstClaimTime g.
Proof. split; reflexivity. Qed.

Lemma forfeit_outcome now user g g' l :
  forfeit toID now user g = (g', [l]) ->
  line_result l
  = Some (resultFor (type (ticket g)) (negb (firstClaimTime g =? 0))).
Proof.
  unfold forfeit.
  destruct (negb (isPlayer _ g)); [discriminate |].
  destruct (negb (open (ticket (removePlayer _ g)))); [discriminate |].
  destruct (0 <? _); [discriminate |].
  pose proof (close_result now
                (CloseBool (negb (firstClaimTime (removePlayer (User.id user) g) =? 0)))
                (Some user) (removePlayer (User.id user) g)) as Hr.
  destruct (close toID now _ (Some user) _) as [g2 l2].
  intros [= <- <-]. exact Hr.
Qed.

Lemma forfeit_last_player_closes now user g :
  isPlayer (User.id user) g = true ->
  open (ticket g) = true ->
  playerTable (removePlayer (User.id user) g) = [] ->
  exists g' l, forfeit toID now user g = (g', [l]).
Proof.
  intros Hp Ho Hlast. unfold forfeit. rewrite Hp.
  change (open (ticket (removePlayer (User.id user) g))) with (open (ticket g)).
  rewrite Ho. unfold playerCount. rewrite Hlast.
  change (0 <? Z.of_nat (length (@nil ID)) - 1) with false. cbv iota.
  change (negb false) with true. cbv iota.
  destruct (close toID now _ (Some user) _) as [g2 l2]. eauto.
Qed.

Lemma closeCommand_requester now input res user w t g :
  tickets w !! toID input = Some t ->
  open t = true ->
  userid t = User.id user ->
  User.isStaff user = false ->
  rooms w !! userid t = Some g ->
  exists l,
    statsLog (fst (closeCommand toID now input res user w)) = statsLog w ++ [l]
    /\ line_result l
       = Some (resultFor (type (ticket g)) (negb (firstClaimTime g =? 0))).
Proof.
  intros Ht Ho Hu Hs Hr. unfold closeCommand. rewrite Ht, Ho, Hr, Hu, Hs.
  rewrite String.eqb_refl. cbn -[close].
  pose proof (close_result now (CloseBool (negb (firstClaimTime g =? 0)))
                (Some user) g) as Hres.
  destruct (close toID now _ (Some user) g) as [g1 l]. simpl in *.
  exists l. split; [reflexivity | exact Hres].
Qed.

Lemma resultFor_sign ty :
  positiveResult (resultFor ty true) = true
  /\ positiveResult (resultFor ty false) = false
  /\ resultFor ty false <> ticketban /\ resultFor ty false <> deleted.
Proof.
  unfold resultFor. repeat case_bool_decide; simpl; repeat split; discriminate.
Qed.

Lemma step_firstClaimTime g e :
  plainEvent e = true -> unclaimedSoFar g ->
  unclaimedSoFar (step toID g e)
  /\ (firstClaimTime g <> 0 -> firstClaimTime (step toID g e) <> 0)
  /\ (firstClaimTime g = 0 -> firstClaimTime (step toID g e) <> 0 ->
      truthy (claimed (ticket (step toID g e))) = true).
Proof.
  intros Hplain Hinv. unfold plainEvent in Hplain. unfold unclaimedSoFar in *.
  apply andb_true_iff in Hplain as [Hnow He].
  apply negb_true_iff, Z.eqb_neq in Hnow.
  assert (Hframe : forall G,
            firstClaimTime G = firstClaimTime g ->
            claimed (ticket G) = claimed (ticket g) ->
            claimQueue G = claimQueue g ->
            (firstClaimTime G = 0 ->
             truthy (claimed (ticket G)) = false /\ claimQueue G = [])
            /\ (firstClaimTime g <> 0 -> firstClaimTime G <> 0)
            /\ (firstClaimTime g = 0 -> firstClaimTime G <> 0 ->
                truthy (claimed (ticket G)) = true)).
  { intros G -> -> ->. tauto. }
  destruct e as [now [u us | u old | m u]]; simpl in *.
  - apply negb_true_iff in He.
    unfold onJoin. destruct (negb (open (ticket g))); [now apply Hframe |].
    destruct (negb (User.isStaff u) || _).
    + apply Hframe; unfold addPlayer;
        repeat match goal with
        | |- context [if ?b then _ else _] => destruct b; simpl
        end; reflexivity.
    + destruct (truthy (claimed (ticket g))) eqn:Ht; simpl.
      * repeat split; simpl; intros; try congruence; try tauto;
          try solve [match goal with H : firstClaimTime _ = 0 |- _ =>
                       destruct (Hinv H); congruence end].
      * destruct (firstClaimTime g =? 0) eqn:Hf; simpl.
        -- destruct (nonStaffPresent _ us); simpl;
             destruct (active (ticket g)); simpl; rewrite ?He; simpl;
             repeat split; intros; congruence.
        -- apply Z.eqb_neq in Hf.
           destruct (active (ticket g)); simpl; repeat split; intros; congruence.
  - unfold onLeave. destruct (isPlayer _ g); [now apply Hframe |].
    destruct (negb (open (ticket g))); [now apply Hframe |].
    destruct (String.eqb _ (User.id u)).
    + destruct (claimQueue g) as [| next rest] eqn:Hq; simpl.
      * repeat split; intros; try congruence; try tauto.
      * repeat split; simpl; intros; try congruence; try tauto;
          try solve [match goal with H : firstClaimTime _ = 0 |- _ =>
                       destruct (Hinv H); congruence end].
    + repeat split; simpl; intros; try congruence; try tauto.
      match goal with H : firstClaimTime _ = 0 |- _ =>
        simpl in H; destruct (Hinv H) as [_ ->]; reflexivity end.
  - unfold onLogMessage. destruct (negb (open (ticket g))); [now apply Hframe |].
    apply Hframe;
      repeat match goal with
      | |- context [if ?b then _ else _] => destruct b; simpl
      end; reflexivity.
Qed.

Lemma run_firstClaimTime evs : forall g,
  forallb plainEvent evs = true -> unclaimedSoFar g ->
  (firstClaimTime (run toID g evs) <> 0
   <-> firstClaimTime g <> 0 \/ everClaimed toID g evs = true).
Proof.
  induction evs as [| e evs IH]; intros g Hplain Hinv.
  - simpl. rewrite orb_false_r. split; [tauto |].
    intros [H | H]; [assumption |]. intros H0. destruct (Hinv H0). congruence.
  - simpl in Hplain. apply andb_true_iff in Hplain as [He Hplain].
    destruct (step_firstClaimTime g e He Hinv) as (Hinv' & Hmono & Hset).
    change (run toID g (e :: evs)) with (run toID (step toID g e) evs).
    rewrite (IH _ Hplain Hinv'). simpl. rewrite orb_true_iff.
    split.
    + intros [H | H]; [| tauto].
      destruct (Z.eq_dec (firstClaimTime g) 0) as [H0 | H0]; [| tauto].
      right. right. pose proof (Hset H0 H) as Ht.
      destruct evs; simpl; rewrite Ht; reflexivity.
    + intros [H | [H | H]]; [auto | | auto].
      left. apply Hmono. intros H0. destruct (Hinv H0). congruence.
Qed.
(** C10.  When the requester closes the ticket, the boolean outcome handed to
    [close] is [firstClaimTime <> 0], whatever was typed: a forfeit that
    closes the ticket writes the result of the ticket's type for that
    boolean, a forfeit by the last player of an open ticket does close it,
    and so does the close command run by a non-staff requester on their own
    ticket whose room exists.  The result for [true] counts as positive, the
    one for [false] does not.  On a ticket opened unclaimed,
    [firstClaimTime] is not zero exactly when somebody held the ticket at
    some point of the run. *)
Theorem requester_close_outcome :
  (forall now user g g' l,
      forfeit toID now user g = (g', [l]) ->
      line_result l
      = Some (resultFor (type (ticket g)) (negb (firstClaimTime g =? 0))))
  /\ (forall now user g,
      isPlayer (User.id user) g = true ->
      open (ticket g) = true ->
      playerTable (removePlayer (User.id user) g) = [] ->
      exists g' l, forfeit toID now user g = (g', [l]))
  /\ (forall now input res user w t g,
      tickets w !! toID input = Some t ->
      open t = true ->
      userid t = User.id user ->
      User.isStaff user = false ->
      rooms w !! userid t = Some g ->
      exists l,
        statsLog (fst (closeCommand toID now input res user w)) = statsLog w ++ [l]
        /\ line_result l
           = Some (resultFor (type (ticket g)) (negb (firstClaimTime g =? 0))))
  /\ (forall ty,
      positiveResult (resultFor ty true) = true
      /\ positiveResult (resultFor ty false) = false)
  /\ (forall now0 t evs,
      claimed t = None ->
      forallb plainEvent evs = true ->
      (firstClaimTime (run toID (newHelpTicket now0 t) evs) <> 0
       <-> everClaimed toID (newHelpTicket now0 t) evs = true)).
Proof.
  split; [apply forfeit_outcome |].
  split; [apply forfeit_last_player_closes |].
  split; [apply closeCommand_requester |].
  split.
  { intros ty. destruct (resultFor_sign ty) as (H1 & H2 & _). auto. }
  intros now0 t evs Hc Hplain.
  assert (Hinit : unclaimedSoFar (newHelpTicket now0 t)).
  { intros _. simpl. rewrite Hc. auto. }
  rewrite (run_firstClaimTime evs _ Hplain Hinit). simpl.
  split; [intros [H | H]; [congruence | assumption] | auto].
Qed.

(** ** The unclaimed time *)

Lemma clockInv_ext acc since g g' :
  open (ticket g') = open (ticket g) ->
  active (ticket g') = active (ticket g) ->
  claimed (ticket g') = claimed (ticket g) ->
  claimQueue g' = claimQueue g ->
  lastUnclaimedStart g' = lastUnclaimedStart g ->
  unclaimedTime g' = unclaimedTime g ->
  clockInv acc since g -> clockInv acc since g'.
Proof.
  intros E1 E2 E3 E4 E5 E6 [H1 H2 H3 H4 H5 H6].
  split; rewrite ?E1, ?E2, ?E3, ?E4, ?E5, ?E6; auto.
Qed.

Lemma clockInv_acc_eq acc acc' since g :
  acc = acc' -> clockInv acc since g -> clockInv acc' since g.
Proof. now intros ->. Qed.

(** Moving the end of the interval that is being measured. *)
Lemma clockInv_advance acc since now g :
  clockInv acc since g ->
  clockInv (acc + (if unclaimedNow g then now - since else 0)) now g.
Proof.
  intros [H1 H2 H3 H4 H5 H6]. unfold unclaimedNow. rewrite H2. simpl.
  split; auto.
  - intros Ht. rewrite Ht. simpl. destruct (H5 Ht). split; [assumption | lia].
  - intros Ht. rewrite Ht. simpl. destruct (H6 Ht). split; [assumption | lia].
Qed.

Lemma truthy_false_None c : c <> Some "" -> truthy c = false -> c = None.
Proof.
  destruct c as [s |]; [| reflexivity]. simpl. intros Hne Hf.
  apply negb_false_iff, String.eqb_eq in Hf. subst. congruence.
Qed.

Lemma onJoin_clockInv acc now us u g :
  clockInv acc now g -> User.name u <> "" ->
  clockInv acc now (onJoin now us u g).
Proof.
  intros Hinv Hname. pose proof Hinv as [H1 H2 H3 H4 H5 H6].
  unfold onJoin. rewrite H1. simpl.
  destruct (negb (User.isStaff u) || _).
  - eapply clockInv_ext; [.. | exact Hinv]; unfold addPlayer;
      repeat match goal with
      | |- context [if ?b then _ else _] => destruct b; simpl
      end; reflexivity.
  - destruct (truthy (claimed (ticket g))) eqn:Ht; simpl.
    + split; simpl; auto.
      * intros q Hq. apply elem_of_app in Hq as [Hq | Hq]; [auto |].
        apply list_elem_of_singleton in Hq. now subst.
      * rewrite Ht. discriminate.
    + destruct (H6 eq_refl) as [L1 L2].
      match goal with |- clockInv _ _ ?G =>
        assert (V : open (ticket G) = true /\ active (ticket G) = true
                    /\ claimed (ticket G) = Some (User.name u)
                    /\ claimQueue G = claimQueue g
                    /\ lastUnclaimedStart G = 0
                    /\ unclaimedTime G = unclaimedTime g + (now - lastUnclaimedStart g))
      end.
      { destruct (firstClaimTime g =? 0); simpl;
          [destruct (nonStaffPresent _ us); simpl |];
          rewrite H2; simpl; repeat split; auto. }
      destruct V as (V0 & V0' & V1 & V2 & V3 & V4).
      split; rewrite ?V0, ?V0', ?V1, ?V2, ?V3, ?V4; simpl; auto.
      * congruence.
      * apply String.eqb_neq in Hname. rewrite Hname. discriminate.
Qed.

Lemma onLeave_clockInv acc now u old g :
  clockInv acc now g -> now <> 0 -> User.id u <> "" ->
  clockInv acc now (onLeave toID now u old g).
Proof.
  intros Hinv Hnow Hid. pose proof Hinv as [H1 H2 H3 H4 H5 H6].
  unfold onLeave.
  destruct (isPlayer _ g).
  - eapply clockInv_ext; [.. | exact Hinv]; reflexivity.
  - rewrite H1. simpl.
    destruct (String.eqb (toID_opt toID (claimed (ticket g))) (User.id u)) eqn:Hm.
    + apply String.eqb_eq in Hm.
      destruct (truthy (claimed (ticket g))) eqn:Ht.
      2:{ rewrite (truthy_false_None _ H4 Ht) in Hm. simpl in Hm. congruence. }
      destruct (H5 eq_refl) as [L1 L2].
      destruct (claimQueue g) as [| next rest] eqn:Hq.
      * split; simpl; auto.
        -- rewrite Hq. auto.
        -- intros [=].
        -- intros _. split; [assumption | lia].
      * assert (Hn : next <> "") by (apply H3; left).
        unfold orNull. apply String.eqb_neq in Hn as Hn'. rewrite Hn'.
        split; simpl; auto.
        -- intros q Hq'. apply H3. now right.
        -- congruence.
        -- rewrite Hn'. discriminate.
    + split; simpl; auto.
      intros q Hq. apply H3.
      clear -Hq. induction (claimQueue g) as [| y l IH]; simpl in Hq; [auto |].
      destruct (String.eqb (toID y) (User.id u)).
      * now right.
      * apply elem_of_cons in Hq as [-> | Hq]; [left | right; auto].
Qed.

Lemma onLogMessage_clockInv acc now m u g :
  clockInv acc now g -> clockInv acc now (onLogMessage toID now m u g).
Proof.
  intros Hinv. pose proof Hinv as [H1 H2 H3 H4 H5 H6].
  unfold onLogMessage. rewrite H1. simpl.
  eapply clockInv_ext; [.. | exact Hinv];
    destruct (User.isStaff u && _); simpl; rewrite H2; simpl; rewrite ?H2; reflexivity.
Qed.

Lemma step_clockInv acc since e g :
  clockInv acc since g -> plainEvent e = true ->
  clockInv (acc + (if unclaimedNow g then fst e - since else 0)) (fst e)
    (step toID g e).
Proof.
  intros Hinv Hplain. destruct e as [now e]. simpl.
  apply (clockInv_advance _ _ now) in Hinv.
  unfold plainEvent in Hplain. simpl in Hplain.
  apply andb_true_iff in Hplain as [Hnow He].
  apply negb_true_iff, Z.eqb_neq in Hnow.
  destruct e as [u us | u old | m u]; simpl.
  - apply onJoin_clockInv; [assumption |].
    now apply negb_true_iff, String.eqb_neq in He.
  - apply onLeave_clockInv; [assumption | assumption |].
    now apply negb_true_iff, String.eqb_neq in He.
  - now apply onLogMessage_clockInv.
Qed.

Lemma run_clockInv evs : forall acc since g closeAt,
  clockInv acc since g -> forallb plainEvent evs = true ->
  exists since',
    clockInv (acc + specUnclaimedIntervals toID g since evs closeAt
                  - (if unclaimedNow (run toID g evs) then closeAt - since' else 0))
             since' (run toID g evs).
Proof.
  induction evs as [| e evs IH]; intros acc since g closeAt Hinv Hplain.
  - exists since. simpl.
    replace (acc + _ - _) with acc by lia. assumption.
  - simpl in Hplain. apply andb_true_iff in Hplain as [He Hplain].
    pose proof (step_clockInv _ _ _ _ Hinv He) as Hstep.
    destruct (IH _ _ _ closeAt Hstep Hplain) as [since' IH'].
    exists since'. destruct e as [now e].
    eapply clockInv_acc_eq; [| exact IH'].
    change (run toID g ((now, e) :: evs)) with (run toID (step toID g (now, e)) evs).
    cbn [specUnclaimedIntervals fst]. lia.
Qed.


Lemma writeStats_unclaimedTime now res g :
  line_unclaimedTime (snd (writeStats now res g))
  = unclaimedTime g
    + (if lastUnclaimedStart g =? 0 then 0 else now - lastUnclaimedStart g).
Proof.
  unfold writeStats. simpl.
  destruct (lastUnclaimedStart g =? 0); simpl; lia.
Qed.

Lemma foldr_removePlayer_clock l g :
  unclaimedTime (foldr removePlayer g l) = unclaimedTime g
  /\ lastUnclaimedStart (foldr removePlayer g l) = lastUnclaimedStart g.
Proof. induction l as [| k l IH]; simpl; auto. Qed.

Lemma close_unclaimedTime now res staff g :
  line_unclaimedTime (snd (close toID now res staff g))
  = unclaimedTime g
    + (if lastUnclaimedStart g =? 0 then 0 else now - lastUnclaimedStart g).
Proof.
  unfold close. rewrite writeStats_unclaimedTime.
  set (g2 := foldr removePlayer _ _).
  assert (H2 : unclaimedTime g2 = unclaimedTime g
               /\ lastUnclaimedStart g2 = lastUnclaimedStart g).
  { subst g2. destruct (foldr_removePlayer_clock
      (playerTable (set_ticket (set_open false (ticket g)) g))
      (set_ticket (set_open false (ticket g)) g)) as [-> ->]. auto. }
  destruct H2 as [U L].
  destruct (involvedStaff g2);
    [destruct staff as [s |]; [destruct (closerIsStaff _ _) |] |];
    simpl; rewrite U, L; reflexivity.
Qed.

(** X1.  For a ticket that is active from its creation the statistic is the sum
    of the unclaimed intervals. *)
Theorem unclaimedTime_active_from_creation now0 t evs closeAt res staff :
  open t = true -> active t = true -> claimed t = None -> now0 <> 0 ->
  forallb plainEvent evs = true ->
  line_unclaimedTime
    (snd (close toID closeAt res staff (run toID (newHelpTicket now0 t) evs)))
  = specUnclaimedIntervals toID (newHelpTicket now0 t) now0 evs closeAt.
Proof.
  intros Ho Ha Hc Hnow Hplain.
  assert (Hinit : clockInv 0 now0 (newHelpTicket now0 t)).
  { split; simpl; rewrite ?Ha, ?Hc; auto.
    - intros q Hq. inversion Hq.
    - intros [=].
    - intros _. split; [assumption | lia]. }
  destruct (run_clockInv evs _ _ _ closeAt Hinit Hplain) as [since' Hinv].
  set (g := run toID (newHelpTicket now0 t) evs) in *.
  rewrite close_unclaimedTime.
  destruct Hinv as [H1 H2 H3 H4 H5 H6].
  unfold unclaimedNow in *. rewrite H2 in *. simpl in *.
  destruct (truthy (claimed (ticket g))) eqn:Ht; simpl in *.
  - destruct (H5 eq_refl) as [L U]. rewrite L. simpl. lia.
  - destruct (H6 eq_refl) as [L U]. apply Z.eqb_neq in L as L'. rewrite L'. lia.
Qed.

Lemma step_held_zero g e :
  unclaimedTime g = 0 -> lastUnclaimedStart g = 0 ->
  truthy (claimed (ticket g)) = true ->
  truthy (claimed (ticket (step toID g e))) = true ->
  unclaimedTime (step toID g e) = 0 /\ lastUnclaimedStart (step toID g e) = 0.
Proof.
  intros U L Ht Ht'. destruct e as [now [u us | u old | m u]]; simpl in *.
  - unfold onJoin in *. destruct (negb (open (ticket g))); [auto |].
    destruct (negb (User.isStaff u) || _).
    + unfold addPlayer.
      repeat match goal with
      | |- context [if ?b then _ else _] => destruct b; simpl
      end; auto.
    + rewrite Ht. simpl. auto.
  - unfold onLeave in *. destruct (isPlayer _ g); [auto |].
    destruct (negb (open (ticket g))); [auto |].
    destruct (String.eqb _ (User.id u)); [| auto].
    destruct (claimQueue g); simpl in *; [discriminate | auto].
  - unfold onLogMessage in *. destruct (negb (open (ticket g))); [auto |].
    destruct (User.isStaff u && _); simpl in *;
      destruct (active (ticket g)); simpl in *; auto;
      destruct (_ && bool_decide _); simpl in *; auto;
      destruct (_ && true); simpl in *; auto; rewrite Ht; simpl; auto.
Qed.

Lemma run_held_zero evs : forall g,
  unclaimedTime g = 0 -> lastUnclaimedStart g = 0 ->
  heldThroughout toID g evs = true ->
  unclaimedTime (run toID g evs) = 0 /\ lastUnclaimedStart (run toID g evs) = 0.
Proof.
  induction evs as [| e evs IH]; intros g U L Hheld; [auto |].
  simpl in Hheld. apply andb_true_iff in Hheld as [Ht Hrest].
  assert (Ht' : truthy (claimed (ticket (step toID g e))) = true).
  { destruct evs; simpl in Hrest; [now rewrite andb_true_r in Hrest |].
    now apply andb_true_iff in Hrest as [? _]. }
  destruct (step_held_zero g e U L Ht Ht') as [U' L'].
  apply (IH (step toID g e)); assumption.
Qed.

(** X2.  A ticket claimed at the very time of its creation and held until it is
    closed has no unclaimed time. *)
Theorem unclaimedTime_zero_when_held now0 t us u evs closeAt res staff :
  open t = true -> claimed t = None ->
  User.isStaff u = true -> User.id u <> userid t ->
  heldThroughout toID (onJoin now0 us u (newHelpTicket now0 t)) evs = true ->
  line_unclaimedTime
    (snd (close toID closeAt res staff
            (run toID (onJoin now0 us u (newHelpTicket now0 t)) evs))) = 0.
Proof.
  intros Ho Hc Hs Hid Hheld.
  assert (Hstart : unclaimedTime (onJoin now0 us u (newHelpTicket now0 t)) = 0
                   /\ lastUnclaimedStart (onJoin now0 us u (newHelpTicket now0 t)) = 0).
  { unfold onJoin. simpl. rewrite Ho, Hc, Hs. simpl.
    apply String.eqb_neq in Hid. rewrite Hid. simpl.
    destruct (active t) eqn:Ha; destruct (nonStaffPresent _ us); simpl;
      rewrite ?Ha; simpl; rewrite ?Ha; split; lia. }
  destruct Hstart as [U L].
  destruct (run_held_zero evs _ U L Hheld) as [U' L'].
  rewrite close_unclaimedTime, U', L'. reflexivity.
Qed.

End PluginProperties.

(** ** The unclaimed-ticket timer *)

Lemma poke_assist_rearms now hasUnclaimed s fireAt :
  unclaimedTicketTimer s = Some fireAt ->
  NOTIFY_ASSIST_TIMEOUT < timerEnds s - NOTIFY_ASSIST_TIMEOUT ->
  pokeUnclaimedTicketTimer now true hasUnclaimed true s
  = mkTimerState (Some (now + NOTIFY_ASSIST_TIMEOUT)) (now + NOTIFY_ASSIST_TIMEOUT).
Proof.
  intros Hp Hends. unfold pokeUnclaimedTicketTimer. rewrite Hp.
  apply Z.ltb_lt in Hends. rewrite Hends.
  rewrite bool_decide_eq_true_2 by eauto.
  destruct hasUnclaimed; reflexivity.
Qed.

Lemma poke_without_assist now staffRoom hasUnclaimed s fireAt :
  unclaimedTicketTimer s = Some fireAt ->
  pokeUnclaimedTicketTimer now staffRoom hasUnclaimed false s = s
  \/ pokeUnclaimedTicketTimer now staffRoom hasUnclaimed false s = mkTimerState None 0.
Proof.
  intros Hp. unfold pokeUnclaimedTicketTimer. rewrite Hp.
  rewrite bool_decide_eq_true_2 by eauto.
  destruct staffRoom, hasUnclaimed; simpl; auto.
Qed.

(** ** Loading the persisted table *)

Lemma loadTickets_snoc now oldPlugins oldTickets rooms0 done kv :
  loadTickets now oldPlugins oldTickets rooms0 (done ++ [kv])
  = loadEntry now oldPlugins (loadTickets now oldPlugins oldTickets rooms0 done) kv.
Proof. unfold loadTickets. rewrite foldl_app. reflexivity. Qed.







(** * Further properties *)

Section MoreProperties.

Variable toID : string -> ID.

(** ** The claim queue and the room *)

Lemma run_queueInv_present evs : forall present g,
  queueInv toID present g -> wellFormed toID present evs = true ->
  queueInv toID (presentAfter present evs) (run toID g evs).
Proof.
  induction evs as [| [now e] evs IH]; intros present g Hinv Hwf.
  - exact Hinv.
  - destruct e as [u us | u old | m u]; simpl in Hwf.
    + repeat (apply andb_true_iff in Hwf as [Hwf ?]).
      apply negb_true_iff, bool_decide_eq_false in Hwf.
      apply (IH (User.id u :: present)); [| assumption].
      apply onJoin_queueInv; auto.
      * now apply String.eqb_eq.
      * apply String.eqb_neq. now apply negb_true_iff.
    + repeat (apply andb_true_iff in Hwf as [Hwf ?]).
      apply bool_decide_eq_true in Hwf.
      match goal with H : String.eqb old "" = true |- _ =>
        apply String.eqb_eq in H; subst old end.
      apply (IH (filter (λ p, p ≠ User.id u) present)); [| assumption].
      apply onLeave_queueInv; auto.
    + apply (IH present); [| assumption].
      apply onLogMessage_queueInv. assumption.
Qed.

(** X4.  Under the discipline of the room, after every run on a ticket opened
    unclaimed: no id waits twice in the claim queue; an unclaimed ticket has
    nobody waiting; everybody who waits, and the claimant, is in the room and
    is not a player of the ticket. *)
Theorem claim_queue_discipline now t present evs :
  open t = true -> claimed t = None ->
  wellFormed toID present evs = true ->
  NoDup (toID <$> claimQueue (run toID (newHelpTicket now t) evs))
  /\ (truthy (claimed (ticket (run toID (newHelpTicket now t) evs))) = false ->
      claimQueue (run toID (newHelpTicket now t) evs) = [])
  /\ (forall q, q ∈ claimQueue (run toID (newHelpTicket now t) evs) ->
      toID q ∈ presentAfter present evs
      /\ (toID q ∉ playerTable (run toID (newHelpTicket now t) evs)))
  /\ (forall c, claimed (ticket (run toID (newHelpTicket now t) evs)) = Some c ->
      c <> ""
      /\ toID c ∈ presentAfter present evs
      /\ (toID c ∉ playerTable (run toID (newHelpTicket now t) evs))).
Proof.
  intros Ho Hc Hwf.
  pose proof (run_queueInv_present evs present _
                (newHelpTicket_queueInv toID now t present Ho Hc) Hwf) as Hinv.
  destruct Hinv as [H1 H2 H3 H4 H5 H6].
  split; [assumption |]. split; [intros Hf; now destruct (H5 Hf) |].
  split.
  - intros q Hq. destruct (H3 q Hq) as (? & ? & ?). auto.
  - intros c Hcl. destruct (H6 c Hcl) as (? & ? & ?). split; [| auto].
    intros ->. rewrite Hcl in H5. destruct (H5 eq_refl). discriminate.
Qed.

(** ** Leaving the ticket while waiting *)

Lemma spliceFirst_first k a x b :
  (k ∉ (toID <$> a)) -> toID x = k -> spliceFirst toID k (a ++ x :: b) = a ++ b.
Proof.
  intros Ha Hx. induction a as [| y a IH]; simpl.
  - apply String.eqb_eq in Hx. now rewrite Hx.
  - simpl in Ha. apply not_elem_of_cons in Ha as [Hy Ha].
    assert (E : String.eqb (toID y) k = false) by (apply String.eqb_neq; congruence).
    rewrite E, (IH Ha). reflexivity.
Qed.

Lemma spliceFirst_absent k q : (k ∉ (toID <$> q)) -> spliceFirst toID k q = q.
Proof.
  induction q as [| y q IH]; simpl; [reflexivity |].
  intros Hq. apply not_elem_of_cons in Hq as [Hy Hq].
  assert (E : String.eqb (toID y) k = false) by (apply String.eqb_neq; congruence).
  rewrite E, (IH Hq). reflexivity.
Qed.

(** X5.  When a user who is neither a player nor the claimant leaves an open
    ticket, the first queue entry with the user's id leaves the queue and the
    others keep their order; nothing else of the game changes.  A user who
    does not wait leaves the game as it is. *)
Theorem onLeave_waiting_staff (now : Z) (user : User.t) (oldUserid : ID)
    (g : HelpTicket) :
  open (ticket g) = true ->
  isPlayer (if String.eqb oldUserid "" then User.id user else oldUserid) g = false ->
  toID_opt toID (claimed (ticket g)) <> User.id user ->
  (forall a x b,
      claimQueue g = a ++ x :: b -> toID x = User.id user ->
      (User.id user ∉ (toID <$> a)) ->
      onLeave toID now user oldUserid g = set_claimQueue (a ++ b) g)
  /\ ((User.id user ∉ (toID <$> claimQueue g)) ->
      onLeave toID now user oldUserid g = g).
Proof.
  intros Ho Hp Hc. apply String.eqb_neq in Hc.
  split.
  - intros a x b Hq Hx Ha. unfold onLeave. cbv zeta. rewrite Hp, Ho. simpl.
    rewrite Hc, Hq, (spliceFirst_first _ _ _ _ Ha Hx). reflexivity.
  - intros Hq. unfold onLeave. cbv zeta. rewrite Hp, Ho. simpl.
    rewrite Hc, (spliceFirst_absent _ _ Hq). destruct g; reflexivity.
Qed.

(** ** What the room events leave alone *)

Lemma addPlayer_ticket u g : ticket (addPlayer u g) = ticket g.
Proof. unfold addPlayer. destruct (isPlayer _ g); reflexivity. Qed.

Lemma sameTicket_refl t : sameTicket t t.
Proof. repeat split. Qed.

Lemma step_sameTicket g e : sameTicket (ticket g) (ticket (step toID g e)).
Proof.
  destruct e as [now [u us | u old | m u]]; simpl.
  - unfold onJoin.
    destruct (negb (open (ticket g))); [apply sameTicket_refl |].
    destruct (negb (User.isStaff u) || _).
    + rewrite !addPlayer_ticket.
      destruct (emptyRoom g); simpl;
        destruct (offline _); simpl; rewrite ?addPlayer_ticket; repeat split.
    + destruct (negb (truthy _)); [| repeat split].
      destruct (firstClaimTime _ =? 0); simpl;
        [destruct (nonStaffPresent _ us); simpl |];
        destruct (active (ticket g)); repeat split.
  - unfold onLeave.
    destruct (isPlayer _ g); [repeat split |].
    destruct (negb (open (ticket g))); [apply sameTicket_refl |].
    destruct (String.eqb _ (User.id u)); [| repeat split].
    destruct (claimQueue g); repeat split.
  - unfold onLogMessage.
    repeat match goal with
    | |- context [if ?b then _ else _] => destruct b; simpl
    end; repeat split.
Qed.

(** X8.  No run of joins, leaves and messages opens or closes a ticket or changes
    whose ticket it is: [open], [userid], [creator], [type], [created] and
    [ip] are as before. *)
Theorem events_keep_ticket_identity g evs :
  open (ticket (run toID g evs)) = open (ticket g)
  /\ userid (ticket (run toID g evs)) = userid (ticket g)
  /\ creator (ticket (run toID g evs)) = creator (ticket g)
  /\ type (ticket (run toID g evs)) = type (ticket g)
  /\ created (ticket (run toID g evs)) = created (ticket g)
  /\ ip (ticket (run toID g evs)) = ip (ticket g).
Proof.
  revert g. induction evs as [| e evs IH]; intros g; [repeat split |].
  change (run toID g (e :: evs)) with (run toID (step toID g e) evs).
  destruct (step_sameTicket g e) as (A1 & A2 & A3 & A4 & A5 & A6).
  destruct (IH (step toID g e)) as (B1 & B2 & B3 & B4 & B5 & B6).
  repeat split; congruence.
Qed.

(** ** Activation *)

Lemma step_active g e :
  (active (ticket g) = true ->
   active (ticket (step toID g e)) = true
   /\ activationTime (step toID g e) = activationTime g)
  /\ (active (ticket g) = false -> active (ticket (step toID g e)) = true ->
      exists m u, snd e = LogMessage m u
        /\ open (ticket g) = true
        /\ (User.isStaff u = false \/ User.id u = userid (ticket g))
        /\ (toID m ∉ blockedMessages)
        /\ activationTime (step toID g e) = fst e
        /\ needsDelayWarning (ticket (step toID g e)) = true).
Proof.
  destruct e as [now [u us | u old | m u]]; simpl.
  - unfold onJoin.
    destruct (negb (open (ticket g))); [split; [auto | congruence] |].
    destruct (negb (User.isStaff u) || _).
    + assert (E : forall G, active (ticket (if offline (ticket G)
                      then set_ticket (set_offline false (ticket G)) G else G))
                    = active (ticket G)
                  /\ activationTime (if offline (ticket G)
                      then set_ticket (set_offline false (ticket G)) G else G)
                    = activationTime G).
      { intros G. destruct (offline (ticket G)); auto. }
      destruct (E (addPlayer u (if emptyRoom g then set_emptyRoom false g else g)))
        as [-> ->].
      rewrite addPlayer_ticket.
      assert (A : activationTime (addPlayer u (if emptyRoom g then set_emptyRoom false g else g))
                  = activationTime g).
      { unfold addPlayer. destruct (isPlayer _ _); destruct (emptyRoom g); reflexivity. }
      rewrite A.
      destruct (emptyRoom g); simpl; split; auto; congruence.
    + destruct (negb (truthy _)); [| split; intros; simpl in *; [auto | congruence]].
      destruct (firstClaimTime _ =? 0); simpl;
        [destruct (nonStaffPresent _ us); simpl |];
        destruct (active (ticket g)) eqn:Ha; simpl; rewrite ?Ha; simpl;
        split; intros; simpl in *; try discriminate; auto.
  - unfold onLeave.
    destruct (isPlayer _ g); [split; intros; simpl in *; [auto | congruence] |].
    destruct (negb (open (ticket g))); [split; intros; [auto | congruence] |].
    destruct (String.eqb _ (User.id u)); [| split; intros; simpl in *; [auto | congruence]].
    destruct (claimQueue g); split; intros; simpl in *; auto; congruence.
  - unfold onLogMessage.
    destruct (open (ticket g)) eqn:Ho; simpl; [| split; [auto | congruence]].
    set (g1 := if User.isStaff u && _ then _ else g).
    assert (Hg1 : ticket g1 = ticket g /\ activationTime g1 = activationTime g).
    { subst g1. destruct (User.isStaff u && _); auto. }
    destruct Hg1 as [T1 A1]. rewrite T1.
    destruct (active (ticket g)) eqn:Ha.
    + rewrite T1, Ha, A1. split; [auto | discriminate].
    + split; [discriminate |]. intros _.
      destruct (negb (User.isStaff u) || String.eqb (userid (ticket g)) (User.id u)) eqn:Hr;
        simpl.
      2:{ intros H. rewrite T1, Ha in H. discriminate. }
      destruct (bool_decide (toID m ∈ blockedMessages)) eqn:Hb; simpl.
      { intros H. rewrite T1, Ha in H. discriminate. }
      intros _. exists m, u. split; [reflexivity |].
      split; [reflexivity |]. split.
      { apply orb_true_iff in Hr as [Hr | Hr].
        - left. now apply negb_true_iff.
        - right. symmetry. now apply String.eqb_eq. }
      split; [now apply bool_decide_eq_false in Hb |].
      destruct (negb (truthy _)); simpl; auto.
Qed.

Lemma run_active evs : forall g,
  active (ticket g) = true ->
  active (ticket (run toID g evs)) = true
  /\ activationTime (run toID g evs) = activationTime g.
Proof.
  induction evs as [| e evs IH]; intros g Ha; [auto |].
  change (run toID g (e :: evs)) with (run toID (step toID g e) evs).
  destruct (step_active g e) as [H _]. destruct (H Ha) as [Ha' Ht].
  destruct (IH _ Ha') as [? ?]. split; congruence.
Qed.

(** X7.  A ticket becomes active once and stays so: an active ticket is active
    after every run, with the activation time it had; and the only event
    that activates a ticket is a message on the open ticket, written by a
    user who is not staff or by the creator, that is not one of the blocked
    greetings.  That message sets the activation time and marks the ticket
    for the delay warning. *)
Theorem activation_once :
  (forall g evs,
      active (ticket g) = true ->
      active (ticket (run toID g evs)) = true
      /\ activationTime (run toID g evs) = activationTime g)
  /\ (forall g e,
      active (ticket g) = false -> active (ticket (step toID g e)) = true ->
      exists m u, snd e = LogMessage m u
        /\ open (ticket g) = true
        /\ (User.isStaff u = false \/ User.id u = userid (ticket g))
        /\ (toID m ∉ blockedMessages)
        /\ activationTime (step toID g e) = fst e
        /\ needsDelayWarning (ticket (step toID g e)) = true).
Proof.
  split.
  - intros g evs. apply run_active.
  - intros g e. apply step_active.
Qed.

(** ** The staff who wrote in the ticket *)

Lemma setAdd_spec k s x : x ∈ setAdd k s <-> x ∈ s \/ x = k.
Proof.
  unfold setAdd. case_bool_decide as H.
  - split; [auto |]. intros [? | ->]; assumption.
  - rewrite elem_of_app, list_elem_of_singleton. reflexivity.
Qed.

Lemma setAdd_NoDup k s : NoDup s -> NoDup (setAdd k s).
Proof.
  intros Hnd. unfold setAdd. case_bool_decide as H; [assumption |].
  apply NoDup_app. repeat split; [assumption | | apply NoDup_singleton].
  intros x Hx Hx'. apply list_elem_of_singleton in Hx'. subst. auto.
Qed.

Lemma onJoin_involvedStaff now us u g :
  involvedStaff (onJoin now us u g) = involvedStaff g.
Proof.
  unfold onJoin, addPlayer.
  repeat match goal with
  | |- context [if ?b then _ else _] => destruct b; simpl
  | |- context [match ?b with [] => _ | _ :: _ => _ end] => destruct b; simpl
  end; reflexivity.
Qed.

Lemma onLeave_involvedStaff now u old g :
  involvedStaff (onLeave toID now u old g) = involvedStaff g.
Proof.
  unfold onLeave.
  repeat match goal with
  | |- context [if ?b then _ else _] => destruct b; simpl
  | |- context [match ?b with [] => _ | _ :: _ => _ end] => destruct b; simpl
  end; reflexivity.
Qed.

Lemma onLogMessage_involvedStaff now m u g :
  involvedStaff (onLogMessage toID now m u g)
  = if open (ticket g) && User.isStaff u
       && negb (String.eqb (userid (ticket g)) (User.id u))
    then setAdd (User.id u) (involvedStaff g) else involvedStaff g.
Proof.
  unfold onLogMessage.
  destruct (open (ticket g)); simpl; [| reflexivity].
  destruct (User.isStaff u); simpl;
    [destruct (String.eqb (userid (ticket g)) (User.id u)); simpl |];
    repeat match goal with
    | |- context [if ?b then _ else _] => destruct b; simpl
    end; reflexivity.
Qed.

Lemma step_involvedStaff g e :
  forall x, x ∈ involvedStaff (step toID g e) <->
    x ∈ involvedStaff g
    \/ (open (ticket g) = true
        /\ exists m u, snd e = LogMessage m u /\ User.isStaff u = true
             /\ User.id u <> userid (ticket g) /\ x = User.id u).
Proof.
  intros x. destruct e as [now [u us | u old | m u]]; simpl.
  - rewrite onJoin_involvedStaff.
    split; [auto |]. intros [? | (_ & m & v & [=] & _)]. assumption.
  - rewrite onLeave_involvedStaff.
    split; [auto |]. intros [? | (_ & m & v & [=] & _)]. assumption.
  - rewrite onLogMessage_involvedStaff.
    destruct (open (ticket g)) eqn:Ho; simpl.
    2:{ split; [auto |]. intros [? | ([=] & _)]. assumption. }
    destruct (User.isStaff u) eqn:Hs; simpl.
    + destruct (String.eqb (userid (ticket g)) (User.id u)) eqn:Hid; simpl.
      * apply String.eqb_eq in Hid. split; [auto |].
        intros [? | (_ & m' & v & [= <- <-] & _ & Hne & _)]; [assumption | congruence].
      * apply String.eqb_neq in Hid. rewrite setAdd_spec. split.
        -- intros [? | ->]; [auto |]. right. split; [reflexivity |].
           exists m, u. repeat split; auto.
        -- intros [? | (_ & m' & v & [= <- <-] & _ & _ & ->)]; auto.
    + split; [auto |].
      intros [? | (_ & m' & v & [= <- <-] & Hs' & _)]; [assumption | congruence].
Qed.

Lemma step_involvedStaff_NoDup g e :
  NoDup (involvedStaff g) -> NoDup (involvedStaff (step toID g e)).
Proof.
  intros Hnd. destruct e as [now [u us | u old | m u]]; simpl.
  - now rewrite onJoin_involvedStaff.
  - now rewrite onLeave_involvedStaff.
  - rewrite onLogMessage_involvedStaff.
    destruct (_ && _); [now apply setAdd_NoDup | assumption].
Qed.

Lemma run_involvedStaff evs : forall g x,
  open (ticket g) = true ->
  (x ∈ involvedStaff (run toID g evs)
   <-> x ∈ involvedStaff g
       \/ exists when m u, (when, LogMessage m u) ∈ evs
            /\ User.isStaff u = true /\ User.id u = x /\ x <> userid (ticket g)).
Proof.
  induction evs as [| e evs IH]; intros g x Ho.
  - simpl. split; [auto |]. intros [H | (when & m & u & Hin & _)]; [assumption |].
    inversion Hin.
  - change (run toID g (e :: evs)) with (run toID (step toID g e) evs).
    destruct (step_sameTicket g e) as (Hopen & Hu & _).
    rewrite IH by congruence. rewrite step_involvedStaff, Hu. split.
    + intros [[H | (_ & m & u & He & Hs & Hne & ->)] | (when & m & u & Hin & H)].
      * now left.
      * right. destruct e as [when e]. simpl in He. subst e.
        exists when, m, u. repeat split; auto. left.
      * right. exists when, m, u. split; [now right | assumption].
    + intros [H | (when & m & u & Hin & Hs & Hid & Hne)]; [now left; left |].
      apply elem_of_cons in Hin as [<- | Hin].
      * left. right. split; [assumption |]. exists m, u. simpl.
        repeat split; auto; congruence.
      * right. exists when, m, u. auto.
Qed.

Lemma run_closed evs : forall g, open (ticket g) = false ->
  involvedStaff (run toID g evs) = involvedStaff g.
Proof.
  induction evs as [| e evs IH]; intros g Ho; [reflexivity |].
  change (run toID g (e :: evs)) with (run toID (step toID g e) evs).
  destruct (step_sameTicket g e) as (Hopen & _).
  rewrite IH by congruence.
  destruct e as [now [u us | u old | m u]]; simpl.
  - apply onJoin_involvedStaff.
  - apply onLeave_involvedStaff.
  - rewrite onLogMessage_involvedStaff, Ho. reflexivity.
Qed.

Lemma run_involvedStaff_NoDup evs : forall g,
  NoDup (involvedStaff g) -> NoDup (involvedStaff (run toID g evs)).
Proof.
  induction evs as [| e evs IH]; intros g Hnd; [assumption |].
  change (run toID g (e :: evs)) with (run toID (step toID g e) evs).
  apply IH. now apply step_involvedStaff_NoDup.
Qed.

(** X9.  The staff recorded for a ticket during a run on a fresh game: none is
    recorded twice and the creator is never among them; for an open ticket
    they are exactly the ids of the staff members, other than the creator,
    who wrote a message during the run; for a closed ticket nobody is
    recorded. *)
Theorem involvedStaff_during_run now t evs :
  NoDup (involvedStaff (run toID (newHelpTicket now t) evs))
  /\ (userid t ∉ involvedStaff (run toID (newHelpTicket now t) evs))
  /\ (open t = true ->
      forall x, x ∈ involvedStaff (run toID (newHelpTicket now t) evs)
        <-> exists when m u, (when, LogMessage m u) ∈ evs
              /\ User.isStaff u = true /\ User.id u = x /\ x <> userid t)
  /\ (open t = false -> involvedStaff (run toID (newHelpTicket now t) evs) = []).
Proof.
  split; [apply run_involvedStaff_NoDup; constructor |].
  assert (Hopen : open t = true ->
      forall x, x ∈ involvedStaff (run toID (newHelpTicket now t) evs)
        <-> exists when m u, (when, LogMessage m u) ∈ evs
              /\ User.isStaff u = true /\ User.id u = x /\ x <> userid t).
  { intros Ho x. rewrite run_involvedStaff by exact Ho. simpl. split.
    - intros [H | H]; [inversion H | exact H].
    - auto. }
  assert (Hclosed : open t = false ->
      involvedStaff (run toID (newHelpTicket now t) evs) = []).
  { intros Ho. now rewrite run_closed. }
  split; [| split; assumption].
  destruct (open t) eqn:Ho.
  - intros Hin. apply (Hopen eq_refl) in Hin as (? & ? & ? & _ & _ & _ & Hne).
    congruence.
  - rewrite (Hclosed eq_refl). apply not_elem_of_nil.
Qed.

End MoreProperties.

Section TimeProperties.

Variable toID : string -> ID.

(** ** The times of the statistics line *)

Lemma writeStats_times now res g :
  line_totalTime (snd (writeStats now res g)) = now - createTime g
  /\ line_firstClaimWait (snd (writeStats now res g))
     = if activationTime g =? 0 then 0
       else (if firstClaimTime g =? 0 then now else firstClaimTime g)
            - activationTime g.
Proof.
  unfold writeStats. simpl.
  destruct (lastUnclaimedStart g =? 0); simpl;
    destruct (activationTime g =? 0); simpl;
    destruct (firstClaimTime g =? 0); simpl; auto.
Qed.

Lemma foldr_removePlayer_createTime l g :
  createTime (foldr removePlayer g l) = createTime g.
Proof. induction l as [| k l IH]; simpl; auto. Qed.

Lemma close_times now res staff g :
  line_totalTime (snd (close toID now res staff g)) = now - createTime g
  /\ line_firstClaimWait (snd (close toID now res staff g))
     = if activationTime g =? 0 then 0
       else (if firstClaimTime g =? 0 then now else firstClaimTime g)
            - activationTime g.
Proof.
  unfold close.
  set (g2 := foldr removePlayer _ _).
  assert (H2 : createTime g2 = createTime g /\ activationTime g2 = activationTime g
               /\ firstClaimTime g2 = firstClaimTime g).
  { subst g2. rewrite foldr_removePlayer_createTime, foldr_removePlayer_activationTime,
      foldr_removePlayer_firstClaimTime. auto. }
  destruct H2 as (E1 & E2 & E3).
  match goal with
  | |- context [writeStats now res ?G] =>
      destruct (writeStats_times now res G) as [W1 W2]; rewrite W1, W2;
      assert (E : createTime G = createTime g /\ activationTime G = activationTime g
                  /\ firstClaimTime G = firstClaimTime g)
  end.
  { destruct (involvedStaff g2);
      [destruct staff as [s |]; [destruct (closerIsStaff _ _) |] |]; simpl; auto. }
  destruct E as (-> & -> & ->). auto.
Qed.

Lemma step_times g e :
  createTime (step toID g e) = createTime g
  /\ (firstClaimTime (step toID g e) = firstClaimTime g
      \/ (firstClaimTime g = 0 /\ firstClaimTime (step toID g e) = fst e)).
Proof.
  destruct e as [now [u us | u old | m u]]; simpl.
  - unfold onJoin, addPlayer. simpl.
    destruct (firstClaimTime g =? 0) eqn:Hf;
      [apply Z.eqb_eq in Hf |];
      repeat match goal with
      | |- context [if ?b then _ else _] => destruct b; simpl
      | |- context [match ?b with [] => _ | _ :: _ => _ end] => destruct b; simpl
      end; auto.
  - unfold onLeave.
    repeat match goal with
    | |- context [if ?b then _ else _] => destruct b; simpl
    | |- context [match ?b with [] => _ | _ :: _ => _ end] => destruct b; simpl
    end; auto.
  - unfold onLogMessage.
    repeat match goal with
    | |- context [if ?b then _ else _] => destruct b; simpl
    end; auto.
Qed.

Lemma specUnclaimedIntervals_bounds evs : forall g since closeAt,
  chronological since evs closeAt = true ->
  0 <= specUnclaimedIntervals toID g since evs closeAt <= closeAt - since.
Proof.
  induction evs as [| [now e] evs IH]; intros g since closeAt Hc;
    cbn [specUnclaimedIntervals chronological] in *.
  - apply Z.leb_le in Hc. destruct (unclaimedNow g); lia.
  - apply andb_true_iff in Hc as [H1 H2]. apply Z.leb_le in H1.
    specialize (IH (step toID g (now, e)) now closeAt H2).
    destruct (unclaimedNow g); lia.
Qed.

Lemma run_times evs : forall g since closeAt,
  chronological since evs closeAt = true ->
  active (ticket g) = true ->
  (firstClaimTime g = 0 \/ activationTime g <= firstClaimTime g <= since) ->
  activationTime g <= since ->
  createTime (run toID g evs) = createTime g
  /\ activationTime (run toID g evs) = activationTime g
  /\ (firstClaimTime (run toID g evs) = 0
      \/ activationTime g <= firstClaimTime (run toID g evs) <= closeAt)
  /\ activationTime g <= closeAt.
Proof.
  induction evs as [| [now e] evs IH]; intros g since closeAt Hc Ha Hf Hs.
  - simpl in *. apply Z.leb_le in Hc. repeat split; lia.
  - simpl in Hc. apply andb_true_iff in Hc as [H1 H2]. apply Z.leb_le in H1.
    change (run toID g ((now, e) :: evs)) with (run toID (step toID g (now, e)) evs).
    destruct (step_times g (now, e)) as [T1 T2].
    destruct (step_active toID g (now, e)) as [Hact _].
    destruct (Hact Ha) as [Ha' Hat].
    destruct (IH (step toID g (now, e)) now closeAt H2 Ha') as (I1 & I2 & I3 & I4).
    + rewrite Hat. cbn [fst] in T2. destruct T2 as [E | [_ E]]; rewrite E;
        [destruct Hf; [auto | right; lia] | right; lia].
    + rewrite Hat. lia.
    + rewrite Hat in *. rewrite I1, I2, T1. auto.
Qed.

(** X3.  For a ticket that is active from its creation, with the events in the
    order of their times and the close after them: the total time of the
    line is the time from creation to close, and neither the wait for the
    first claim nor the unclaimed time is negative or longer than the total
    time. *)
Theorem statistics_times_bounds now0 t evs closeAt res staff :
  open t = true -> active t = true -> claimed t = None -> now0 <> 0 ->
  forallb plainEvent evs = true ->
  chronological now0 evs closeAt = true ->
  line_totalTime
    (snd (close toID closeAt res staff (run toID (newHelpTicket now0 t) evs)))
  = closeAt - now0
  /\ 0 <= line_firstClaimWait
            (snd (close toID closeAt res staff (run toID (newHelpTicket now0 t) evs)))
       <= closeAt - now0
  /\ 0 <= line_unclaimedTime
            (snd (close toID closeAt res staff (run toID (newHelpTicket now0 t) evs)))
       <= closeAt - now0.
Proof.
  intros Ho Ha Hc Hnow Hplain Hchron.
  destruct (close_times closeAt res staff (run toID (newHelpTicket now0 t) evs))
    as [-> ->].
  pose proof (run_times evs (newHelpTicket now0 t) now0 closeAt Hchron) as Hrt.
  cbn [newHelpTicket ticket firstClaimTime activationTime createTime] in Hrt.
  rewrite Ha in Hrt.
  destruct Hrt as (T1 & T2 & T3 & T4); [reflexivity | left; reflexivity | lia |].
  rewrite T1, T2.
  split; [reflexivity |]. split.
  - apply Z.eqb_neq in Hnow. rewrite Hnow.
    destruct T3 as [-> | T3]; simpl; [lia |].
    destruct (firstClaimTime _ =? 0) eqn:E; lia.
  - assert (Hinit : clockInv 0 now0 (newHelpTicket now0 t)).
    { split; simpl; rewrite ?Ha, ?Hc; auto.
      - intros q Hq. inversion Hq.
      - intros [=].
      - intros _. split; [assumption | lia]. }
    destruct (run_clockInv toID evs _ _ _ closeAt Hinit Hplain) as [since' Hinv].
    pose proof (specUnclaimedIntervals_bounds evs (newHelpTicket now0 t) now0 closeAt
                  Hchron) as Hb.
    set (g := run toID (newHelpTicket now0 t) evs) in *.
    rewrite close_unclaimedTime.
    destruct Hinv as [H1 H2 H3 H4 H5 H6].
    unfold unclaimedNow in *. rewrite H2 in *. simpl in *.
    destruct (truthy (claimed (ticket g))) eqn:Ht; simpl in *.
    + destruct (H5 eq_refl) as [L U]. rewrite L. simpl. lia.
    + destruct (H6 eq_refl) as [L U]. apply Z.eqb_neq in L as L'. rewrite L'. lia.
Qed.

Lemma step_first_claim g e :
  firstClaimTime g = 0 -> firstClaimTime (step toID g e) <> 0 ->
  exists u us, snd e = Join u us
    /\ open (ticket g) = true
    /\ User.isStaff u = true /\ User.id u <> userid (ticket g)
    /\ truthy (claimed (ticket g)) = false
    /\ firstClaimTime (step toID g e) = fst e
    /\ claimed (ticket (step toID g e)) = Some (User.name u).
Proof.
  intros Hz Hnz. destruct e as [now [u us | u old | m u]]; simpl in *.
  - exists u, us. split; [reflexivity |]. revert Hnz. unfold onJoin.
    destruct (open (ticket g)) eqn:Ho; simpl; [| congruence].
    destruct (User.isStaff u) eqn:Hs; simpl.
    2:{ unfold addPlayer.
        repeat match goal with
        | |- context [if ?b then _ else _] => destruct b; simpl
        end; congruence. }
    destruct (String.eqb (User.id u) (userid (ticket g))) eqn:Hid; simpl.
    { unfold addPlayer.
      repeat match goal with
      | |- context [if ?b then _ else _] => destruct b; simpl
      end; congruence. }
    apply String.eqb_neq in Hid.
    destruct (truthy (claimed (ticket g))) eqn:Ht; simpl; [congruence |].
    rewrite Hz. simpl.
    destruct (nonStaffPresent _ us); simpl;
      destruct (active (ticket g)); simpl; intros _; repeat split; auto.
  - exfalso. apply Hnz. rewrite <- Hz. unfold onLeave.
    repeat match goal with
    | |- context [if ?b then _ else _] => destruct b; simpl
    | |- context [match ?b with [] => _ | _ :: _ => _ end] => destruct b; simpl
    end; reflexivity.
  - exfalso. apply Hnz. rewrite <- Hz. unfold onLogMessage.
    repeat match goal with
    | |- context [if ?b then _ else _] => destruct b; simpl
    end; reflexivity.
Qed.

(** X6.  The time of the first claim is written once: it is set, to the time of
    the event, only by the join of a staff member who is not the creator
    on an open ticket that nobody holds, the join that makes this member the
    claimant; once it is not zero, no run of events changes it.  The
    creation time of the game never changes. *)
Theorem firstClaimTime_written_once :
  (forall g e,
      firstClaimTime g = 0 -> firstClaimTime (step toID g e) <> 0 ->
      exists u us, snd e = Join u us
        /\ open (ticket g) = true
        /\ User.isStaff u = true /\ User.id u <> userid (ticket g)
        /\ truthy (claimed (ticket g)) = false
        /\ firstClaimTime (step toID g e) = fst e
        /\ claimed (ticket (step toID g e)) = Some (User.name u))
  /\ (forall evs g,
      firstClaimTime g <> 0 ->
      firstClaimTime (run toID g evs) = firstClaimTime g)
  /\ (forall evs g, createTime (run toID g evs) = createTime g).
Proof.
  split; [exact step_first_claim |]. split.
  - induction evs as [| e evs IH]; intros g Hnz; [reflexivity |].
    change (run toID g (e :: evs)) with (run toID (step toID g e) evs).
    destruct (step_times g e) as [_ [E | [E _]]]; [| contradiction].
    rewrite IH; [exact E | now rewrite E].
  - induction evs as [| e evs IH]; intros g; [reflexivity |].
    change (run toID g (e :: evs)) with (run toID (step toID g e) evs).
    destruct (step_times g e) as [E _]. now rewrite IH.
Qed.

End TimeProperties.

(** ** Entries and rooms *)

Ltac map_lookup :=
  repeat first
    [ rewrite lookup_insert_eq | rewrite lookup_delete_eq | rewrite lookup_alter_eq
    | rewrite lookup_insert_ne by congruence
    | rewrite lookup_delete_ne by congruence
    | rewrite lookup_alter_ne by congruence ].

Lemma destroyRoom_eq now k w g :
  rooms w !! k = Some g ->
  destroyRoom now k w
  = if bool_decide (is_Some (tickets w !! userid (ticket g))) && open (ticket g)
    then mkWorld (<[userid (ticket g) := set_open false (ticket g)]> (tickets w))
                 (delete k (rooms w))
                 (statsLog w ++
                  [snd (writeStats now (CloseBool false)
                          (set_ticket (set_open false (ticket g)) g))])
    else mkWorld (tickets w) (delete k (rooms w)) (statsLog w).
Proof.
  intros Hr. unfold destroyRoom, destroy. rewrite Hr.
  destruct (bool_decide _ && open (ticket g)).
  - pose proof (writeStats_ticket now (CloseBool false)
                  (set_ticket (set_open false (ticket g)) g)) as Ht.
    destruct (writeStats now (CloseBool false) _) as [g1 l]. simpl in *.
    rewrite Ht. reflexivity.
  - now rewrite app_nil_r.
Qed.

Lemma destroyRoom_absent now k w : rooms w !! k = None -> destroyRoom now k w = w.
Proof. intros Hr. unfold destroyRoom. now rewrite Hr. Qed.

Lemma linked_destroyRoom now k w : linked w -> linked (destroyRoom now k w).
Proof.
  intros Hl. pose proof Hl as [K R O C].
  destruct (rooms w !! k) as [g |] eqn:Hr.
  2:{ now rewrite destroyRoom_absent. }
  rewrite (destroyRoom_eq _ _ _ _ Hr). pose proof (R k g Hr) as Hk. rewrite Hk.
  destruct (bool_decide (is_Some (tickets w !! k)) && open (ticket g)) eqn:Hb.
  - split; simpl.
    + intros k' t. destruct (decide (k' = k)) as [-> | Hne]; map_lookup.
      * intros [= <-]. exact Hk.
      * apply K.
    + intros k' g'. destruct (decide (k' = k)) as [-> | Hne]; map_lookup;
        [discriminate | apply R].
    + intros k' t. destruct (decide (k' = k)) as [-> | Hne]; map_lookup.
      * intros [= <-]. discriminate.
      * apply O.
    + intros k' g'. destruct (decide (k' = k)) as [-> | Hne]; map_lookup;
        [discriminate | apply C].
  - split; simpl.
    + apply K.
    + intros k' g'. destruct (decide (k' = k)) as [-> | Hne]; map_lookup;
        [discriminate | apply R].
    + intros k' t Ht Ho. destruct (decide (k' = k)) as [-> | Hne]; map_lookup.
      * exfalso. destruct (O k t Ht Ho) as (g' & Hg' & Hopen).
        rewrite Hr in Hg'. injection Hg' as <-.
        rewrite Hopen, andb_true_r in Hb.
        apply bool_decide_eq_false in Hb. apply Hb. eauto.
      * eapply O; eassumption.
    + intros k' g'. destruct (decide (k' = k)) as [-> | Hne]; map_lookup;
        [discriminate | apply C].
Qed.

Section WorldProperties.

Variable toID : string -> ID.

Lemma linked_close_room now res staff w k g c :
  linked w -> rooms w !! k = Some g ->
  linked (mkWorld
            (<[k := set_claimed c (ticket (fst (close toID now res staff g)))]> (tickets w))
            (<[k := set_ticket
                      (set_claimed c (ticket (fst (close toID now res staff g))))
                      (fst (close toID now res staff g))]> (rooms w))
            (statsLog w ++ [snd (close toID now res staff g)])).
Proof.
  intros [K R O C] Hr. pose proof (R k g Hr) as Hk.
  rewrite close_ticket.
  split; simpl.
  - intros k' t. destruct (decide (k' = k)) as [-> | Hne]; map_lookup.
    + intros [= <-]. exact Hk.
    + apply K.
  - intros k' g'. destruct (decide (k' = k)) as [-> | Hne]; map_lookup.
    + intros [= <-]. exact Hk.
    + apply R.
  - intros k' t. destruct (decide (k' = k)) as [-> | Hne]; map_lookup.
    + intros [= <-]. discriminate.
    + apply O.
  - intros k' g'. destruct (decide (k' = k)) as [-> | Hne]; map_lookup.
    + intros [= <-]. discriminate.
    + apply C.
Qed.

Lemma closeCommand_accepted now input res user w w' :
  linked w ->
  closeCommand toID now input res user w = (w', true) ->
  exists t g r,
    tickets w !! toID input = Some t /\ open t = true
    /\ rooms w !! toID input = Some g /\ open (ticket g) = true
    /\ w' = mkWorld
              (<[toID input :=
                   set_claimed (Some (User.name user))
                     (ticket (fst (close toID now (CloseBool r) (Some user) g)))]>
                 (tickets w))
              (<[toID input :=
                   set_ticket
                     (set_claimed (Some (User.name user))
                        (ticket (fst (close toID now (CloseBool r) (Some user) g))))
                     (fst (close toID now (CloseBool r) (Some user) g))]> (rooms w))
              (statsLog w ++ [snd (close toID now (CloseBool r) (Some user) g)]).
Proof.
  intros [K R O C]. unfold closeCommand.
  destruct (tickets w !! toID input) as [t |] eqn:Ht; [| discriminate].
  destruct (open t) eqn:Ho; cbn -[close]; [| discriminate].
  destruct (negb (String.eqb (userid t) (User.id user)) && negb (User.canLock user));
    [discriminate |].
  pose proof (K _ _ Ht) as Hk. rewrite Hk.
  destruct (O _ _ Ht Ho) as (g & Hg & Hopen). rewrite Hg.
  match goal with |- context [close toID now (CloseBool ?R) _ _] => set (r := R) end.
  pose proof (close_ticket toID now (CloseBool r) (Some user) g) as Hct.
  destruct (close toID now (CloseBool r) (Some user) g) as [g1 l] eqn:E.
  simpl in Hct. intros [= <-].
  exists t, g, r. rewrite E. simpl. repeat split; auto.
  rewrite Hct. simpl. rewrite (R _ _ Hg). reflexivity.
Qed.

Lemma linked_closeCommand now input res user w :
  linked w -> linked (fst (closeCommand toID now input res user w)).
Proof.
  intros Hl.
  destruct (closeCommand toID now input res user w) as [w' [|]] eqn:E.
  - destruct (closeCommand_accepted _ _ _ _ _ _ Hl E)
      as (t & g & r & Ht & Ho & Hg & Hgo & ->).
    cbn [fst]. now apply linked_close_room.
  - simpl. unfold closeCommand in E.
    destruct (tickets w !! toID input) as [t |]; [| now injection E as <-].
    destruct (negb (open t) || _); [now injection E as <- |].
    destruct (rooms w !! userid t); [| discriminate].
    destruct (close toID now _ (Some user) _). discriminate.
Qed.

Lemma linked_punishmentfilterId now k w :
  linked w -> linked (punishmentfilterId toID now k w).
Proof.
  intros Hl. pose proof Hl as [K R O C]. unfold punishmentfilterId.
  destruct (rooms w !! k) as [g |] eqn:Hr; [| assumption].
  pose proof (close_ticket toID now CloseTicketban None g) as Hct.
  destruct (close toID now CloseTicketban None g) as [g1 l]. simpl in Hct.
  pose proof (R k g Hr) as Hk.
  rewrite Hct. simpl. rewrite Hk.
  split; simpl.
  - intros k' t. destruct (decide (k' = k)) as [-> | Hne]; map_lookup.
    + intros [= <-]. exact Hk.
    + apply K.
  - intros k' g'. destruct (decide (k' = k)) as [-> | Hne]; map_lookup.
    + intros [= <-]. rewrite Hct. exact Hk.
    + apply R.
  - intros k' t. destruct (decide (k' = k)) as [-> | Hne]; map_lookup.
    + intros [= <-]. discriminate.
    + apply O.
  - intros k' g'. destruct (decide (k' = k)) as [-> | Hne]; map_lookup.
    + intros [= <-]. rewrite Hct. discriminate.
    + apply C.
Qed.

Lemma linked_punishmentfilter now ty ids w :
  linked w -> linked (punishmentfilter toID now ty ids w).
Proof.
  intros Hl. unfold punishmentfilter. destruct (negb _); [assumption |].
  revert w Hl. induction ids as [| k ids IH]; intros w Hl; simpl; [assumption |].
  apply IH. now apply linked_punishmentfilterId.
Qed.

End WorldProperties.

Lemma linked_openTicket now rateLimited ticketType u w :
  linked w -> linked (fst (openTicket now rateLimited ticketType u w)).
Proof.
  intros Hl. unfold openTicket.
  destruct rateLimited; [assumption |].
  destruct (negb _); [assumption |]. simpl.
  pose proof (linked_destroyRoom now (User.id (account u)) w Hl) as [K R O C].
  set (w1 := destroyRoom now (User.id (account u)) w) in *.
  set (k := User.id (account u)).
  split; simpl.
  - intros k' t. destruct (decide (k' = k)) as [-> | Hne]; map_lookup.
    + intros [= <-]. reflexivity.
    + apply K.
  - intros k' g'. destruct (decide (k' = k)) as [-> | Hne]; map_lookup.
    + intros [= <-]. rewrite addPlayer_ticket. reflexivity.
    + apply R.
  - intros k' t. destruct (decide (k' = k)) as [-> | Hne]; map_lookup.
    + intros [= <-] _. eexists. split; [reflexivity |].
      rewrite addPlayer_ticket. reflexivity.
    + apply O.
  - intros k' g'. destruct (decide (k' = k)) as [-> | Hne]; map_lookup.
    + intros [= <-] _. eexists. split; reflexivity.
    + apply C.
Qed.

Lemma linked_forced_close w k t1 :
  linked w -> rooms w !! k = None -> tickets w !! k = Some t1 ->
  linked (mkWorld (<[k := set_open false t1]> (tickets w)) (rooms w) (statsLog w)).
Proof.
  intros [K R O C] Hr Ht. split; simpl.
  - intros k' t. destruct (decide (k' = k)) as [-> | Hne]; map_lookup.
    + intros [= <-]. simpl. now apply K.
    + apply K.
  - apply R.
  - intros k' t. destruct (decide (k' = k)) as [-> | Hne]; map_lookup.
    + intros [= <-]. discriminate.
    + apply O.
  - intros k' g' Hg Ho. destruct (decide (k' = k)) as [-> | Hne]; map_lookup.
    + congruence.
    + eapply C; eassumption.
Qed.

Lemma linked_submit now staffRoom P keys rateLimited ticketType u w w' r :
  linked w ->
  submit now staffRoom P keys rateLimited ticketType u w = Some (w', r) ->
  linked w'.
Proof.
  intros Hl. unfold submit.
  destruct (_ && negb (bypassAll u)); [now intros [= <- <-] |].
  destruct (negb (User.named _)); [now intros [= <- <-] |].
  destruct (checkBanned _ _ _); [now intros [= <- <-] |].
  cbv zeta.
  match goal with |- context [match ?F with Some _ => _ | None => Some (openTicket _ _ _ _ _) end] =>
    destruct F as [t0 |] end.
  - destruct (rooms w !! userid t0) eqn:Hr; [now intros [= <- <-] |].
    destruct (tickets w !! userid t0) as [t1 |] eqn:Ht; [| discriminate].
    intros [= E].
    pose proof (linked_openTicket now rateLimited ticketType u _
                  (linked_forced_close _ _ _ Hl Hr Ht)) as H.
    rewrite E in H. exact H.
  - intros [= E].
    pose proof (linked_openTicket now rateLimited ticketType u _ Hl) as H.
    rewrite E in H. exact H.
Qed.

Lemma linked_deleteCommand toID now canMakeRoom target user w :
  linked w -> linked (fst (deleteCommand toID now canMakeRoom target user w)).
Proof.
  intros Hl. pose proof Hl as [K R O C]. unfold deleteCommand.
  destruct (negb canMakeRoom); [assumption |].
  destruct (String.eqb target ""); [assumption |].
  destruct (tickets w !! toID target) as [t |] eqn:Ht; [| assumption].
  pose proof (K _ _ Ht) as Hk. rewrite Hk.
  destruct (rooms w !! toID target) as [g |] eqn:Hr.
  - pose proof (close_ticket toID now CloseDeleted (Some user) g) as Hct.
    destruct (close toID now CloseDeleted (Some user) g) as [g1 l]. simpl in Hct.
    simpl. apply linked_destroyRoom.
    rewrite Hct. simpl. rewrite (R _ _ Hr).
    split; simpl.
    + intros k' t'. destruct (decide (k' = toID target)) as [-> | Hne]; map_lookup;
        [discriminate | apply K].
    + intros k' g'. destruct (decide (k' = toID target)) as [-> | Hne]; map_lookup.
      * intros [= <-]. rewrite Hct. simpl. now apply R.
      * apply R.
    + intros k' t'. destruct (decide (k' = toID target)) as [-> | Hne]; map_lookup;
        [discriminate | apply O].
    + intros k' g'. destruct (decide (k' = toID target)) as [-> | Hne]; map_lookup.
      * intros [= <-]. rewrite Hct. discriminate.
      * apply C.
  - simpl. split; simpl.
    + intros k' t'. destruct (decide (k' = toID target)) as [-> | Hne]; map_lookup;
        [discriminate | apply K].
    + apply R.
    + intros k' t'. destruct (decide (k' = toID target)) as [-> | Hne]; map_lookup;
        [discriminate | apply O].
    + intros k' g' Hg Ho. destruct (decide (k' = toID target)) as [-> | Hne]; map_lookup.
      * congruence.
      * eapply C; eassumption.
Qed.

(** The world between the statistics line of the ban and the teardown. *)
Lemma banTicket_room now k w g :
  linked w -> rooms w !! k = Some g ->
  let wasOpen := match tickets w !! k with Some t => open t | None => false end in
  let g0 := if wasOpen then set_ticket (set_open false (ticket g)) g else g in
  banTicket now k w
  = mkWorld (if wasOpen then alter (set_open false) k (tickets w) else tickets w)
            (delete k (rooms w))
            (statsLog w ++ [snd (writeStats now CloseTicketban g0)])
  /\ open (ticket g0) = false.
Proof.
  intros [K R O C] Hr. cbv zeta. unfold banTicket. rewrite Hr.
  set (wasOpen := match tickets w !! k with Some t => open t | None => false end).
  set (g0 := if wasOpen then set_ticket (set_open false (ticket g)) g else g).
  assert (Hclosed : open (ticket g0) = false).
  { subst g0. destruct wasOpen eqn:Hw; [reflexivity |].
    destruct (open (ticket g)) eqn:Ho; [| reflexivity].
    destruct (C _ _ Hr Ho) as (t & Ht & Hto). subst wasOpen.
    rewrite Ht in Hw. congruence. }
  split; [| exact Hclosed].
  pose proof (writeStats_ticket now CloseTicketban g0) as Hw.
  destruct (writeStats now CloseTicketban g0) as [g1 l]. simpl in Hw.
  erewrite destroyRoom_eq by (simpl; apply lookup_insert_eq).
  rewrite Hw, Hclosed, andb_false_r. simpl.
  f_equal. apply map_eq. intros k'.
  destruct (decide (k' = k)) as [-> | Hne]; map_lookup; reflexivity.
Qed.

Lemma linked_banTicket now k w : linked w -> linked (banTicket now k w).
Proof.
  intros Hl. pose proof Hl as [K R O C].
  assert (Htable : forall k' t,
            (if match tickets w !! k with Some t => open t | None => false end
             then alter (set_open false) k (tickets w) else tickets w) !! k' = Some t ->
            (k' = k /\ open t = false /\ userid t = k)
            \/ (tickets w !! k' = Some t /\ (k' = k -> open t = false))).
  { intros k' t. destruct (tickets w !! k) as [t0 |] eqn:Ht0.
    - destruct (open t0) eqn:Ho0.
      + destruct (decide (k' = k)) as [-> | Hne]; map_lookup.
        * rewrite Ht0. simpl. intros [= <-]. left. simpl. split; [auto |]. split; [auto |].
          now apply K.
        * intros H. right. split; [assumption | congruence].
      + intros H. right. split; [assumption |]. intros ->. congruence.
    - intros H. right. split; [assumption |]. intros ->. congruence. }
  destruct (rooms w !! k) as [g |] eqn:Hr.
  - destruct (banTicket_room now k w g Hl Hr) as [-> _].
    split; simpl.
    + intros k' t Ht. destruct (Htable k' t Ht) as [(-> & _ & ?) | [? _]]; [assumption |].
      now apply K.
    + intros k' g'. destruct (decide (k' = k)) as [-> | Hne]; map_lookup;
        [discriminate | apply R].
    + intros k' t Ht Ho. destruct (Htable k' t Ht) as [(-> & ? & _) | [Ht' Hc]];
        [congruence |].
      destruct (decide (k' = k)) as [-> | Hne]; [rewrite Hc in Ho; congruence |].
      map_lookup. now apply (O k' t).
    + intros k' g'. destruct (decide (k' = k)) as [-> | Hne]; map_lookup;
        [discriminate |].
      intros Hg Ho. destruct (C _ _ Hg Ho) as (t & Ht & Hto). exists t.
      split; [| assumption].
      destruct (match tickets w !! k with Some t => open t | None => false end);
        map_lookup; assumption.
  - unfold banTicket. rewrite Hr. split; simpl.
    + intros k' t Ht. destruct (Htable k' t Ht) as [(-> & _ & ?) | [? _]]; [assumption |].
      now apply K.
    + apply R.
    + intros k' t Ht Ho. destruct (Htable k' t Ht) as [(-> & ? & _) | [Ht' Hc]];
        [congruence |].
      now apply (O k' t).
    + intros k' g' Hg Ho. destruct (C _ _ Hg Ho) as (t & Ht & Hto). exists t.
      split; [| assumption].
      assert (k' <> k) by congruence.
      destruct (match tickets w !! k with Some t => open t | None => false end);
        map_lookup; assumption.
Qed.

Lemma linked_banTickets now ids : forall w, linked w -> linked (banTickets now ids w).
Proof.
  unfold banTickets. induction ids as [| k ids IH]; intros w Hl; simpl; [assumption |].
  apply IH. now apply linked_banTicket.
Qed.

(** ** The staff box *)

Lemma filter_unheld_one t :
  length (filter (λ t, unheld t = true) [t])
  = if negb (truthy (claimed t)) then 1%nat else 0%nat.
Proof.
  rewrite filter_cons. unfold unheld.
  destruct (negb (truthy (claimed t))) eqn:E.
  - rewrite decide_True by reflexivity. reflexivity.
  - rewrite decide_False by discriminate. reflexivity.
Qed.

Lemma scanTicket_skip hasRoom table b key t :
  table !! key = Some t -> open t && active t = false ->
  scanTicket hasRoom table b key = Some b.
Proof.
  intros Ht Hl. unfold scanTicket. rewrite Ht.
  destruct (open t); simpl in *; [| reflexivity]. now rewrite Hl.
Qed.

Lemma scanTicket_live hasRoom table b key t pre b' :
  table !! key = Some t -> open t && active t = true ->
  boxInv pre b ->
  scanTicket hasRoom table b key = Some b' ->
  boxInv (pre ++ [t]) b'
  /\ ((length pre < 4)%nat -> hasRoom (userid t) = true).
Proof.
  intros Ht Hl [I1 I2 I3 I4 I5]. unfold scanTicket. rewrite Ht.
  apply andb_true_iff in Hl as [Ho Ha]. rewrite Ho, Ha. cbn [negb].
  pose proof (filter_unheld_one t) as F1.
  assert (E4 : existsb unheld [t] = negb (truthy (claimed t)))
    by (simpl; now rewrite orb_false_r).
  assert (E5 : existsb unheldAssistRequest [t]
               = negb (truthy (claimed t))
                 && String.eqb (type t) "Public Room Assistance Request")
    by (simpl; now rewrite orb_false_r).
  destruct (le_lt_dec 3 (length pre)) as [Hge | Hlt].
  - assert (Hc : (3 <=? count b)%nat = true) by (apply Nat.leb_le; lia).
    rewrite Hc. cbn -[Nat.leb Nat.eqb].
    destruct (le_lt_dec 4 (length pre)) as [Hge4 | Hlt4].
    + (* hidden *)
      assert (Hh : (S (hiddenTicketCount b) =? 1)%nat = false)
        by (apply Nat.eqb_neq; lia).
      rewrite Hh. cbn -[Nat.leb Nat.eqb]. intros [= <-]. split; [| lia].
      split; cbn -[Nat.leb Nat.eqb]; rewrite ?length_app; simpl.
      * lia.
      * lia.
      * rewrite drop_app_le by lia.
        rewrite filter_app, length_app, F1.
        destruct (negb (truthy (claimed t))); lia.
      * rewrite take_app_le by lia. assumption.
      * rewrite take_app_le by lia. assumption.
    + (* the fourth ticket *)
      assert (Hlen : length pre = 3%nat) by lia.
      assert (Hh : (S (hiddenTicketCount b) =? 1)%nat = true)
        by (apply Nat.eqb_eq; lia).
      rewrite Hh. cbn -[Nat.leb Nat.eqb].
      destruct (hasRoom (userid t)); cbn -[Nat.leb Nat.eqb]; [| discriminate].
      intros [= <-]. split; [| auto].
      assert (Hd : drop 3 pre = []) by (apply drop_ge; lia).
      assert (Htk : take 4 (pre ++ [t]) = pre ++ [t])
        by (apply take_ge; rewrite length_app; simpl; lia).
      assert (Htk' : take 4 pre = pre) by (apply take_ge; lia).
      rewrite Hd in I3. simpl in I3. rewrite Htk' in I4, I5.
      split; rewrite ?Htk, ?existsb_app, ?E4, ?E5, ?length_app;
        try (rewrite drop_app_le by lia; rewrite Hd, app_nil_l, F1);
        destruct (negb (truthy (claimed t))); cbn -[Nat.leb Nat.eqb];
        rewrite ?I4, ?I5, ?orb_true_r, ?orb_false_r; try reflexivity; try lia.
      destruct (String.eqb (type t) _); rewrite ?orb_true_r, ?orb_false_r; reflexivity.
  - assert (Hc : (3 <=? count b)%nat = false) by (apply Nat.leb_gt; lia).
    rewrite Hc. cbn -[Nat.leb Nat.eqb].
    destruct (hasRoom (userid t)); cbn -[Nat.leb Nat.eqb]; [| discriminate].
    intros [= <-]. split; [| auto].
    assert (Hd : drop 3 (pre ++ [t]) = [])
      by (apply drop_ge; rewrite length_app; simpl; lia).
    assert (Hd' : drop 3 pre = []) by (apply drop_ge; lia).
    assert (Htk : take 4 (pre ++ [t]) = pre ++ [t])
      by (apply take_ge; rewrite length_app; simpl; lia).
    assert (Htk' : take 4 pre = pre) by (apply take_ge; lia).
    rewrite Hd' in I3. simpl in I3. rewrite Htk' in I4, I5.
    split; rewrite ?Htk, ?Hd, ?existsb_app, ?E4, ?E5, ?length_app;
      destruct (negb (truthy (claimed t))); cbn -[Nat.leb Nat.eqb];
      rewrite ?I4, ?I5, ?orb_true_r, ?orb_false_r; try reflexivity; try lia.
    destruct (String.eqb (type t) _); rewrite ?orb_true_r, ?orb_false_r; reflexivity.
Qed.

Lemma liveTickets_cons table key keys :
  liveTickets table (key :: keys)
  = match table !! key with
    | Some t => if open t && active t then t :: liveTickets table keys
                else liveTickets table keys
    | None => liveTickets table keys
    end.
Proof.
  unfold liveTickets. simpl. destruct (table !! key) as [t |]; [| reflexivity].
  destruct (open t && active t); reflexivity.
Qed.

Lemma scanTickets_inv hasRoom table keys : forall pre b b',
  boxInv pre b ->
  scanTickets hasRoom table b keys = Some b' ->
  boxInv (pre ++ liveTickets table keys) b'.
Proof.
  induction keys as [| key keys IH]; intros pre b b' Hinv; cbn [scanTickets].
  - intros [= <-]. unfold liveTickets. simpl. now rewrite app_nil_r.
  - destruct (scanTicket hasRoom table b key) as [b1 |] eqn:Hs; [| discriminate].
    intros Hrest. rewrite liveTickets_cons.
    destruct (table !! key) as [t |] eqn:Ht.
    2:{ unfold scanTicket in Hs. rewrite Ht in Hs. discriminate. }
    destruct (open t && active t) eqn:Hl.
    + destruct (scanTicket_live _ _ _ _ _ _ _ Ht Hl Hinv Hs) as [Hinv' _].
      replace (pre ++ t :: liveTickets table keys)
        with ((pre ++ [t]) ++ liveTickets table keys)
        by (now rewrite <- app_assoc).
      now apply (IH _ b1).
    + rewrite (scanTicket_skip _ _ _ _ _ Ht Hl) in Hs. injection Hs as <-.
      now apply (IH _ b).
Qed.

Lemma boxInv_init : boxInv [] (mkStaffBox 0 0 0 false false).
Proof. split; reflexivity. Qed.

Lemma existsb_take_drop {A} (f : A -> bool) n l :
  existsb f l = existsb f (take n l) || existsb f (drop n l).
Proof. rewrite <- existsb_app, take_drop. reflexivity. Qed.

Lemma existsb_filter_length {A} (f : A -> bool) l :
  existsb f l = (0 <? length (filter (λ x, f x = true) l))%nat.
Proof.
  induction l as [| x l IH]; [reflexivity |].
  rewrite filter_cons. cbn [existsb]. destruct (f x) eqn:E.
  - rewrite decide_True by reflexivity. reflexivity.
  - rewrite decide_False by discriminate. simpl. assumption.
Qed.

Lemma liveTickets_elem table keys t :
  t ∈ liveTickets table keys
  <-> exists k, k ∈ keys /\ table !! k = Some t /\ open t = true /\ active t = true.
Proof.
  unfold liveTickets. rewrite list_elem_of_omap. split.
  - intros (k & Hk & H). exists k. split; [assumption |].
    destruct (table !! k) as [t' |]; [| discriminate].
    destruct (open t' && active t') eqn:E; [| discriminate].
    injection H as ->. apply andb_true_iff in E as [? ?]. auto.
  - intros (k & Hk & Ht & Ho & Ha). exists k. split; [assumption |].
    rewrite Ht, Ho, Ha. reflexivity.
Qed.

Lemma scanTickets_flags hasRoom table keys b :
  scanTickets hasRoom table (mkStaffBox 0 0 0 false false) keys = Some b ->
  count b = Nat.min (length (liveTickets table keys)) 4
  /\ hiddenTicketCount b = (length (liveTickets table keys) - 3)%nat
  /\ fst (staffFlags b) = existsb unheld (liveTickets table keys)
  /\ snd (staffFlags b)
     = existsb unheldAssistRequest (take 4 (liveTickets table keys)).
Proof.
  intros Hscan.
  pose proof (scanTickets_inv _ _ _ [] _ _ boxInv_init Hscan) as Hinv.
  simpl in Hinv. destruct Hinv as [I1 I2 I3 I4 I5].
  set (live := liveTickets table keys) in *.
  split; [assumption |]. split; [assumption |]. split; [| exact I5].
  unfold staffFlags. simpl.
  rewrite (existsb_take_drop unheld 4 live), <- I4.
  destruct (hasUnclaimed b) eqn:Hu; simpl.
  - destruct (_ && _); reflexivity.
  - rewrite (existsb_filter_length unheld (drop 4 live)).
    rewrite (existsb_take_drop unheld 3 (take 4 live)) in I4.
    rewrite take_take in I4. simpl in I4.
    symmetry in I4. apply orb_false_iff in I4 as [_ I4].
    rewrite (existsb_filter_length unheld (drop 3 (take 4 live))) in I4.
    apply Nat.ltb_ge in I4.
    assert (Hsplit : drop 3 live = drop 3 (take 4 live) ++ drop 4 live).
    { rewrite <- (take_drop 4 live) at 1.
      destruct (le_lt_dec 4 (length live)).
      - rewrite drop_app_le by (rewrite length_take; lia). reflexivity.
      - rewrite (drop_ge live 4) by lia. rewrite app_nil_r.
        rewrite take_ge by lia. rewrite app_nil_r. reflexivity. }
    rewrite Hsplit, filter_app, length_app in I3.
    destruct (le_lt_dec (length live) 4) as [Hle | Hgt].
    + rewrite (drop_ge live 4) by lia. simpl.
      rewrite (drop_ge live 4) in I3 by lia. simpl in I3.
      assert (hiddenTicketUnclaimedCount b = 0)%nat by lia.
      rewrite H. rewrite andb_false_r. reflexivity.
    + assert (H1 : (1 <? hiddenTicketCount b)%nat = true) by (apply Nat.ltb_lt; lia).
      rewrite H1. simpl.
      assert (H0 : length (filter (λ t, unheld t = true) (drop 3 (take 4 live))) = 0%nat)
        by lia.
      rewrite H0 in I3. simpl in I3. rewrite I3.
      destruct (0 <? _)%nat; reflexivity.
Qed.

Lemma existsb_unheld_live table keys :
  existsb unheld (liveTickets table keys) = true
  <-> exists k t, k ∈ keys /\ table !! k = Some t /\ waiting t = true.
Proof.
  rewrite existsb_exists. split.
  - intros (t & Hin & Hu). apply list_elem_of_In, liveTickets_elem in Hin.
    destruct Hin as (k & Hk & Ht & Ho & Ha). exists k, t.
    split; [assumption |]. split; [assumption |].
    unfold waiting. rewrite Ho, Ha. exact Hu.
  - intros (k & t & Hk & Ht & Hw). exists t. unfold waiting in Hw.
    apply andb_true_iff in Hw as [Hw Hu]. apply andb_true_iff in Hw as [Ho Ha].
    split; [| exact Hu]. apply list_elem_of_In, liveTickets_elem. eauto 6.
Qed.

Lemma existsb_assist_unheld l :
  existsb unheldAssistRequest (take 4 l) = true -> existsb unheld l = true.
Proof.
  rewrite !existsb_exists. intros (t & Hin & Hq). exists t. split.
  - apply list_elem_of_In. apply list_elem_of_In in Hin.
    rewrite <- (take_drop 4 l). apply elem_of_app. now left.
  - unfold unheldAssistRequest in Hq. now apply andb_true_iff in Hq as [? _].
Qed.

(** X24.  What the loop of [notifyStaff] computes, whatever the order of the keys:
    it counts at most four tickets, and beyond the third it counts the hidden
    ones, so that the three buttons and the hidden tickets, or the four
    buttons, are all the open and active tickets; the flag handed to the
    timer tells whether some open, active ticket of the table is held by
    nobody; and an assistance request is only reported together with an
    unclaimed ticket, and only when it is among the first four. *)
Theorem notifyStaff_scan hasRoom table keys b :
  scanTickets hasRoom table (mkStaffBox 0 0 0 false false) keys = Some b ->
  count b = Nat.min (length (liveTickets table keys)) 4
  /\ hiddenTicketCount b = (length (liveTickets table keys) - 3)%nat
  /\ (fst (staffFlags b) = true
      <-> exists k t, k ∈ keys /\ table !! k = Some t /\ waiting t = true)
  /\ snd (staffFlags b)
     = existsb unheldAssistRequest (take 4 (liveTickets table keys))
  /\ (snd (staffFlags b) = true -> fst (staffFlags b) = true).
Proof.
  intros Hscan.
  destruct (scanTickets_flags _ _ _ _ Hscan) as (H1 & H2 & H3 & H4).
  split; [exact H1 |]. split; [exact H2 |].
  split; [rewrite H3; apply existsb_unheld_live |].
  split; [exact H4 |].
  rewrite H4, H3. apply existsb_assist_unheld.
Qed.

(** The loop throws exactly when a key of the list is not in the table or
    one of the first four open and active tickets has no room. *)
Lemma scanTickets_succeeds hasRoom table keys : forall pre b,
  boxInv pre b ->
  (forall k, k ∈ keys -> is_Some (table !! k)) ->
  (forall t, t ∈ liveTickets table keys -> hasRoom (userid t) = true) ->
  is_Some (scanTickets hasRoom table b keys).
Proof.
  induction keys as [| key keys IH]; intros pre b Hinv Hkeys Hrooms;
    cbn [scanTickets].
  - eauto.
  - destruct (Hkeys key) as [t Ht]; [left |].
    assert (Hrest : forall k, k ∈ keys -> is_Some (table !! k))
      by (intros k Hk; apply Hkeys; now right).
    rewrite liveTickets_cons, Ht in Hrooms.
    destruct (open t && active t) eqn:Hl.
    + assert (Hr : hasRoom (userid t) = true) by (apply Hrooms; left).
      assert (Hs : is_Some (scanTicket hasRoom table b key)).
      { unfold scanTicket. rewrite Ht.
        apply andb_true_iff in Hl as [-> ->]. simpl. rewrite Hr. simpl.
        destruct (_ && _); eauto. }
      destruct Hs as [b1 Hs]. rewrite Hs.
      apply andb_true_iff in Hl as Hl'.
      destruct (scanTicket_live _ _ _ _ _ pre _ Ht Hl Hinv Hs) as [Hinv' _].
      apply (IH _ _ Hinv'); [assumption |].
      intros t' Ht'. apply Hrooms. now right.
    + rewrite (scanTicket_skip _ _ _ _ _ Ht Hl).
      apply (IH _ _ Hinv); assumption.
Qed.

(** ** The timer and the notifications *)

Lemma poke_timerNoted now staffRoom hu ha s :
  timerNoted s -> timerNoted (pokeUnclaimedTicketTimer now staffRoom hu ha s).
Proof.
  intros Hn. unfold pokeUnclaimedTicketTimer.
  repeat match goal with
  | |- context [if ?b then _ else _] => destruct b
  end; try assumption; reflexivity.
Qed.

Lemma poke_pending now hu ha s :
  (ha = true -> hu = true) ->
  (is_Some (unclaimedTicketTimer (pokeUnclaimedTicketTimer now true hu ha s))
   <-> hu = true).
Proof.
  intros Himp. unfold pokeUnclaimedTicketTimer. simpl.
  destruct (unclaimedTicketTimer s) as [f |] eqn:Hf;
    [rewrite bool_decide_eq_true_2 by eauto
    | rewrite bool_decide_eq_false_2 by (intros [? [=]])];
    destruct hu, ha; try (specialize (Himp eq_refl); discriminate); simpl;
    try destruct (_ <? _); simpl; rewrite ?Hf;
    split; intros H; try reflexivity; try discriminate;
    try (eexists; reflexivity); try (destruct H as [? H]; discriminate).
Qed.

(** X25.  After [notifyStaff], with the staff room there, a timer is pending
    exactly when some open and active ticket of the table is held by nobody;
    and a note of the firing time that agreed with the pending timer still
    agrees with it. *)
Theorem notifyStaff_timer now hasRoom table keys s s' :
  notifyStaff now true hasRoom table keys s = Some s' ->
  (is_Some (unclaimedTicketTimer s')
   <-> exists k t, k ∈ keys /\ table !! k = Some t /\ waiting t = true)
  /\ (timerNoted s -> timerNoted s').
Proof.
  unfold notifyStaff. simpl.
  destruct (scanTickets _ _ _ keys) as [b |] eqn:Hscan; [| discriminate].
  intros [= <-].
  destruct (scanTickets_flags _ _ _ _ Hscan) as (_ & _ & Hu & Ha).
  split.
  - rewrite <- existsb_unheld_live, <- Hu. apply poke_pending.
    change (snd (staffFlags b) = true -> fst (staffFlags b) = true).
    rewrite Ha, Hu. apply existsb_assist_unheld.
  - apply poke_timerNoted.
Qed.

Lemma warningDue_cleared t :
  warningDue (set_needsDelayWarning false t) = false.
Proof. unfold warningDue. simpl. now rewrite andb_false_r. Qed.

(** X26.  When the timer fires: the slot of the timer is free again; the delay
    message goes to the open, active tickets that are marked for it, are
    held by nobody and whose type has a warning text, and exactly these lose
    their mark, every other entry staying as it is; no entry is due a
    message afterwards, so that a second firing changes nothing more; the
    tickets that count as unclaimed are the same as before. *)
Theorem notifyUnclaimedTicket_once hasRoom table s table' s' :
  notifyUnclaimedTicket true hasRoom table s = Some (table', s') ->
  s' = mkTimerState None 0
  /\ (forall k, table' !! k
        = (λ t, if warningDue t then set_needsDelayWarning false t else t)
            <$> table !! k)
  /\ (forall k t, table' !! k = Some t -> warningDue t = false)
  /\ (forall k t, table !! k = Some t ->
        exists t', table' !! k = Some t' /\ waiting t' = waiting t)
  /\ notifyUnclaimedTicket true hasRoom table' s' = Some (table', s').
Proof.
  unfold notifyUnclaimedTicket. simpl.
  case_bool_decide as Hall; [| discriminate]. intros [= <- <-].
  assert (Hclear : forall k t,
            ((λ t, if warningDue t then set_needsDelayWarning false t else t)
               <$> table) !! k = Some t -> warningDue t = false).
  { intros k t. rewrite lookup_fmap. destruct (table !! k) as [t0 |]; [| discriminate].
    simpl. intros [= <-]. destruct (warningDue t0) eqn:E; [| assumption].
    apply warningDue_cleared. }
  split; [reflexivity |]. split; [intros k; apply lookup_fmap |].
  split; [exact Hclear |]. split.
  - intros k t Ht. rewrite lookup_fmap, Ht. simpl. eexists. split; [reflexivity |].
    destruct (warningDue t); reflexivity.
  - rewrite bool_decide_eq_true_2.
    + f_equal. f_equal. apply map_eq. intros k. rewrite lookup_fmap.
      destruct (_ !! k) as [t |] eqn:Ht; [| reflexivity].
      simpl. now rewrite (Hclear k t Ht).
    + intros k t Ht Hd. rewrite (Hclear k t Ht) in Hd. discriminate.
Qed.

(** X27.  For a ticket whose type is one of those [submit] accepts, the delay
    message is due exactly when the ticket is open, active, marked for the
    warning and held by nobody, and its type is neither [Other] nor
    [ISP-Appeal]: the table of the warnings has no text under these two
    names. *)
Theorem warningDue_types t :
  type t ∈ ticketTitles.*2 ->
  (warningDue t = true
   <-> open t = true /\ active t = true /\ needsDelayWarning t = true
       /\ truthy (claimed t) = false
       /\ type t <> "Other" /\ type t <> "ISP-Appeal").
Proof.
  intros Hty.
  assert (Hd : bool_decide (type t ∈ delayWarnings)
               = negb (String.eqb (type t) "Other")
                 && negb (String.eqb (type t) "ISP-Appeal")).
  { simpl in Hty.
    repeat (apply elem_of_cons in Hty as [-> | Hty]); try reflexivity.
    inversion Hty. }
  unfold warningDue. rewrite Hd.
  rewrite !andb_true_iff, !negb_true_iff, !String.eqb_neq. tauto.
Qed.

(** ** The address and the ban of a user who asks for a ticket *)

Lemma checkIp_Some_elem P table address keys t :
  checkIp P table address keys = Some t ->
  (exists k, k ∈ keys /\ table !! k = Some t)
  /\ ip t = address /\ open t = true /\ (address ∉ sharedIps P).
Proof.
  induction keys as [| k keys IH]; simpl; [discriminate |].
  assert (Hrest : checkIp P table address keys = Some t ->
            (exists k', k' ∈ k :: keys /\ table !! k' = Some t)
            /\ ip t = address /\ open t = true /\ (address ∉ sharedIps P)).
  { intros H. destruct (IH H) as ((k' & Hk' & Hl) & ?).
    split; [exists k'; split; [now right | assumption] | assumption]. }
  destruct (table !! k) as [t0 |] eqn:Ht0; [| exact Hrest].
  destruct (String.eqb (ip t0) address && open t0
            && negb (bool_decide (address ∈ sharedIps P))) eqn:Hc; [| exact Hrest].
  apply andb_true_iff in Hc as [Hc Hs]. apply andb_true_iff in Hc as [Hi Ho].
  apply String.eqb_eq in Hi. apply negb_true_iff, bool_decide_eq_false in Hs.
  intros [= <-]. split; [exists k; split; [left | assumption] | auto].
Qed.

Lemma checkIp_None_elem P table address keys :
  checkIp P table address keys = None ->
  forall k t, k ∈ keys -> table !! k = Some t ->
    ~ (ip t = address /\ open t = true /\ (address ∉ sharedIps P)).
Proof.
  induction keys as [| k keys IH]; simpl.
  - intros _ k t Hk. inversion Hk.
  - destruct (table !! k) as [t0 |] eqn:Ht0.
    + destruct (String.eqb (ip t0) address && open t0
                && negb (bool_decide (address ∈ sharedIps P))) eqn:Hc; [discriminate |].
      intros H k' t Hk' Ht. apply elem_of_cons in Hk' as [-> | Hk'].
      * rewrite Ht0 in Ht. injection Ht as <-. intros (Hi & Ho & Hs).
        apply String.eqb_eq in Hi.
        rewrite Hi, Ho, (bool_decide_eq_false_2 _ Hs) in Hc. discriminate.
      * now apply (IH H k' t).
    + intros H k' t Hk' Ht. apply elem_of_cons in Hk' as [-> | Hk'].
      * congruence.
      * now apply (IH H k' t).
Qed.

(** X18.  [checkIp] finds an open ticket that was opened from the address, and it
    finds one exactly when the table has such a ticket and the address is
    not shared. *)
Theorem checkIp_spec P table address keys :
  (forall t, checkIp P table address keys = Some t ->
     (exists k, k ∈ keys /\ table !! k = Some t)
     /\ ip t = address /\ open t = true /\ (address ∉ sharedIps P))
  /\ (checkIp P table address keys = None
      <-> forall k t, k ∈ keys -> table !! k = Some t ->
            ~ (ip t = address /\ open t = true /\ (address ∉ sharedIps P))).
Proof.
  split; [intros t; apply checkIp_Some_elem |].
  split; [apply checkIp_None_elem |].
  intros Hnone.
  destruct (checkIp P table address keys) as [t |] eqn:Hc; [| reflexivity].
  exfalso.
  destruct (checkIp_Some_elem _ _ _ _ _ Hc) as ((k & Hk & Ht) & Hrest).
  exact (Hnone k t Hk Ht Hrest).
Qed.

Lemma isTicketBan_Some o p :
  isTicketBan o = Some p <-> o = Some p /\ punishType p = "TICKETBAN".
Proof.
  unfold isTicketBan. destruct o as [q |]; [| split; [discriminate | intros [[=] _]]].
  destruct (String.eqb (punishType q) "TICKETBAN") eqn:E.
  - apply String.eqb_eq in E. split.
    + intros [= <-]. auto.
    + intros [[= <-] _]. reflexivity.
  - apply String.eqb_neq in E. split; [discriminate |].
    intros [[= <-] ?]. contradiction.
Qed.

Lemma firstIpBan_Some P addresses p :
  firstIpBan P addresses = Some p ->
  punishType p = "TICKETBAN" /\ exists a, a ∈ addresses /\ roomIps P !! a = Some p.
Proof.
  induction addresses as [| a rest IH]; simpl; [discriminate |].
  destruct (isTicketBan (roomIps P !! a)) as [q |] eqn:E.
  - intros [= <-]. apply isTicketBan_Some in E as [E1 E2].
    split; [assumption |]. exists a. split; [left | assumption].
  - intros H. destruct (IH H) as [H1 (a' & Ha' & H2)].
    split; [assumption |]. exists a'. split; [now right | assumption].
Qed.

Lemma firstIpBan_None P addresses :
  firstIpBan P addresses = None <->
  forall a, a ∈ addresses -> isTicketBan (roomIps P !! a) = None.
Proof.
  induction addresses as [| a rest IH]; simpl.
  - split; [| reflexivity]. intros _ a Ha. inversion Ha.
  - destruct (isTicketBan (roomIps P !! a)) as [q |] eqn:E.
    + split; [discriminate |]. intros H.
      rewrite (H a (list_elem_of_here _ _)) in E. discriminate.
    + rewrite IH. split.
      * intros H a' Ha'. apply elem_of_cons in Ha' as [-> | Ha']; auto.
      * intros H a' Ha'. apply H. now right.
Qed.

(** X19.  [checkBanned] reports only ticket bans, and only while the staff room
    exists.  A ticket ban under the user's own id is always reported, and it
    comes first; otherwise, for a user object whose latest address is not
    shared, a ticket ban of one of the user's addresses, the latest or
    another, is reported.  A user on a shared address is judged like the
    bare id, by the ban of the id alone. *)
Theorem checkBanned_spec staffRoom P user :
  (forall p, checkBanned staffRoom P user = Some p ->
     staffRoom = true /\ punishType p = "TICKETBAN"
     /\ (roomUserids P !! submitterId user = Some p
         \/ exists u a, user = inl u /\ (latestIp u ∉ sharedIps P)
              /\ a ∈ latestIp u :: ips u /\ roomIps P !! a = Some p))
  /\ (forall p, staffRoom = true ->
        roomUserids P !! submitterId user = Some p ->
        punishType p = "TICKETBAN" ->
        checkBanned staffRoom P user = Some p)
  /\ (forall u a p, staffRoom = true -> user = inl u ->
        (latestIp u ∉ sharedIps P) -> a ∈ latestIp u :: ips u ->
        roomIps P !! a = Some p -> punishType p = "TICKETBAN" ->
        is_Some (checkBanned staffRoom P user))
  /\ (forall u, user = inl u -> latestIp u ∈ sharedIps P ->
        checkBanned staffRoom P user
        = checkBanned staffRoom P (inr (User.id (account u)))).
Proof.
  unfold checkBanned. destruct staffRoom; simpl.
  2:{ repeat split; try discriminate. }
  split; [| split; [| split]].
  - intros p.
    destruct (isTicketBan (roomUserids P !! submitterId user)) as [q |] eqn:E.
    + unfold submitterId in E. destruct user as [u | k]; rewrite E;
        intros [= <-]; apply isTicketBan_Some in E as [E1 E2]; auto.
    + unfold submitterId in E. destruct user as [u | k]; rewrite E; [| discriminate].
      case_bool_decide as Hs; [discriminate |].
      intros H. apply firstIpBan_Some in H as [H1 (a & Ha & H2)].
      split; [reflexivity |]. split; [assumption |]. right. exists u, a. auto.
  - intros p _ Hp Hty.
    assert (E : isTicketBan (roomUserids P !! submitterId user) = Some p)
      by (apply isTicketBan_Some; auto).
    unfold submitterId in E. destruct user; now rewrite E.
  - intros u a p _ -> Hs Ha Hp Hty.
    destruct (isTicketBan (roomUserids P !! User.id (account u))); [eauto |].
    rewrite bool_decide_eq_false_2 by assumption.
    destruct (firstIpBan P (latestIp u :: ips u)) eqn:E; [eauto |].
    exfalso. rewrite firstIpBan_None in E. specialize (E a Ha).
    assert (E' : isTicketBan (roomIps P !! a) = Some p)
      by (apply isTicketBan_Some; auto).
    congruence.
  - intros u -> Hs.
    destruct (isTicketBan (roomUserids P !! User.id (account u))); [reflexivity |].
    now rewrite bool_decide_eq_true_2.
Qed.

(** ** Asking for a ticket *)

Lemma openTicket_refused now rateLimited ticketType u w w' r :
  openTicket now rateLimited ticketType u w = (w', r) -> r <> Opened -> w' = w.
Proof.
  unfold openTicket. destruct rateLimited; [now intros [= <- <-] |].
  destruct (negb _); [now intros [= <- <-] |].
  intros [= <- <-]. congruence.
Qed.

(** X20.  A [submit] that does not open a ticket opens nothing else either: it
    leaves the rooms and the statistics alone, and it changes an entry of
    the table only to close one whose room is missing.  When entries and
    rooms belong together it changes nothing at all. *)
Theorem submit_refused now staffRoom P keys rateLimited ticketType u w w' r :
  submit now staffRoom P keys rateLimited ticketType u w = Some (w', r) ->
  r <> Opened ->
  rooms w' = rooms w /\ statsLog w' = statsLog w
  /\ (forall k, tickets w' !! k = tickets w !! k
        \/ (rooms w !! k = None
            /\ exists t, tickets w !! k = Some t
                 /\ tickets w' !! k = Some (set_open false t)))
  /\ (linked w -> w' = w).
Proof.
  unfold submit.
  destruct (_ && negb (bypassAll u)); [intros [= <- <-]; auto |].
  destruct (negb (User.named _)); [intros [= <- <-]; auto |].
  destruct (checkBanned _ _ _); [intros [= <- <-]; auto |].
  cbv zeta.
  match goal with |- context [match ?F with Some _ => _ | None => Some (openTicket _ _ _ _ _) end] =>
    destruct F as [t0 |] end.
  - destruct (rooms w !! userid t0) eqn:Hr; [intros [= <- <-]; auto |].
    destruct (tickets w !! userid t0) as [t1 |] eqn:Ht; [| discriminate].
    intros [= E] Hne. apply openTicket_refused in E; [| assumption]. subst w'.
    simpl. split; [reflexivity |]. split; [reflexivity |]. split.
    + intros k. destruct (decide (k = userid t0)) as [-> | Hk].
      * right. split; [assumption |]. exists t1. rewrite lookup_insert_eq. auto.
      * left. now rewrite lookup_insert_ne by congruence.
    + intros [K R O C]. destruct w as [tk rm lg]. simpl in *. f_equal.
      apply insert_id. rewrite Ht. f_equal.
      destruct (open t1) eqn:Ho.
      * destruct (O _ _ Ht Ho) as (g & Hg & _). congruence.
      * destruct t1. simpl in Ho. subst. reflexivity.
  - intros [= E] Hne. apply openTicket_refused in E; [| assumption]. subst w'. auto.
Qed.

(** X21.  A [submit] that opens a ticket: the user is not global staff (or may
    bypass everything), has a name, is not ticket banned and not limited,
    and the type is one of the ticket types.  The table holds the new
    entry under the user's id, open, unclaimed and created now; the room of
    the user holds a fresh game whose only player is the user; the other
    rooms are as before.  The ticket starts active exactly when its type is
    [ISP-Appeal], the one type without a first question. *)
Theorem submit_opened now staffRoom P keys rateLimited ticketType u w w' :
  submit now staffRoom P keys rateLimited ticketType u w = Some (w', Opened) ->
  (User.canLock (account u) = false \/ bypassAll u = true)
  /\ User.named (account u) = true
  /\ checkBanned staffRoom P (inl u) = None
  /\ rateLimited = false
  /\ ticketType ∈ ticketTitles.*2
  /\ tickets w' !! User.id (account u) = Some (newTicket now ticketType u)
  /\ rooms w' !! User.id (account u)
     = Some (set_playerTable [User.id (account u)]
               (newHelpTicket now (newTicket now ticketType u)))
  /\ (forall k, k <> User.id (account u) -> rooms w' !! k = rooms w !! k)
  /\ (active (newTicket now ticketType u) = true <-> ticketType = "ISP-Appeal").
Proof.
  assert (Hopen : forall w0,
    openTicket now rateLimited ticketType u w0 = (w', Opened) ->
    rateLimited = false /\ ticketType ∈ ticketTitles.*2
    /\ tickets w' !! User.id (account u) = Some (newTicket now ticketType u)
    /\ rooms w' !! User.id (account u)
       = Some (set_playerTable [User.id (account u)]
                 (newHelpTicket now (newTicket now ticketType u)))
    /\ (forall k, k <> User.id (account u) -> rooms w' !! k = rooms w0 !! k)).
  { intros w0. unfold openTicket. destruct rateLimited; [discriminate |].
    case_bool_decide as Hty; simpl; [| discriminate].
    intros [= <-]. simpl. rewrite !lookup_insert_eq.
    split; [reflexivity |]. split; [assumption |]. split; [reflexivity |].
    split; [reflexivity |].
    intros k Hk. rewrite lookup_insert_ne by congruence.
    destruct (rooms w0 !! User.id (account u)) as [g |] eqn:Hr.
    - rewrite (destroyRoom_eq _ _ _ _ Hr).
      destruct (_ && _); simpl; now rewrite lookup_delete_ne by congruence.
    - now rewrite destroyRoom_absent. }
  assert (Hact : active (newTicket now ticketType u) = true <-> ticketType = "ISP-Appeal"
                 \/ ticketType ∉ ticketTitles.*2).
  { simpl. rewrite negb_true_iff, bool_decide_eq_false. unfold contexts.
    rewrite !elem_of_cons, !elem_of_nil. split.
    - intros H. destruct (decide (ticketType = "ISP-Appeal")) as [E | E]; [auto |].
      right. intros H'. apply H. tauto.
    - intros [-> | H] H'.
      + intuition discriminate.
      + apply H. tauto. }
  unfold submit.
  destruct (User.canLock (account u) && negb (bypassAll u)) eqn:Hs; [discriminate |].
  destruct (User.named (account u)) eqn:Hn; simpl; [| discriminate].
  destruct (checkBanned staffRoom P (inl u)) eqn:Hb; [discriminate |].
  cbv zeta.
  assert (Hstaff : User.canLock (account u) = false \/ bypassAll u = true).
  { destruct (User.canLock (account u)); [| auto]. right.
    destruct (bypassAll u); [reflexivity | discriminate]. }
  match goal with |- context [match ?F with Some _ => _ | None => Some (openTicket _ _ _ _ _) end] =>
    destruct F as [t0 |] end.
  - destruct (rooms w !! userid t0) eqn:Hr; [discriminate |].
    destruct (tickets w !! userid t0) as [t1 |] eqn:Ht; [| discriminate].
    intros [= E]. destruct (Hopen _ E) as (H1 & H2 & H3 & H4 & H5).
    repeat split; auto; try (apply Hact); try tauto.
  - intros [= E]. destruct (Hopen _ E) as (H1 & H2 & H3 & H4 & H5).
    repeat split; auto; try (apply Hact); try tauto.
Qed.


(** ** Ending a ticket once *)

Section EndingProperties.

Variable toID : string -> ID.

(** X11.  When entries and rooms belong together, a close command that goes
    through writes exactly one line, with the result of the ticket's type
    for the outcome handed to [close]; the same command given again is
    rejected and changes nothing, and the teardown of the room writes no
    second line. *)
Theorem closeCommand_once now input res user w w' :
  linked w ->
  closeCommand toID now input res user w = (w', true) ->
  (exists g b l, rooms w !! toID input = Some g
     /\ statsLog w' = statsLog w ++ [l]
     /\ line_result l = Some (resultFor (type (ticket g)) b))
  /\ (forall now' res' user',
        closeCommand toID now' input res' user' w' = (w', false))
  /\ (forall now', statsLog (destroyRoom now' (toID input) w') = statsLog w').
Proof.
  intros Hl Hc.
  destruct (closeCommand_accepted toID _ _ _ _ _ _ Hl Hc)
    as (t & g & r & Ht & Ho & Hg & Hgo & ->).
  split; [| split].
  - exists g, r, (snd (close toID now (CloseBool r) (Some user) g)).
    split; [assumption |]. split; [reflexivity |]. apply close_result.
  - intros now' res' user'.
    eapply closeCommand_rejects_closed.
    + cbn [tickets]. apply lookup_insert_eq.
    + rewrite close_ticket. reflexivity.
  - intros now'. eapply destroyRoom_closed_silent.
    + cbn [rooms]. apply lookup_insert_eq.
    + cbn [ticket set_ticket]. rewrite close_ticket. reflexivity.
Qed.


End EndingProperties.

(** X12.  The teardown of a room, when entries and rooms belong together: the
    room is gone; for an open ticket the entry is closed and one line is
    written, with the negative result of the ticket's type; for a closed
    ticket the table and the statistics stay as they are. *)
Theorem destroyRoom_spec now k w g :
  linked w -> rooms w !! k = Some g ->
  rooms (destroyRoom now k w) !! k = None
  /\ (open (ticket g) = true ->
      tickets (destroyRoom now k w) !! k = Some (set_open false (ticket g))
      /\ exists l, statsLog (destroyRoom now k w) = statsLog w ++ [l]
           /\ line_result l = Some (resultFor (type (ticket g)) false)
           /\ line_resolution l = codeResolution g)
  /\ (open (ticket g) = false ->
      tickets (destroyRoom now k w) = tickets w
      /\ statsLog (destroyRoom now k w) = statsLog w).
Proof.
  intros [K R O C] Hr. rewrite (destroyRoom_eq _ _ _ _ Hr), (R _ _ Hr).
  split; [| split].
  - destruct (_ && _); cbn [rooms]; apply lookup_delete_eq.
  - intros Ho. destruct (C _ _ Hr Ho) as (t & Ht & _).
    rewrite bool_decide_eq_true_2 by eauto. rewrite Ho. cbn [andb tickets statsLog].
    split; [apply lookup_insert_eq |]. eexists. split; [reflexivity |].
    split; [apply writeStats_result |].
    apply (proj2 (writeStats_resolution now (CloseBool false)
                    (set_ticket (set_open false (ticket g)) g))).
  - intros Ho. rewrite Ho, andb_false_r. auto.
Qed.

(** X14.  The ban command, for one affected user, when entries and rooms belong
    together: the user's entry, if any, is closed and otherwise unchanged;
    the room is gone; and when the room was there exactly one line is
    written, with the result [ticketban], whether the ticket was open or
    already closed.  The other entries and rooms are as before. *)
Theorem banTicket_spec now k w :
  linked w ->
  tickets (banTicket now k w) !! k = set_open false <$> tickets w !! k
  /\ rooms (banTicket now k w) !! k = None
  /\ (forall k', k' <> k ->
        tickets (banTicket now k w) !! k' = tickets w !! k'
        /\ rooms (banTicket now k w) !! k' = rooms w !! k')
  /\ match rooms w !! k with
     | Some g => exists l, statsLog (banTicket now k w) = statsLog w ++ [l]
                   /\ line_result l = Some ticketban
     | None => statsLog (banTicket now k w) = statsLog w
     end.
Proof.
  intros Hl.
  assert (Htable : forall k',
    (if match tickets w !! k with Some t => open t | None => false end
     then alter (set_open false) k (tickets w) else tickets w) !! k'
    = if decide (k' = k) then set_open false <$> tickets w !! k else tickets w !! k').
  { intros k'. destruct (decide (k' = k)) as [-> | Hne].
    - destruct (tickets w !! k) as [t |] eqn:Ht; simpl.
      + destruct (open t) eqn:Ho.
        * rewrite lookup_alter_eq, Ht. reflexivity.
        * rewrite Ht. f_equal. destruct t. simpl in Ho. now subst.
      + now rewrite Ht.
    - destruct (match tickets w !! k with Some t => open t | None => false end);
        [now rewrite lookup_alter_ne by congruence | reflexivity]. }
  destruct (rooms w !! k) as [g |] eqn:Hr.
  - destruct (banTicket_room now k w g Hl Hr) as [-> _]. cbn [tickets rooms statsLog].
    split; [rewrite Htable; now rewrite decide_True |].
    split; [apply lookup_delete_eq |]. split.
    + intros k' Hk'. rewrite Htable, decide_False by assumption.
      now rewrite lookup_delete_ne by congruence.
    + eexists. split; [reflexivity |]. rewrite writeStats_result. reflexivity.
  - unfold banTicket. rewrite Hr. simpl.
    split; [rewrite Htable; now rewrite decide_True |].
    split; [assumption |]. split; [| reflexivity].
    intros k' Hk'. now rewrite Htable, decide_False by assumption.
Qed.

(** ** The rooms the notifications look up *)

(** X29.  When entries and rooms belong together, and the keys handed to
    [notifyStaff] are keys of the table, neither [notifyStaff] nor the
    callback of the timer throws: every ticket they look up a room for has
    one. *)
Theorem notifications_find_rooms now staffRoom keys w s :
  linked w ->
  (forall k, k ∈ keys -> is_Some (tickets w !! k)) ->
  is_Some (notifyStaff now staffRoom (hasHelpRoom w) (tickets w) keys s)
  /\ is_Some (notifyUnclaimedTicket staffRoom (hasHelpRoom w) (tickets w) s).
Proof.
  intros [K R O C] Hkeys.
  assert (Hroom : forall k t, tickets w !! k = Some t -> open t = true ->
            hasHelpRoom w (userid t) = true).
  { intros k t Ht Ho. unfold hasHelpRoom. apply bool_decide_eq_true.
    rewrite (K _ _ Ht). destruct (O _ _ Ht Ho) as (g & Hg & _). eauto. }
  split.
  - unfold notifyStaff. destruct staffRoom; simpl; [| eauto].
    destruct (scanTickets_succeeds (hasHelpRoom w) (tickets w) keys [] _
                boxInv_init Hkeys) as [b Hb].
    + intros t Ht. apply liveTickets_elem in Ht as (k & _ & Ht & Ho & _). eauto.
    + rewrite Hb. eauto.
  - unfold notifyUnclaimedTicket. destruct staffRoom; simpl; [| eauto].
    rewrite bool_decide_eq_true_2; [eauto |].
    intros k t Ht Hd. unfold warningDue in Hd.
    apply andb_true_iff in Hd as [Hd _]. apply andb_true_iff in Hd as [Ho _]. eauto.
Qed.

(** ** The invariant of the table and the rooms *)

(** X10.  Every command and every teardown keeps entries and rooms together: the
    close command, the punishment filter, the teardown of a room, [submit],
    the delete command and the ban command. *)
Theorem linked_preserved w :
  linked w ->
  (forall toID now input res user,
      linked (fst (closeCommand toID now input res user w)))
  /\ (forall toID now punishmentType ids,
      linked (punishmentfilter toID now punishmentType ids w))
  /\ (forall now k, linked (destroyRoom now k w))
  /\ (forall now staffRoom P keys rateLimited ticketType u w' r,
      submit now staffRoom P keys rateLimited ticketType u w = Some (w', r) ->
      linked w')
  /\ (forall toID now canMakeRoom target user,
      linked (fst (deleteCommand toID now canMakeRoom target user w)))
  /\ (forall now affected, linked (banTickets now affected w)).
Proof.
  intros Hl.
  split; [intros; now apply linked_closeCommand |].
  split; [intros; now apply linked_punishmentfilter |].
  split; [intros; now apply linked_destroyRoom |].
  split; [intros; eapply linked_submit; eassumption |].
  split; [intros; now apply linked_deleteCommand |].
  intros; now apply linked_banTickets.
Qed.

(** ** After a restart *)

Lemma loadEntry_closed now st kv :
  (forall k t, tickets (live st) !! k = Some t -> open t = false) ->
  forall k t, tickets (live (loadEntry now false st kv)) !! k = Some t ->
    open t = false.
Proof.
  intros Hc. destruct kv as [k0 e]. unfold loadEntry.
  destruct (banned e).
  - destruct (banExpired now e); exact Hc.
  - destruct (_ <=? now).
    + destruct (rooms (live st) !! userid (entry e)) as [g |] eqn:Hr; [| exact Hc].
      destruct (writeStats now (CloseBool false) g) as [g1 l].
      cbn [live tickets]. exact Hc.
    + cbn [live tickets]. rewrite andb_true_r.
      intros k t. destruct (decide (k = k0)) as [-> | Hne].
      * rewrite lookup_insert_eq. intros [= <-].
        destruct (open (entry e)) eqn:Ho; simpl; auto.
      * rewrite lookup_insert_ne by congruence. apply Hc.
Qed.

Lemma loadEntry_restart now st kv :
  rooms (live st) = ∅ ->
  rooms (live (loadEntry now false st kv)) = ∅
  /\ (String.eqb (userid (entry (snd kv))) (fst kv) = true ->
      (forall k t, tickets (live st) !! k = Some t -> userid t = k) ->
      forall k t, tickets (live (loadEntry now false st kv)) !! k = Some t ->
        userid t = k).
Proof.
  intros Hr. destruct kv as [k0 e]. unfold loadEntry. simpl.
  destruct (banned e).
  - destruct (banExpired now e); simpl; auto.
  - destruct (_ <=? now).
    + rewrite Hr, lookup_empty. auto.
    + simpl. rewrite andb_true_r. split; [assumption |].
      intros Hk HK k t. apply String.eqb_eq in Hk.
      destruct (decide (k = k0)) as [-> | Hne].
      * rewrite lookup_insert_eq. intros [= <-].
        destruct (open (entry e)); simpl; assumption.
      * rewrite lookup_insert_ne by congruence. apply HK.
Qed.

(** X16.  After a load that is not a hot reload no entry of the table is open,
    whatever the rooms of the process and the table their games read.  At a
    restart, when the process has no help rooms, there is no room afterwards
    either, and a persisted table keyed by the user ids of its entries
    leaves entries and rooms together. *)
Theorem restart_leaves_no_open_ticket now ticketData :
  (forall oldTickets rooms0 k t,
      tickets (live (loadTickets now false oldTickets rooms0 ticketData)) !! k
      = Some t ->
      open t = false)
  /\ (forall oldTickets,
      rooms (live (loadTickets now false oldTickets ∅ ticketData)) = ∅)
  /\ (keyedByUserid ticketData = true ->
      forall oldTickets,
      linked (live (loadTickets now false oldTickets ∅ ticketData))).
Proof.
  assert (Hclosed : forall oldTickets rooms0 k t,
      tickets (live (loadTickets now false oldTickets rooms0 ticketData)) !! k
      = Some t ->
      open t = false).
  { intros oldTickets rooms0. induction ticketData as [| kv done IH] using rev_ind.
    - intros k t. simpl. rewrite lookup_empty. discriminate.
    - rewrite loadTickets_snoc. now apply loadEntry_closed. }
  assert (G : forall oldTickets,
    rooms (live (loadTickets now false oldTickets ∅ ticketData)) = ∅
    /\ (keyedByUserid ticketData = true ->
        forall k t,
          tickets (live (loadTickets now false oldTickets ∅ ticketData)) !! k
          = Some t ->
          userid t = k)).
  { clear Hclosed. intros oldTickets.
    induction ticketData as [| kv done IH] using rev_ind.
    - simpl. split; [reflexivity |]. intros _ k t. rewrite lookup_empty. discriminate.
    - rewrite loadTickets_snoc. destruct IH as (I1 & I3).
      destruct (loadEntry_restart now _ kv I1) as (L1 & L2).
      split; [assumption |].
      intros Hk. unfold keyedByUserid in Hk. rewrite forallb_app in Hk.
      apply andb_true_iff in Hk as [Hk1 Hk2]. simpl in Hk2.
      rewrite andb_true_r in Hk2. apply L2; [assumption |]. now apply I3. }
  split; [exact Hclosed |]. split; [intros oldTickets; apply G |].
  intros Hk oldTickets. destruct (G oldTickets) as (G1 & G3). split.
  - now apply G3.
  - intros k g. rewrite G1, lookup_empty. discriminate.
  - intros k t Ht Ho. rewrite (Hclosed _ _ _ _ Ht) in Ho. discriminate.
  - intros k g. rewrite G1, lookup_empty. discriminate.
Qed.

(** ** The order of the ticket list *)

(** X30.  The comparator of the ticket list is a consistent order: swapping the
    arguments swaps the sign, and being at most equal is transitive, so that
    the sorted list is determined up to ties.  An open ticket comes before a
    closed one, among the open tickets an active one before an inactive one,
    and otherwise the open tickets are listed oldest first and the closed
    ones newest first. *)
Theorem ticketListOrder_consistent a b c :
  (ticketListOrder a b < 0 <-> 0 < ticketListOrder b a)
  /\ (ticketListOrder a b = 0 <-> ticketListOrder b a = 0)
  /\ (ticketListOrder a b <= 0 -> ticketListOrder b c <= 0 -> ticketListOrder a c <= 0)
  /\ (open a = true -> open b = false -> ticketListOrder a b < 0)
  /\ (open a = true -> open b = true -> active a = true -> active b = false ->
      ticketListOrder a b < 0)
  /\ (open a = true -> open b = true -> active a = active b ->
      (ticketListOrder a b < 0 <-> created a < created b))
  /\ (open a = false -> open b = false ->
      (ticketListOrder a b < 0 <-> created b < created a)).
Proof.
  unfold ticketListOrder.
  destruct (open a), (open b), (open c), (active a), (active b), (active c);
    simpl; repeat split; intros; try discriminate; try lia.
Qed.

(** X28.  After the timer has fired its slot is free, and the next [notifyStaff]
    that still finds an open, active ticket held by nobody arms it anew for
    the full delay from the time of that call: one minute when an unheld
    request for assistance is among the first four open and active tickets,
    five minutes otherwise.  When it finds none, no timer is pending. *)
Theorem timer_rearmed_after_firing now hasRoom table keys s table' s' s'' :
  notifyUnclaimedTicket true hasRoom table s = Some (table', s') ->
  notifyStaff now true hasRoom table' keys s' = Some s'' ->
  ((exists k t, k ∈ keys /\ table' !! k = Some t /\ waiting t = true) ->
     exists delay,
       delay = (if existsb unheldAssistRequest (take 4 (liveTickets table' keys))
                then NOTIFY_ASSIST_TIMEOUT else NOTIFY_ALL_TIMEOUT)
       /\ s'' = mkTimerState (Some (now + delay)) (now + delay))
  /\ (~ (exists k t, k ∈ keys /\ table' !! k = Some t /\ waiting t = true) ->
      s'' = mkTimerState None 0).
Proof.
  intros H1. unfold notifyUnclaimedTicket in H1. cbn [negb] in H1.
  case_bool_decide as Hall; [| discriminate]. injection H1 as <- <-.
  unfold notifyStaff. cbn [negb].
  destruct (scanTickets _ _ _ keys) as [b |] eqn:Hscan; [| discriminate].
  destruct (scanTickets_flags _ _ _ _ Hscan) as (_ & _ & Hu & Ha).
  rewrite <- Ha. rewrite <- existsb_unheld_live, <- Hu. clear Hu Ha Hscan.
  remember (fst (staffFlags b)) as hu eqn:Ehu.
  remember (snd (staffFlags b)) as ha eqn:Eha.
  clear Ehu Eha. intros [= <-].
  split.
  - intros Hw. subst hu. eexists. split; [reflexivity |].
    destruct ha; reflexivity.
  - intros Hw.
    assert (Hf : hu = false) by (destruct hu; [contradiction | reflexivity]).
    subst hu. destruct ha; reflexivity.
Qed.

Section BanProperties.

Variable toID : string -> ID.

Lemma punishmentfilterId_closed now k' w k :
  linked w ->
  (k = k' \/ forall t, tickets w !! k = Some t -> open t = false) ->
  forall t, tickets (punishmentfilterId toID now k' w) !! k = Some t -> open t = false.
Proof.
  intros [K R O C] Hk t. unfold punishmentfilterId.
  destruct (rooms w !! k') as [g |] eqn:Hr.
  - pose proof (close_ticket toID now CloseTicketban None g) as Hct.
    destruct (close toID now CloseTicketban None g) as [g1 l]. simpl in Hct.
    simpl. rewrite Hct. simpl. rewrite (R _ _ Hr).
    destruct (decide (k = k')) as [-> | Hne].
    + rewrite lookup_insert_eq. intros [= <-]. reflexivity.
    + rewrite lookup_insert_ne by congruence.
      destruct Hk as [-> | Hk]; [contradiction | apply Hk].
  - intros Ht. destruct Hk as [-> | Hk]; [| now apply Hk].
    destruct (open t) eqn:Ho; [| reflexivity].
    destruct (O _ _ Ht Ho) as (g & Hg & _). congruence.
Qed.

Lemma punishmentfilter_fold now ids : forall w k,
  linked w ->
  (k ∈ ids \/ forall t, tickets w !! k = Some t -> open t = false) ->
  forall t,
    tickets (foldl (λ w' k', punishmentfilterId toID now k' w') w ids) !! k = Some t ->
    open t = false.
Proof.
  induction ids as [| k' ids IH]; intros w k Hl Hk; simpl.
  - destruct Hk as [Hk | Hk]; [inversion Hk | assumption].
  - apply IH; [now apply linked_punishmentfilterId |].
    destruct Hk as [Hk | Hk].
    + apply elem_of_cons in Hk as [-> | Hk]; [| now left].
      right. apply punishmentfilterId_closed; auto.
    + right. apply punishmentfilterId_closed; auto.
Qed.

(** X15.  When entries and rooms belong together, a ban of a user leaves no open
    ticket under any of the user's ids; a punishment other than a ban
    leaves everything as it is. *)
Theorem ban_leaves_no_open_ticket now punishmentType ids w :
  linked w ->
  (forall k t, k ∈ ids ->
     tickets (punishmentfilter toID now "BAN" ids w) !! k = Some t ->
     open t = false)
  /\ (punishmentType <> "BAN" ->
      punishmentfilter toID now punishmentType ids w = w).
Proof.
  intros Hl. split.
  - intros k t Hk. unfold punishmentfilter. simpl.
    apply punishmentfilter_fold; auto.
  - intros Hne. unfold punishmentfilter.
    apply String.eqb_neq in Hne. now rewrite Hne.
Qed.

End BanProperties.

(** X23.  When entries and rooms belong together, [submit] opens a ticket for every
    user who may ask for one (not global staff unless allowed to bypass,
    named, not ticket banned, not limited), asks for one of the ticket
    types, has no open ticket and whose address is that of no open ticket:
    it writes no statistics, leaves the other entries alone, and entries and
    rooms still belong together. *)
Theorem submit_succeeds now staffRoom P keys ticketType u w :
  linked w ->
  User.canLock (account u) && negb (bypassAll u) = false ->
  User.named (account u) = true ->
  checkBanned staffRoom P (inl u) = None ->
  (forall t, tickets w !! User.id (account u) = Some t -> open t = false) ->
  checkIp P (tickets w) (latestIp u) keys = None ->
  ticketType ∈ ticketTitles.*2 ->
  exists w',
    submit now staffRoom P keys false ticketType u w = Some (w', Opened)
    /\ statsLog w' = statsLog w
    /\ tickets w' !! User.id (account u) = Some (newTicket now ticketType u)
    /\ (forall k, k <> User.id (account u) -> tickets w' !! k = tickets w !! k)
    /\ linked w'.
Proof.
  intros Hl Hs Hn Hb Hown Hip Hty.
  assert (Hsub : submit now staffRoom P keys false ticketType u w
                 = Some (openTicket now false ticketType u w)).
  { unfold submit. rewrite Hs, Hn, Hb. simpl. rewrite Hip.
    destruct (tickets w !! User.id (account u)) as [t |] eqn:Ht.
    - rewrite (Hown t eq_refl). reflexivity.
    - reflexivity. }
  pose proof (linked_openTicket now false ticketType u w Hl) as Hl'.
  rewrite Hsub. unfold openTicket in *. simpl in *.
  rewrite bool_decide_eq_true_2 in * by assumption. simpl in *.
  eexists. split; [reflexivity |]. simpl.
  pose proof Hl as [K R O C].
  destruct (rooms w !! User.id (account u)) as [g |] eqn:Hr.
  - rewrite (destroyRoom_eq _ _ _ _ Hr) in *.
    assert (Hg : open (ticket g) = false).
    { destruct (open (ticket g)) eqn:Ho; [| reflexivity].
      destruct (C _ _ Hr Ho) as (t & Ht & Hto). rewrite (Hown t Ht) in Hto. discriminate. }
    rewrite Hg, andb_false_r in *. simpl in *.
    split; [reflexivity |]. split; [apply lookup_insert_eq |].
    split; [| exact Hl'].
    intros k Hk. now rewrite lookup_insert_ne by congruence.
  - rewrite (destroyRoom_absent _ _ _ Hr) in *.
    split; [reflexivity |]. split; [apply lookup_insert_eq |].
    split; [| exact Hl'].
    intros k Hk. now rewrite lookup_insert_ne by congruence.
Qed.


(** * Worked cases *)

(** The discipline of the room is what [claimant_never_queued] rests on:
    [onJoin] does not compare the joiner with the claimant.  In a run the
    room does not deliver, in which Alice joins once more while she holds
    the ticket, she is queued behind herself. *)
Lemma claimant_queued_on_second_join :
  claimed (ticket (run serverToID activeTicket doubleJoin)) = Some "Alice"
  /\ claimQueue (run serverToID activeTicket doubleJoin) = ["Alice"]
  /\ ~ (forall c,
          claimed (ticket (run serverToID activeTicket doubleJoin)) = Some c ->
          c ∉ claimQueue (run serverToID activeTicket doubleJoin)).
Proof.
  split; [reflexivity |]. split; [reflexivity |].
  intros H. apply (H "Alice"); [reflexivity |].
  vm_compute. left.
Qed.


Lemma onLeave_claimant_fifo_witness :
  claimQueue queuedTicket = ["Bob"; "Carol"]
  /\ claimed (ticket (onLeave serverToID 5000 staffA "" queuedTicket)) = Some "Bob"
  /\ claimQueue (onLeave serverToID 5000 staffA "" queuedTicket) = ["Carol"]
  /\ lastUnclaimedStart
       (onLeave serverToID 6000 staffA "" claimedTicket) = 6000.
Proof.
  split; [reflexivity |].
  destruct (onLeave_claimant_fifo serverToID 5000 staffA "" queuedTicket "Alice")
    as [Hpromote _];
    [reflexivity | reflexivity | reflexivity | reflexivity |].
  destruct (Hpromote "Bob" ["Carol"]) as (H1 & H2 & _);
    [reflexivity | discriminate |].
  split; [exact H1 |]. split; [exact H2 |].
  destruct (onLeave_claimant_fifo serverToID 6000 staffA "" claimedTicket "Alice")
    as [_ Hclear];
    [reflexivity | reflexivity | reflexivity | reflexivity |].
  destruct (Hclear eq_refl) as (_ & _ & H3). exact H3.
Defined.

(** C3.  Alice closes Dan's ticket with the close command, which writes one
    line; a second close command is refused.  The room is still there when
    Dan is banned: the punishment filter closes the closed ticket again and
    a second line is written for it. *)
Theorem second_close_writes_second_record :
  (open <$> tickets world0 !! "dan") = Some true
  /\ statsLog world0 = []
  /\ (open <$> tickets world1 !! "dan") = Some false
  /\ (open ∘ ticket <$> rooms world1 !! "dan") = Some false
  /\ length (statsLog world1) = 1%nat
  /\ closeCommand serverToID 5500 "Dan" true staffA world1 = (world1, false)
  /\ length (statsLog world2) = 2%nat
  /\ (line_result <$> statsLog world2) = [Some assisted; Some ticketban].
Proof. vm_compute. repeat split. Qed.



(** C5.  A timer armed for an assistance request at 1700000000000 fires at
    1700000060000.  A poke ten seconds before that, with the request still
    unclaimed, re-arms it for a full minute: it now fires at 1700000110000. *)
Theorem poke_lengthens_pending_timer :
  unclaimedTicketTimer armedAssist = Some 1700000060000
  /\ 1700000060000 - 1700000050000 < NOTIFY_ASSIST_TIMEOUT
  /\ unclaimedTicketTimer
       (pokeUnclaimedTicketTimer 1700000050000 true true true armedAssist)
     = Some 1700000110000
  /\ timerEnds (pokeUnclaimedTicketTimer 1700000050000 true true true armedAssist)
     = 1700000110000.
Proof. vm_compute. repeat split. Qed.

(** C6: Alice claims the active ticket while only staff is in the room, so
    the room is empty at the first claim; Dan joins again later and the
    ticket closes as [resolved], where the wording gives [unresolved]. *)
Lemma resolved_though_empty_at_first_claim :
  active (ticket activeTicket) = true
  /\ firstClaimTime activeTicket = 0
  /\ nonStaffPresent (ticket activeTicket) [staffA] = []
  /\ firstClaimTime (run serverToID activeTicket emptyRoomRun) = 2000
  /\ line_resolution
       (snd (close serverToID 4000 (CloseBool true) (Some staffA)
               (run serverToID activeTicket emptyRoomRun))) = resolved
  /\ specResolution true true true = unresolved.
Proof. vm_compute. repeat split. Qed.

Lemma resolution_at_close_witness :
  line_resolution
    (snd (close serverToID 4000 (CloseBool true) (Some staffA)
            (onJoin 2000 [staffA] staffA activeTicket))) = unresolved
  /\ emptyRoom (onJoin 2000 [staffA] staffA activeTicket) = true
  /\ emptyRoom (run serverToID activeTicket emptyRoomRun) = false
  /\ emptyRoom (onJoin 3000 [staffA; staffB] staffB
                  (onJoin 2000 [staffA] staffA activeTicket)) = true.
Proof.
  destruct (resolution_at_close serverToID) as (Hclose & Hfirst & Hplayer & Hlater).
  split.
  { destruct (Hclose 4000 (CloseBool true) (Some staffA)
                (onJoin 2000 [staffA] staffA activeTicket)) as [H _].
    rewrite H. reflexivity. }
  split.
  { destruct (Hfirst 2000 [staffA] staffA activeTicket) as [_ H];
      [reflexivity | reflexivity | discriminate | reflexivity | reflexivity |].
    rewrite H. reflexivity. }
  split.
  { apply (Hplayer 3000 [staffA; requester] requester
             (onJoin 2000 [staffA] staffA activeTicket)); reflexivity. }
  rewrite (Hlater 3000 [staffA; staffB] staffB
             (onJoin 2000 [staffA] staffA activeTicket));
    [reflexivity | reflexivity | reflexivity | discriminate].
Defined.

(** C7.  Alice claims a ticket that still waits for context, leaves and comes
    back; then Dan writes and the ticket becomes active, held by Alice until
    it is closed at 10000.  No interval after the activation is unclaimed,
    but the line reports the 7000 ms since Alice's leave at 3000. *)
Theorem unclaimedTime_counts_time_before_activation :
  activationTime (run serverToID inactiveTicket lateActivationRun) = 5000
  /\ claimed (ticket (run serverToID inactiveTicket lateActivationRun))
     = Some "Alice"
  /\ specUnclaimedIntervals serverToID inactiveTicket 1000 lateActivationRun 10000 = 0
  /\ line_unclaimedTime
       (snd (close serverToID 10000 (CloseBool true) (Some staffA)
               (run serverToID inactiveTicket lateActivationRun))) = 7000.
Proof. vm_compute. repeat split. Qed.

Lemma unclaimedTime_active_from_creation_witness :
  specUnclaimedIntervals serverToID activeTicket 1000 handoverRun 6000 = 2500
  /\ line_unclaimedTime
       (snd (close serverToID 6000 (CloseBool true) (Some staffB)
               (run serverToID activeTicket handoverRun))) = 2500.
Proof.
  split; [reflexivity |].
  change activeTicket with (newHelpTicket 1000 (freshTicket "Other" true 1000)).
  rewrite (unclaimedTime_active_from_creation serverToID 1000
             (freshTicket "Other" true 1000) handoverRun 6000 (CloseBool true)
             (Some staffB));
    [reflexivity | reflexivity | reflexivity | reflexivity | discriminate
     | reflexivity].
Defined.

Lemma unclaimedTime_zero_when_held_witness :
  claimed (ticket (run serverToID
                     (onJoin 1000 [requester; staffA] staffA inactiveTicket)
                     heldRun)) = Some "Bob"
  /\ line_unclaimedTime
       (snd (close serverToID 9000 (CloseBool true) (Some staffB)
               (run serverToID
                  (onJoin 1000 [requester; staffA] staffA inactiveTicket)
                  heldRun))) = 0.
Proof.
  split; [reflexivity |].
  apply (unclaimedTime_zero_when_held serverToID 1000
           (freshTicket "Other" false 1000) [requester; staffA] staffA heldRun
           9000 (CloseBool true) (Some staffB));
    [reflexivity | reflexivity | reflexivity | discriminate | reflexivity].
Defined.



(** C9: Alice closes a ticket that was never activated.  She is entered in
    [involvedStaff], but the last field of the line is empty. *)
Lemma staff_field_empty_when_never_activated :
  activationTime inactiveTicket = 0
  /\ involvedStaff (fst (close serverToID 5000 (CloseBool false) (Some staffA)
                           inactiveTicket)) = ["alice"]
  /\ line_involvedStaff (snd (close serverToID 5000 (CloseBool false)
                                (Some staffA) inactiveTicket)) = "".
Proof. vm_compute. repeat split. Qed.

(** The id entered is the one of the holder at the close, not of an earlier
    holder.  Alice has claimed the ticket and left; when Dan closes it
    nobody holds it: the empty id is entered and the last field of the line
    is empty, although Alice was the last to hold the ticket. *)
Lemma earlier_claimant_not_entered :
  firstClaimTime releasedTicket = 2000
  /\ claimed (ticket releasedTicket) = None
  /\ involvedStaff (fst (close serverToID 5000 (CloseBool true) (Some requester)
                           releasedTicket)) = [""]
  /\ line_involvedStaff (snd (close serverToID 5000 (CloseBool true)
                                (Some requester) releasedTicket)) = "".
Proof. vm_compute. repeat split. Qed.

Lemma involvedStaff_at_close_witness :
  involvedStaff (fst (close serverToID 5000 (CloseBool true) (Some staffA)
                        claimedTicket)) = ["alice"]
  /\ involvedStaff (fst (close serverToID 5000 (CloseBool true) (Some requester)
                           claimedTicket)) = ["alice"]
  /\ involvedStaff (fst (close serverToID 5000 (CloseBool true) (Some staffA)
                           (set_involvedStaff ["bob"] claimedTicket))) = ["bob"]
  /\ line_involvedStaff (snd (close serverToID 5000 (CloseBool true) (Some staffA)
                                claimedTicket)) = "alice".
Proof.
  destruct (involvedStaff_at_close serverToID 5000 (CloseBool true) (Some staffA)
              claimedTicket) as (Hfill & _ & Hline).
  destruct (Hfill eq_refl) as [Hstaff _].
  split; [apply (Hstaff staffA); [reflexivity | reflexivity | discriminate] |].
  destruct (involvedStaff_at_close serverToID 5000 (CloseBool true)
              (Some requester) claimedTicket) as (Hfill' & _ & _).
  destruct (Hfill' eq_refl) as [_ Hclaimant].
  split; [rewrite Hclaimant; reflexivity |].
  destruct (involvedStaff_at_close serverToID 5000 (CloseBool true) (Some staffA)
              (set_involvedStaff ["bob"] claimedTicket)) as (_ & Hkeep & _).
  split; [rewrite Hkeep; [reflexivity | discriminate] |].
  rewrite Hline. reflexivity.
Defined.

Lemma requester_close_outcome_witness :
  (exists g' l, forfeit serverToID 5000 requester requesterTicket = (g', [l])
     /\ line_result l = Some unassisted)
  /\ (exists l,
        statsLog (fst (closeCommand serverToID 5000 "Dan" true requester
                         requesterWorld)) = [l]
        /\ line_result l = Some unassisted)
  /\ positiveResult (resultFor "Appeal" false) = false
  /\ firstClaimTime (run serverToID activeTicket threeJoins) <> 0.
Proof.
  destruct (requester_close_outcome serverToID)
    as (Hforfeit & Hlast & Hcmd & Hsign & Hever).
  split.
  { destruct (Hlast 5000 requester requesterTicket) as (g' & l & Hf);
      [reflexivity | reflexivity | reflexivity |].
    exists g', l. split; [exact Hf |].
    rewrite (Hforfeit 5000 requester requesterTicket g' l Hf). reflexivity. }
  split.
  { destruct (Hcmd 5000 "Dan" true requester requesterWorld
                (ticket requesterTicket) requesterTicket) as (l & Hlog & Hres);
      [reflexivity | reflexivity | reflexivity | reflexivity | reflexivity |].
    exists l. split; [exact Hlog | rewrite Hres; reflexivity]. }
  split; [apply Hsign |].
  apply (Hever 1000 (freshTicket "Other" true 1000) threeJoins);
    reflexivity.
Defined.

(** ** Further worked cases *)

Lemma linked_pair k g log :
  userid (ticket g) = k -> linked (mkWorld {[ k := ticket g ]} {[ k := g ]} log).
Proof.
  intros Hk. split; simpl.
  - intros k' t. rewrite lookup_singleton_Some. intros [<- <-]. exact Hk.
  - intros k' g'. rewrite lookup_singleton_Some. intros [<- <-]. exact Hk.
  - intros k' t. rewrite lookup_singleton_Some. intros [<- <-] Ho.
    exists g. rewrite lookup_singleton_eq. auto.
  - intros k' g'. rewrite lookup_singleton_Some. intros [<- <-] Ho.
    exists (ticket g). rewrite lookup_singleton_eq. auto.
Qed.

Lemma linked_world0 : linked world0.
Proof. apply linked_pair. reflexivity. Qed.

Lemma claim_queue_discipline_witness :
  NoDup (serverToID <$> claimQueue (run serverToID activeTicket threeJoins))
  /\ claimQueue (run serverToID activeTicket threeJoins) = ["Bob"; "Carol"]
  /\ "bob" ∈ presentAfter [] threeJoins.
Proof.
  destruct (claim_queue_discipline serverToID 1000 (freshTicket "Other" true 1000)
              [] threeJoins) as (H1 & _ & H3 & _);
    [reflexivity | reflexivity | reflexivity |].
  split; [exact H1 |]. split; [reflexivity |].
  apply (H3 "Bob"). vm_compute. left.
Defined.

Lemma onLeave_waiting_staff_witness :
  claimQueue queuedTicket = ["Bob"; "Carol"]
  /\ onLeave serverToID 5000 staffC "" queuedTicket
     = set_claimQueue ["Bob"] queuedTicket
  /\ onLeave serverToID 5000 staffC "" claimedTicket = claimedTicket.
Proof.
  split; [reflexivity |].
  destruct (onLeave_waiting_staff serverToID 5000 staffC "" queuedTicket)
    as [Hqueued _];
    [reflexivity | reflexivity | vm_compute; discriminate |].
  split.
  - apply (Hqueued ["Bob"] "Carol" []); [reflexivity | reflexivity |].
    vm_compute. intros H. apply elem_of_cons in H as [H | H]; [discriminate |].
    inversion H.
  - destruct (onLeave_waiting_staff serverToID 5000 staffC "" claimedTicket)
      as [_ Habsent];
      [reflexivity | reflexivity | vm_compute; discriminate |].
    apply Habsent. vm_compute. intros H. inversion H.
Defined.

Lemma activation_once_witness :
  active (ticket (run serverToID inactiveTicket chatRun)) = true
  /\ activationTime (run serverToID inactiveTicket chatRun) = 4000
  /\ activationTime (run serverToID activeTicket chatRun) = 1000.
Proof.
  destruct (activation_once serverToID) as [Hstay Hstart].
  split; [reflexivity |]. split.
  - destruct (Hstart (run serverToID inactiveTicket (take 2 chatRun))
                (4000, LogMessage "Somebody keeps insulting me in PMs" requester))
      as (m & u & _ & _ & _ & _ & Hat & _); [reflexivity | reflexivity |].
    destruct (Hstay (step serverToID (run serverToID inactiveTicket (take 2 chatRun))
                       (4000, LogMessage "Somebody keeps insulting me in PMs" requester))
                (drop 3 chatRun)) as [_ Hkeep]; [reflexivity |].
    change (run serverToID inactiveTicket chatRun)
      with (run serverToID
              (step serverToID (run serverToID inactiveTicket (take 2 chatRun))
                 (4000, LogMessage "Somebody keeps insulting me in PMs" requester))
              (drop 3 chatRun)).
    rewrite Hkeep. exact Hat.
  - destruct (Hstay activeTicket chatRun) as [_ Hkeep]; [reflexivity |].
    rewrite Hkeep. reflexivity.
Defined.

Lemma involvedStaff_during_run_witness :
  involvedStaff (run serverToID inactiveTicket chatRun) = ["bob"; "alice"]
  /\ ("dan" ∉ involvedStaff (run serverToID inactiveTicket chatRun))
  /\ "alice" ∈ involvedStaff (run serverToID inactiveTicket chatRun).
Proof.
  destruct (involvedStaff_during_run serverToID 1000 (freshTicket "Other" false 1000)
              chatRun) as (_ & H2 & H3 & _).
  split; [reflexivity |]. split; [exact H2 |].
  apply (H3 eq_refl "alice").
  exists 5000, "Thanks, I am looking into it", staffA.
  split; [vm_compute; do 3 right; left |].
  split; [reflexivity |]. split; [reflexivity | discriminate].
Defined.

Lemma statistics_times_bounds_witness :
  line_totalTime
    (snd (close serverToID 6000 (CloseBool true) (Some staffB)
            (run serverToID activeTicket handoverRun))) = 5000
  /\ 0 <= line_firstClaimWait
            (snd (close serverToID 6000 (CloseBool true) (Some staffB)
                    (run serverToID activeTicket handoverRun))) <= 5000
  /\ 0 <= line_unclaimedTime
            (snd (close serverToID 6000 (CloseBool true) (Some staffB)
                    (run serverToID activeTicket handoverRun))) <= 5000.
Proof.
  apply (statistics_times_bounds serverToID 1000 (freshTicket "Other" true 1000)
           handoverRun 6000 (CloseBool true) (Some staffB));
    [reflexivity | reflexivity | reflexivity | discriminate | reflexivity | reflexivity].
Defined.

Lemma notifyStaff_scan_witness :
  exists b,
    scanTickets (λ _, true) busyTable (mkStaffBox 0 0 0 false false) busyKeys = Some b
    /\ count b = 4%nat /\ hiddenTicketCount b = 2%nat
    /\ fst (staffFlags b) = true /\ snd (staffFlags b) = false.
Proof.
  eexists. split; [vm_compute; reflexivity |].
  match goal with |- count ?b = _ /\ _ =>
    destruct (notifyStaff_scan (λ _, true) busyTable busyKeys b)
      as (H1 & H2 & H3 & H4 & _); [vm_compute; reflexivity |]
  end.
  split; [rewrite H1; reflexivity |]. split; [rewrite H2; reflexivity |].
  split; [| rewrite H4; reflexivity].
  apply H3. exists "u5", (ticketOf "u5" "Public Room Assistance Request" 5 None).
  split; [vm_compute; do 4 right; left |]. split; reflexivity.
Defined.

Lemma notifyStaff_timer_witness :
  exists s',
    notifyStaff 9000 true (λ _, true) busyTable busyKeys (mkTimerState None 0) = Some s'
    /\ is_Some (unclaimedTicketTimer s') /\ timerNoted s'.
Proof.
  eexists. split; [vm_compute; reflexivity |].
  match goal with |- is_Some (unclaimedTicketTimer ?s') /\ _ =>
    destruct (notifyStaff_timer 9000 (λ _, true) busyTable busyKeys
                (mkTimerState None 0) s') as [H1 H2]; [vm_compute; reflexivity |]
  end.
  split; [| apply H2; reflexivity].
  apply H1. exists "u5", (ticketOf "u5" "Public Room Assistance Request" 5 None).
  split; [vm_compute; do 4 right; left |]. split; reflexivity.
Defined.

Lemma notifyUnclaimedTicket_once_witness :
  exists table',
    notifyUnclaimedTicket true (λ _, true) busyTable (mkTimerState (Some 9000) 9000)
    = Some (table', mkTimerState None 0)
    /\ (needsDelayWarning <$> table' !! "u5") = Some false
    /\ (needsDelayWarning <$> table' !! "u1") = Some true
    /\ notifyUnclaimedTicket true (λ _, true) table' (mkTimerState None 0)
       = Some (table', mkTimerState None 0).
Proof.
  eexists. split; [vm_compute; reflexivity |].
  match goal with |- (needsDelayWarning <$> ?T !! _) = _ /\ _ =>
    destruct (notifyUnclaimedTicket_once (λ _, true) busyTable
                (mkTimerState (Some 9000) 9000) T (mkTimerState None 0))
      as (_ & H2 & _ & _ & H5); [vm_compute; reflexivity |]
  end.
  split; [rewrite H2; reflexivity |]. split; [rewrite H2; reflexivity |]. exact H5.
Defined.

Lemma warningDue_types_witness :
  warningDue (ticketOf "u5" "Public Room Assistance Request" 5 None) = true
  /\ warningDue (ticketOf "u6" "Other" 6 None) = false.
Proof.
  split.
  - apply (warningDue_types (ticketOf "u5" "Public Room Assistance Request" 5 None)).
    + vm_compute. do 7 right. left.
    + repeat split; discriminate.
  - destruct (warningDue (ticketOf "u6" "Other" 6 None)) eqn:E; [| reflexivity].
    apply (warningDue_types (ticketOf "u6" "Other" 6 None)) in E.
    + destruct E as (_ & _ & _ & _ & H & _). now contradiction H.
    + vm_compute. do 8 right. left.
Defined.

Lemma timer_rearmed_after_firing_witness :
  exists table' s'',
    notifyUnclaimedTicket true (λ _, true) busyTable (mkTimerState (Some 9000) 9000)
    = Some (table', mkTimerState None 0)
    /\ notifyStaff 9500 true (λ _, true) table' busyKeys (mkTimerState None 0) = Some s''
    /\ s'' = mkTimerState (Some (9500 + NOTIFY_ALL_TIMEOUT)) (9500 + NOTIFY_ALL_TIMEOUT).
Proof.
  eexists. eexists. split; [vm_compute; reflexivity |].
  split; [vm_compute; reflexivity |].
  match goal with |- ?S = _ =>
    destruct (timer_rearmed_after_firing 9500 (λ _, true) busyTable busyKeys
                (mkTimerState (Some 9000) 9000)
                (fst (default (∅, mkTimerState None 0)
                        (notifyUnclaimedTicket true (λ _, true) busyTable
                           (mkTimerState (Some 9000) 9000))))
                (mkTimerState None 0) S) as [H _];
      [vm_compute; reflexivity | vm_compute; reflexivity |]
  end.
  destruct H as (delay & -> & H).
  - exists "u5", (set_needsDelayWarning false
                    (ticketOf "u5" "Public Room Assistance Request" 5 None)).
    split; [vm_compute; do 4 right; left |]. split; reflexivity.
  - reflexivity.
Defined.

Lemma checkIp_spec_witness :
  checkIp noPunishments (tickets world0) "10.0.0.1" ["dan"]
  = Some (ticket claimedTicket)
  /\ checkIp samplePunishments (tickets world0) "10.0.0.7" ["dan"] = None
  /\ ip (ticket claimedTicket) = "10.0.0.1".
Proof.
  destruct (checkIp_spec noPunishments (tickets world0) "10.0.0.1" ["dan"])
    as [Hfound _].
  split; [reflexivity |]. split; [reflexivity |].
  apply (Hfound (ticket claimedTicket)). reflexivity.
Defined.

Lemma checkBanned_spec_witness :
  checkBanned true samplePunishments (inr "gus") = Some gusBan
  /\ checkBanned true samplePunishments (inl halSubmits) = Some gusBan
  /\ checkBanned true samplePunishments (inl idaSubmits)
     = checkBanned true samplePunishments (inr "ida")
  /\ checkBanned true samplePunishments (inr "ida") = None.
Proof.
  destruct (checkBanned_spec true samplePunishments (inr "gus")) as (_ & Hid & _).
  split; [apply Hid; reflexivity |].
  destruct (checkBanned_spec true samplePunishments (inl halSubmits))
    as (Hsound & _ & _).
  split; [reflexivity |].
  destruct (checkBanned_spec true samplePunishments (inl idaSubmits))
    as (_ & _ & _ & Hshared).
  split; [| reflexivity].
  apply (Hshared idaSubmits); [reflexivity |]. vm_compute. set_solver.
Defined.

Lemma submit_refused_witness :
  exists w',
    submit 7000 true noPunishments ["dan"] true "Other" danSubmits orphanWorld
    = Some (w', TicketLimit)
    /\ (open <$> tickets orphanWorld !! "dan") = Some true
    /\ (open <$> tickets w' !! "dan") = Some false
    /\ rooms w' = rooms orphanWorld /\ statsLog w' = statsLog orphanWorld.
Proof.
  eexists. split; [vm_compute; reflexivity |].
  match goal with |- _ /\ (open <$> tickets ?W !! _) = _ /\ _ =>
    destruct (submit_refused 7000 true noPunishments ["dan"] true "Other" danSubmits
                orphanWorld W TicketLimit) as (H1 & H2 & _);
      [vm_compute; reflexivity | discriminate |]
  end.
  split; [reflexivity |]. split; [reflexivity |]. split; [exact H1 | exact H2].
Defined.

Lemma submit_opened_witness :
  exists w',
    submit 7000 true noPunishments ["dan"] false "ISP-Appeal" erinSubmits world0
    = Some (w', Opened)
    /\ tickets w' !! "erin" = Some (newTicket 7000 "ISP-Appeal" erinSubmits)
    /\ active (newTicket 7000 "ISP-Appeal" erinSubmits) = true
    /\ active (newTicket 7000 "Other" erinSubmits) = false
    /\ rooms w' !! "dan" = Some claimedTicket.
Proof.
  eexists. split; [vm_compute; reflexivity |].
  match goal with |- tickets ?W !! _ = _ /\ _ =>
    destruct (submit_opened 7000 true noPunishments ["dan"] false "ISP-Appeal"
                erinSubmits world0 W)
      as (_ & _ & _ & _ & _ & Ht & _ & Hothers & Hact); [vm_compute; reflexivity |]
  end.
  split; [exact Ht |]. split; [apply Hact; reflexivity |].
  split; [reflexivity |].
  rewrite (Hothers "dan"); [reflexivity | discriminate].
Defined.


Lemma closeCommand_once_witness :
  closeCommand serverToID 5000 "Dan" true staffA world0 = (world1, true)
  /\ closeCommand serverToID 5500 "Dan" false staffB world1 = (world1, false)
  /\ statsLog (destroyRoom 6000 "dan" world1) = statsLog world1.
Proof.
  destruct (closeCommand_once serverToID 5000 "Dan" true staffA world0 world1
              linked_world0) as (_ & Hagain & Hdestroy); [reflexivity |].
  split; [reflexivity |]. split; [apply Hagain | apply (Hdestroy 6000)].
Defined.


Lemma destroyRoom_spec_witness :
  rooms (destroyRoom 7000 "dan" world0) !! "dan" = None
  /\ (open <$> tickets (destroyRoom 7000 "dan" world0) !! "dan") = Some false
  /\ (line_result <$> statsLog (destroyRoom 7000 "dan" world0)) = [Some unassisted].
Proof.
  destruct (destroyRoom_spec 7000 "dan" world0 claimedTicket linked_world0)
    as (H1 & H2 & _); [reflexivity |].
  split; [exact H1 |].
  destruct (H2 eq_refl) as [Ht _].
  split; [rewrite Ht; reflexivity | reflexivity].
Defined.

Lemma banTicket_spec_witness :
  (open <$> tickets (banTicket 7000 "dan" world0) !! "dan") = Some false
  /\ rooms (banTicket 7000 "dan" world0) !! "dan" = None
  /\ (line_result <$> statsLog (banTicket 7000 "dan" world0)) = [Some ticketban]
  /\ (line_result <$> statsLog (banTicket 7000 "dan" world1))
     = [Some assisted; Some ticketban].
Proof.
  destruct (banTicket_spec 7000 "dan" world0 linked_world0) as (H1 & H2 & _ & _).
  split; [rewrite H1; reflexivity |]. split; [exact H2 |].
  split; reflexivity.
Defined.

Lemma notifications_find_rooms_witness :
  is_Some (notifyStaff 7000 true (hasHelpRoom unclaimedWorld)
             (tickets unclaimedWorld) ["dan"] (mkTimerState None 0))
  /\ is_Some (notifyUnclaimedTicket true (hasHelpRoom unclaimedWorld)
                (tickets unclaimedWorld) (mkTimerState (Some 7000) 7000)).
Proof.
  destruct (notifications_find_rooms 7000 true ["dan"] unclaimedWorld
              (mkTimerState None 0)) as [H1 _].
  - apply linked_pair. reflexivity.
  - intros k Hk. apply elem_of_cons in Hk as [-> | Hk]; [| inversion Hk].
    vm_compute. eauto.
  - split; [exact H1 |].
    destruct (notifications_find_rooms 7000 true ["dan"] unclaimedWorld
                (mkTimerState (Some 7000) 7000)) as [_ H2].
    + apply linked_pair. reflexivity.
    + intros k Hk. apply elem_of_cons in Hk as [-> | Hk]; [| inversion Hk].
      vm_compute. eauto.
    + exact H2.
Defined.

Lemma linked_preserved_witness :
  linked world0
  /\ linked world1
  /\ linked world2
  /\ linked (banTickets 7000 ["dan"; "erin"] world0).
Proof.
  split; [exact linked_world0 |].
  destruct (linked_preserved world0 linked_world0) as (Hclose & _ & _ & _ & _ & Hban).
  split; [apply (Hclose serverToID 5000 "Dan" true staffA) |].
  split; [| apply Hban].
  destruct (linked_preserved world1 (Hclose serverToID 5000 "Dan" true staffA))
    as (_ & Hfilter & _).
  apply (Hfilter serverToID 6000 "BAN" ["dan"]).
Defined.

Lemma restart_leaves_no_open_ticket_witness :
  (open <$> tickets (live (loadTickets 100000000 false ∅ ∅ sampleTable)) !! "dan")
  = Some false
  /\ open (entry recentEntry) = true
  /\ linked (live (loadTickets 100000000 false ∅ ∅ sampleTable)).
Proof.
  destruct (restart_leaves_no_open_ticket 100000000 sampleTable) as (H1 & _ & H3).
  split.
  - destruct (tickets (live (loadTickets 100000000 false ∅ ∅ sampleTable)) !! "dan")
      as [t |] eqn:Ht; [| vm_compute in Ht; discriminate].
    simpl. now rewrite (H1 ∅ ∅ "dan" t Ht).
  - split; [reflexivity |]. apply H3. reflexivity.
Defined.

Lemma ticketListOrder_consistent_witness :
  ticketListOrder (ticketOf "u1" "Appeal" 1 None) (ticketOf "u2" "Other" 2 None) < 0
  /\ 0 < ticketListOrder (ticketOf "u2" "Other" 2 None) (ticketOf "u1" "Appeal" 1 None)
  /\ ticketListOrder (ticketOf "u2" "Other" 2 None)
       (set_open false (ticketOf "u1" "Appeal" 1 None)) < 0.
Proof.
  destruct (ticketListOrder_consistent (ticketOf "u1" "Appeal" 1 None)
              (ticketOf "u2" "Other" 2 None)
              (set_open false (ticketOf "u1" "Appeal" 1 None)))
    as (Hswap & _ & _ & _ & _ & Hage & _).
  assert (H : ticketListOrder (ticketOf "u1" "Appeal" 1 None)
                (ticketOf "u2" "Other" 2 None) < 0).
  { apply Hage; [reflexivity | reflexivity | reflexivity | simpl; lia]. }
  split; [exact H |]. split; [apply Hswap; exact H |].
  destruct (ticketListOrder_consistent (ticketOf "u2" "Other" 2 None)
              (set_open false (ticketOf "u1" "Appeal" 1 None))
              (ticketOf "u1" "Appeal" 1 None))
    as (_ & _ & _ & Hopen & _).
  apply Hopen; reflexivity.
Defined.

Lemma ban_leaves_no_open_ticket_witness :
  (open <$> tickets (punishmentfilter serverToID 6000 "BAN" ["dan"] world0) !! "dan")
  = Some false
  /\ punishmentfilter serverToID 6000 "LOCK" ["dan"] world0 = world0.
Proof.
  destruct (ban_leaves_no_open_ticket serverToID 6000 "LOCK" ["dan"] world0
              linked_world0) as [Hclosed Hother].
  split; [| apply Hother; discriminate].
  destruct (tickets (punishmentfilter serverToID 6000 "BAN" ["dan"] world0) !! "dan")
    as [t |] eqn:Ht; [| vm_compute in Ht; discriminate].
  simpl. rewrite (Hclosed "dan" t); [reflexivity | left | exact Ht].
Defined.

Lemma linked_world1 : linked world1.
Proof. apply linked_closeCommand. exact linked_world0. Qed.

Lemma submit_succeeds_witness :
  exists w',
    submit 7000 true noPunishments ["dan"] false "Appeal" danSubmits world1
    = Some (w', Opened)
    /\ statsLog w' = statsLog world1
    /\ (open <$> tickets world1 !! "dan") = Some false
    /\ (open <$> tickets w' !! "dan") = Some true.
Proof.
  destruct (submit_succeeds 7000 true noPunishments ["dan"] "Appeal" danSubmits world1)
    as (w' & H1 & H2 & H3 & _).
  - exact linked_world1.
  - reflexivity.
  - reflexivity.
  - reflexivity.
  - intros t Ht. vm_compute in Ht. injection Ht as <-. reflexivity.
  - reflexivity.
  - vm_compute. do 4 right. left.
  - exists w'. split; [exact H1 |]. split; [exact H2 |]. split; [reflexivity |].
    change (User.id (account danSubmits)) with "dan" in H3.
    rewrite H3. reflexivity.
Defined.


Lemma firstClaimTime_written_once_witness :
  firstClaimTime (run serverToID claimedTicket (drop 1 handoverRun)) = 2000
  /\ claimed (ticket claimedTicket) = Some "Alice"
  /\ createTime (run serverToID activeTicket handoverRun) = 1000.
Proof.
  destruct (firstClaimTime_written_once serverToID) as (Hfirst & Hkeep & Hcreate).
  destruct (Hfirst activeTicket (2000, Join staffA [requester; staffA]))
    as (u & us & _ & _ & _ & _ & _ & Hat & _);
    [reflexivity | vm_compute; discriminate |].
  split.
  - rewrite Hkeep; [exact Hat | vm_compute; discriminate].
  - split; [reflexivity |]. rewrite Hcreate. reflexivity.
Defined.

